(* ===== verification/_CoqProject ===== *)
-Q . S2P
Spec2Rocq.v
JsString.v
JsObject.v
JsHeap.v
LayerData.v
Util.v
LayerMerge.v
LayerBound.v
LayerClassify.v
LayerRefine.v
Pipeline.v
LayerOrder.v
Env.v
Fs.v
RemoveDirectory.v
LayerTests.v
