(* ===== verification/Spec2Rocq.v ===== *)
(** * serverless-plugin-datadog: a verification development

    The program is a plugin for a serverless packaging tool.  At package time
    it walks the function definitions of a service, classifies each one by
    its runtime ([findHandlers], src/src/layer.ts), attaches the vendor's
    Lambda layer for that runtime and region to the function's layer list
    ([applyLayers], same file), and fills default environment variables
    ([setEnvConfiguration], [getConfig], src/src/env.ts).  Two helpers live
    in src/src/util.ts: [getHandlerPath] splits a handler reference
    "dir/file.method" at its last dot, and [removeDirectory] deletes a
    directory with everything below it.  src/unnamed/part_000 is the jest suite of layer.ts.

    ** How the program is modelled

    The code is JavaScript: objects are shared by reference and mutated in
    place, a property read walks the prototype chain, and a method call on
    [undefined] throws.  The development keeps these three behaviours
    instead of idealising them away.

    - Store and aliasing.  Function definitions and layer arrays live in a
      heap of two finite maps from locations to values (JsHeap.v).  A
      [HandlerInfo] holds the location of its function definition, and a
      function definition holds the location of its [layers] array, so two
      functions that share one array (a YAML alias) are two references to
      one location, as in the running program.
    - Effects.  Stateful code is written in the state-and-exception monad
      [M] of this file: a computation maps a store to an outcome and a
      store.  An outcome is [Ok a], or [Throw e] where [e] is a
      JavaScript [TypeError], a rejected system call [SystemError], or
      [OutOfModel f].  [OutOfModel] marks an input on which the model
      declines to answer: a dangling location (which no JavaScript program
      can build), a property name that the object would inherit from
      [Object.prototype] (where the code's result is a function object,
      which the typed model has no value for), a symbolic link that a
      call would follow, or a recursion that ran out of fuel.
    - Paths are lists of components: [path + "/" + file] is
      [path ++ [file]].
    - Strings are Rocq strings, i.e. byte sequences.  The only character the
      code inspects is the ASCII dot, which no UTF-8 multi-byte sequence
      contains, so [split(".")] on bytes and on UTF-16 code units cut a
      string at the same places.
    - Objects used as dictionaries are [gmap string _]; [Object.entries]
      order is kept by an association list; [new Set(a).has(x)] is
      membership in [list_to_set a : gset string].

    ** Files, in dependency order

    - Spec2Rocq.v (this file): the shared prelude.  Outcomes and the monad
      [M] with its notation (scope [js_scope]), the loop combinators
      [for_of] and [array_map], the weakest-precondition predicate [wp]
      with one rule per combinator and the loop-invariant rules, the hint
      databases [js] and [js_rw], the tactics [run], [wp_step], [wp_auto]
      and [js_run], and list lemmas shared by the components.
    - JsString.v: the string and array operations of [getHandlerPath]:
      [split], [join], [slice_init] for [slice(0, -1)], [last_elem] for
      [a[a.length - 1]], with the lemmas that relate them.
    - JsObject.v: property lookup on plain objects ([js_get], [js_index],
      [js_in]) with the names of [Object.prototype].
    - JsHeap.v: locations, [FunctionDefinition], the store, its primitive
      operations in [M] (read, write, allocate, push), the invariants
      [wf_heap] and [nodup_heap], the view [layers_of].
    - LayerData.v: the data of layer.ts: [RuntimeType], [HandlerInfo],
      [LayerJSON], [runtimeLookup], and the part of the host's [Service]
      the plugin reads.
    - Util.v: [getHandlerPath] (util.ts 37-46) and its theorems.
    - LayerMerge.v: the merger of layer.ts.  [getLayers] (115-121),
      [setLayers] (123-125) and [applyLayers] (92-113) with its loop body
      [applyLayer], each following the source statement by statement.
      Then one iteration of the loop as the inductive relation [step],
      proved to describe every run of [applyLayer]; the preorder [grows]
      on stores; the invariant rule [applyLayers_invariant]; the frame
      [untouched] of an array that no record reaches; saturation of a
      handler and totality of the loop; the theorems on the pass and a
      scenario with sharing.
    - LayerBound.v: the number of entries of all layer arrays and the
      bound on what a pass adds to it.
    - LayerClassify.v: the classifier of layer.ts.  [hasWebpackPlugin]
      (127-133) and [findHandlers] (48-90) with its callback
      [classifyEntry] and the probes [probeNodeType], statement by
      statement.  The calls to [fs.existsSync] go through the interface
      [FileSystem] (a type class), so the theorems on the classifier hold
      for every file system.  Then the outcomes of the callback as the
      inductive relation [classified], proved to describe every run of
      [classifyEntry]; one theorem per branch; the theorems on the whole
      classification.
    - LayerRefine.v: the specification [merge_spec] of the merger on layer
      lists as values, the abstraction [view] from a store, the
      refinement of the specification by [applyLayers] on stores without
      sharing, and the theorem that with sharing the program and the
      specification differ.
    - Pipeline.v: the classifier and the merger composed
      ([classifyAndMerge]), the interface [Classifier] that states what the
      merger needs from a classifier, the theorems on the composition
      proved against the interface, and [findHandlers] as an instance.
    - LayerOrder.v: the equivalence [same_layers] of layer assignments up
      to the order inside a list, the [Proper] instances that make
      [merge_spec] insensitive to the order of the records, and the
      theorems that neither the order of the records nor the order in
      which [Object.entries] yields the functions changes the layers.
    - Env.v: [Configuration], [defaultConfiguration], [getConfig] and
      [setEnvConfiguration] of env.ts; [provider.environment] is a [gmap].
    - Fs.v: the file system [removeDirectory] works on: a finite map from
      paths (lists of components) to file, link or directory, the five
      calls of Node's [fs] module that util.ts binds (lines 14-18) with
      their rejections, the interface [DirOrder] for the order of a
      listing, well-formedness, and the specification [remove_tree].
    - RemoveDirectory.v: [removeDirectory] (util.ts 20-35) with fuel for
      its recursion, the loop over the entries, and the theorems.
    - LayerTests.v: the tests of the jest suite (part_000) as closed
      propositions, decided by evaluation.  They check the definitions
      against the behaviour the repository records of the code; they are
      evidence for the model, not properties of the program.

    ** What the theorems show

    - Classification (spec 4.1, 8): a runtime outside the table gives
      UNSUPPORTED; a Python runtime is passed through; a Node runtime is
      refined by the forced dialect, else by the probes, where a .ts file
      wins over the ES6 indications; a handler without a dot drops the
      function; the output keeps the order of the entries; every record
      carries the name and the function of an entry of the service and
      the effective runtime of that function, and its category agrees
      with the runtime table ([supported_by_table]); [findHandlers] never
      writes the store and does not depend on what the merger writes; it
      returns exactly on the services that [classifiable] describes; when
      it throws, the exception is the TypeError for a Node function
      without a [handler] property or one of the two faults of the model
      (a dangling location, an inherited runtime name), so the TypeError
      is the only exception of the program.
    - Merging (spec 4.2, 8): no layer list holds a duplicate after a pass
      that started without one, also under sharing; old entries stay as a
      prefix; no function is removed, handler and runtime of every
      function are kept, a function that no record names keeps its
      properties and, unless it shares its array with a function that a
      record names, the contents of its layer list; the pass is total on
      a well-formed store and idempotent; every supported handler ends
      with its layer; a pass adds at most one entry per handler record;
      on a store without sharing the pass computes exactly [merge_spec];
      with sharing it does not: a function that shares its array with the
      function of a record gets the layer of that record, which the
      specification does not give it.  That the store stays well-formed
      ([applyLayers_wf]) is a lemma of the development, used by the
      theorems; it says nothing of the program by itself.
    - Order: on a store without sharing the layers of every function are
      the same, up to the order inside a list, for every order of the
      handler records and for every order in which the functions of the
      service are listed.
    - Composition: classification followed by merging is total and
      idempotent for every classifier that meets [Classifier].
    - Handler paths: [getHandlerPath] cuts at the last dot; when it
      answers, the method has no dot, and file name, dot and method
      concatenate back to the reference; without a [handler] property it
      throws.
    - Environment: a variable the user set keeps its value; the value of
      each of the five variables after the call; other variables are
      untouched; the first configuration wins, so a second call changes
      nothing, with the same configuration or with another that brings
      no new key; [getConfig] overlays the user's properties on the
      defaults.
    - Directory removal: on a directory of a well-formed file system
      [removeDirectory] returns and removes exactly the directory and what
      is below it, links included and not followed; the recursion ends,
      and fuel beyond the depth of the file system changes nothing; a
      missing path is a no-op; a regular file is rejected with ENOTDIR;
      the order of the listings does not matter.
    - Tests: the fourteen tests of the jest suite hold of the model
      ([jest_suite]); this supports the definitions and is not counted
      among the properties.

    Each theorem with hypotheses is applied to a concrete service in a
    lemma named after it ([..._witness]).

    ** Bounds and fuel

    The loops of layer.ts and env.ts iterate over finite arrays and are
    structural recursions on lists ([for_of], [array_map]); [split]
    recurses on the string.  Only [removeDirectory] takes fuel: its
    recursion follows the directory tree, one unit per level.  With no
    fuel left the model answers [OutOfModel OutOfFuel], which no theorem
    takes for a result: [deep_enough fuel p σ] (every path of [σ] is
    shorter than [length p + fuel]) is enough for the call at [p], the fuel
    [S (depth σ)] is always enough, and any larger fuel gives the same
    answer.  Locations are [positive] and strings unbounded, as in the
    running program; no machine-width integer occurs in the code.

    ** Not modelled

    - The host tool (serverless) and its lifecycle hooks, and the layer
      ARN table, which is an input of [applyLayers].
    - Interleaving: [removeDirectory] is asynchronous, and another process
      can change the file system between two of its calls; the model is
      the run without interference.  Permissions and the failures they
      cause are left out, as are the targets of symbolic links: [exists]
      and [readdir] on a link answer [OutOfModel].
    - The file system as [findHandlers] sees it is only the existence
      probe [FileSystem] of LayerClassify.v; it is not tied to the store
      of Fs.v.
    - The order in which [Object.entries] yields integer-like keys:
      [functions] of [Service] is the list of entries as yielded.
      LayerOrder.v shows what the order can change.
    - A service whose [functions] is undefined, and a function definition
      that is [null] or [undefined]: [functions] is a list, and every
      entry refers to a function object or to nothing ([BadRef]).
    - Properties of a function definition other than [handler], [runtime]
      and [layers], which the code neither reads nor writes, and the
      other properties of the service ([provider.region] and the like),
      which are arguments of the operations here.
    - A property that is present with the value [undefined] or [null]:
      in the model a property is set or absent.  For [layers], [runtime]
      and the variables of the environment the code tests
      [=== undefined], which does not tell a property that is absent from
      one that is [undefined]; a [null] there is not modelled.  For the
      properties of [custom.datadog] the spread of [getConfig] would copy
      an explicit [undefined] or [null] over the default, which the model
      cannot express.
    - Values of environment variables other than strings and booleans.
    - A store on which a property read finds a member of
      [Object.prototype]: the program goes on with a function object as
      the value, the model answers [OutOfModel], and the theorems on
      totality exclude such names by [plain_key].  So "returns" in
      [findHandlers_returns] and [applyLayers_total] is about the model:
      on a runtime or region named like a member of [Object.prototype]
      the theorems say nothing of the program. *)

From stdpp Require Export base tactics option list strings gmap.

Declare Scope js_scope.
Delimit Scope js_scope with js.

(** * Outcomes of a JavaScript computation *)

(** Why the model declines to answer. *)
Inductive fault : Type :=
| BadRef (l : positive)
| ProtoKey (k : string)
| FollowsLink (path : list string)
| OutOfFuel.

(** The error codes of the file-system calls. *)
Inductive errno : Type := ENOENT | ENOTDIR | ENOTEMPTY | EISDIR.

(** What a computation can end with instead of a value: an exception of
    the language, a rejection of a system call, or a fault of the model. *)
Inductive error : Type :=
| TypeError (msg : string)
| SystemError (code : errno)
| OutOfModel (f : fault).

Inductive result (A : Type) : Type :=
| Ok (a : A)
| Throw (e : error).
Arguments Ok {A} a.
Arguments Throw {A} e.

#[export] Instance fault_eq_dec : EqDecision fault.
Proof. solve_decision. Defined.
#[export] Instance errno_eq_dec : EqDecision errno.
Proof. solve_decision. Defined.
#[export] Instance error_eq_dec : EqDecision error.
Proof. solve_decision. Defined.
#[export] Instance result_eq_dec `{EqDecision A} : EqDecision (result A).
Proof. solve_decision. Defined.

Definition is_Ok {A} (r : result A) : Prop :=
  match r with Ok _ => True | Throw _ => False end.

Definition is_TypeError (e : error) : Prop :=
  match e with TypeError _ => True | _ => False end.

Definition is_OutOfModel (e : error) : Prop :=
  match e with OutOfModel _ => True | _ => False end.

#[export] Instance is_Ok_dec {A} (r : result A) : Decision (is_Ok r).
Proof. destruct r; apply _. Defined.
#[export] Instance is_TypeError_dec e : Decision (is_TypeError e).
Proof. destruct e; apply _. Defined.
#[export] Instance is_OutOfModel_dec e : Decision (is_OutOfModel e).
Proof. destruct e; apply _. Defined.

(** * The state-and-exception monad *)

(** A computation over a store [S]: mutations made before a throw stay. *)
Definition M (S A : Type) : Type := S → result A * S.

Section monad.
Context {S : Type}.

Definition ret {A} (a : A) : M S A := λ s, (Ok a, s).

Definition throw {A} (e : error) : M S A := λ s, (Throw e, s).

Definition bind {A B} (m : M S A) (k : A → M S B) : M S B :=
  λ s, match m s with
       | (Ok a, s') => k a s'
       | (Throw e, s') => (Throw e, s')
       end.

Definition get : M S S := λ s, (Ok s, s).
Definition gets {A} (f : S → A) : M S A := λ s, (Ok (f s), s).
Definition put (s : S) : M S unit := λ _, (Ok tt, s).
Definition modify (f : S → S) : M S unit := λ s, (Ok tt, f s).

(** [of_option o e]: the value of [o], or throw [e]. *)
Definition of_option {A} (o : option A) (e : error) : M S A :=
  match o with Some a => ret a | None => throw e end.

(** [for (const x of xs) body(x)]: the bodies run in order, a throw ends
    the loop. *)
Fixpoint for_of {A} (xs : list A) (body : A → M S unit) : M S unit :=
  match xs with
  | [] => ret tt
  | x :: xs' => bind (body x) (λ _, for_of xs' body)
  end.

(** [xs.map(f)] with a callback that can read the store or throw. *)
Fixpoint array_map {A B} (f : A → M S B) (xs : list A) : M S (list B) :=
  match xs with
  | [] => ret []
  | x :: xs' => bind (f x) (λ y, bind (array_map f xs') (λ ys, ret (y :: ys)))
  end.

(** Weakest precondition: [wp m Q E s] holds when running [m] from [s] ends
    in a value and store satisfying [Q], or in a throw satisfying [E]. *)
Definition wp {A} (m : M S A) (Q : A → S → Prop) (E : error → S → Prop)
    (s : S) : Prop :=
  match m s with
  | (Ok a, s') => Q a s'
  | (Throw e, s') => E e s'
  end.

(** [m] reads the store and never writes it. *)
Definition readonly {A} (m : M S A) : Prop := ∀ s, (m s).2 = s.

End monad.

Notation "'let!' x ':=' m 'in' k" := (bind m (λ x, k))
  (at level 10, x name, m at level 100, k at level 200,
   format "'[v' 'let!'  x  ':='  m  'in' '/' k ']'") : js_scope.
Notation "m1 ;; m2" := (bind m1 (λ _, m2))
  (at level 100, m2 at level 200, right associativity) : js_scope.

Open Scope js_scope.

(** * Laws and rules *)

Create HintDb js discriminated.
Create Rewrite HintDb js_rw.

Section monad_laws.
Context {S : Type}.
Implicit Types s : S.

Lemma bind_ret_l {A B} (a : A) (k : A → M S B) s : bind (ret a) k s = k a s.
Proof. reflexivity. Qed.

Lemma bind_ret_r {A} (m : M S A) s : bind m ret s = m s.
Proof. unfold bind, ret. by destruct (m s) as [[?|?] ?]. Qed.

Lemma bind_assoc {A B C} (m : M S A) (k : A → M S B) (k' : B → M S C) s :
  bind (bind m k) k' s = bind m (λ a, bind (k a) k') s.
Proof. unfold bind. by destruct (m s) as [[?|?] ?]. Qed.

Lemma bind_throw {A B} e (k : A → M S B) s : bind (throw e) k s = (Throw e, s).
Proof. reflexivity. Qed.

Lemma bind_Ok {A B} (m : M S A) (k : A → M S B) s a s' :
  m s = (Ok a, s') → bind m k s = k a s'.
Proof. unfold bind. by intros ->. Qed.

Lemma bind_Throw {A B} (m : M S A) (k : A → M S B) s e s' :
  m s = (Throw e, s') → bind m k s = (Throw e, s').
Proof. unfold bind. by intros ->. Qed.

(** Inversion of a bind that returned. *)
Lemma bind_Ok_inv {A B} (m : M S A) (k : A → M S B) s b s2 :
  bind m k s = (Ok b, s2) → ∃ a s1, m s = (Ok a, s1) ∧ k a s1 = (Ok b, s2).
Proof. unfold bind. destruct (m s) as [[a|e] s1]; naive_solver. Qed.

Lemma bind_ext {A B} (m : M S A) (k k' : A → M S B) s :
  (∀ a s', k a s' = k' a s') → bind m k s = bind m k' s.
Proof. intros Hk. unfold bind. destruct (m s) as [[?|?] ?]; auto. Qed.

Lemma for_of_nil {A} (body : A → M S unit) s : for_of [] body s = (Ok tt, s).
Proof. reflexivity. Qed.

Lemma for_of_cons {A} x xs (body : A → M S unit) s :
  for_of (x :: xs) body s = bind (body x) (λ _, for_of xs body) s.
Proof. reflexivity. Qed.

Lemma for_of_app {A} xs ys (body : A → M S unit) s :
  for_of (xs ++ ys) body s = bind (for_of xs body) (λ _, for_of ys body) s.
Proof.
  revert s. induction xs as [|x xs IH]; intros s; simpl; [done|].
  rewrite bind_assoc. apply bind_ext. intros _ s'. apply IH.
Qed.

(** ** Rules of [wp] *)

Lemma wp_ret {A} (a : A) Q E s : wp (ret a) Q E s ↔ Q a s.
Proof. reflexivity. Qed.

Lemma wp_throw {A} e (Q : A → S → Prop) E s : wp (throw e) Q E s ↔ E e s.
Proof. reflexivity. Qed.

Lemma wp_bind {A B} (m : M S A) (k : A → M S B) Q E s :
  wp (bind m k) Q E s ↔ wp m (λ a, wp (k a) Q E) E s.
Proof. unfold wp, bind. by destruct (m s) as [[?|?] ?]. Qed.

Lemma wp_gets {A} (f : S → A) Q E s : wp (gets f) Q E s ↔ Q (f s) s.
Proof. reflexivity. Qed.

Lemma wp_modify (f : S → S) Q E s : wp (modify f) Q E s ↔ Q tt (f s).
Proof. reflexivity. Qed.

Lemma wp_of_option {A} (o : option A) e Q E s :
  wp (of_option o e) Q E s ↔ match o with Some a => Q a s | None => E e s end.
Proof. by destruct o. Qed.

Lemma wp_mono {A} (m : M S A) (Q Q' : A → S → Prop) (E E' : error → S → Prop) s :
  (∀ a s', Q a s' → Q' a s') → (∀ e s', E e s' → E' e s') →
  wp m Q E s → wp m Q' E' s.
Proof. unfold wp. destruct (m s) as [[?|?] ?]; auto. Qed.

Lemma wp_run {A} (m : M S A) Q E s r s' : m s = (r, s') →
  wp m Q E s ↔ match r with Ok a => Q a s' | Throw e => E e s' end.
Proof. unfold wp. by intros ->. Qed.

(** Loop rule: an invariant kept by every body, in every outcome, holds
    when the loop ends. *)
Lemma wp_for_of {A} (I : S → Prop) (xs : list A) (body : A → M S unit) s :
  (∀ x s', x ∈ xs → I s' → wp (body x) (λ _, I) (λ _, I) s') →
  I s → wp (for_of xs body) (λ _, I) (λ _, I) s.
Proof.
  revert s. induction xs as [|x xs IH]; intros s Hbody HI; [done|].
  cbn [for_of]. apply wp_bind.
  eapply wp_mono; [| |apply Hbody; [left|done]]; simpl; [|done].
  intros _ s' HI'. apply IH; [|done]. intros; apply Hbody; [by right|done].
Qed.

(** Loop rule without throws: the invariant may mention the elements
    already processed. *)
Lemma wp_for_of_total {A} (I : list A → S → Prop) (xs : list A)
    (body : A → M S unit) s :
  (∀ done x s', done ++ [x] `prefix_of` xs → I done s' →
     wp (body x) (λ _, I (done ++ [x])) (λ _ _, False) s') →
  I [] s → wp (for_of xs body) (λ _, I xs) (λ _ _, False) s.
Proof.
  intros Hbody. cut (∀ done rest s, done ++ rest = xs → I done s →
    wp (for_of rest body) (λ _, I xs) (λ _ _, False) s).
  { intros H ?. by apply (H [] xs). }
  intros done rest. revert done.
  induction rest as [|x rest IH]; intros done s' Hxs HI.
  - rewrite app_nil_r in Hxs. by subst.
  - cbn [for_of]. apply wp_bind.
    eapply wp_mono; [| |apply (Hbody done x)]; simpl; [|done| |done].
    + intros _ s'' HI'. apply (IH (done ++ [x])); [|done].
      by rewrite <-app_assoc.
    + exists rest. by rewrite <-app_assoc.
Qed.

(** A [wp] that excludes throws gives the run. *)
Lemma wp_total_Ok {A} (m : M S A) Q s :
  wp m Q (λ _ _, False) s → ∃ a s', m s = (Ok a, s') ∧ Q a s'.
Proof. unfold wp. destruct (m s) as [[a|e] s']; [eauto|done]. Qed.

(** [array_map] with a callback that never writes is itself read-only. *)
Lemma array_map_readonly {A B} (f : A → M S B) xs :
  (∀ x, readonly (f x)) → readonly (array_map f xs).
Proof.
  intros Hf. induction xs as [|x xs IH]; intros s; [done|]. simpl.
  unfold bind. specialize (Hf x s).
  destruct (f x s) as [[y|e] s1]; simpl in *; subst; [|done].
  specialize (IH s). by destruct (array_map f xs s) as [[ys|e] s2].
Qed.

(** [array_map] with a callback that never writes: it returns the list of
    the callbacks' results exactly when every callback returns, and a
    throw of the map is the throw of a callback. *)
Lemma array_map_Forall2 {A B} (f : A → M S B) xs ys s :
  Forall2 (λ x y, f x s = (Ok y, s)) xs ys → array_map f xs s = (Ok ys, s).
Proof.
  induction 1 as [|x y xs ys Hx _ IH]; [done|]. simpl.
  by rewrite (bind_Ok _ _ _ _ _ Hx), (bind_Ok _ _ _ _ _ IH).
Qed.

Lemma array_map_Ok_inv {A B} (f : A → M S B) xs ys s s' :
  (∀ x, readonly (f x)) → array_map f xs s = (Ok ys, s') →
  s' = s ∧ Forall2 (λ x y, f x s = (Ok y, s)) xs ys.
Proof.
  intros Hf. revert ys. induction xs as [|x xs IH]; intros ys; simpl.
  - intros [= <- <-]. by split.
  - intros (y & s1 & Hx & (ys' & s2 & Hxs & [= <- <-])%bind_Ok_inv)%bind_Ok_inv.
    pose proof (Hf x s) as Hs1. rewrite Hx in Hs1. simpl in Hs1. subst s1.
    destruct (IH _ Hxs) as [-> ?]. split; [done|]. by constructor.
Qed.

Lemma array_map_Throw_inv {A B} (f : A → M S B) xs e s s' :
  (∀ x, readonly (f x)) → array_map f xs s = (Throw e, s') →
  s' = s ∧ ∃ x, x ∈ xs ∧ f x s = (Throw e, s).
Proof.
  intros Hf. induction xs as [|x xs IH]; simpl; [done|]. unfold bind at 1.
  pose proof (Hf x s) as Hs1. destruct (f x s) as [[y|e'] s1] eqn:Hx;
    simpl in Hs1; subst s1.
  - unfold bind. destruct (array_map f xs s) as [[ys|e'] s2] eqn:Hxs; [done|].
    intros [= <- <-]. destruct (IH eq_refl) as (-> & x' & ? & ?).
    split; [done|]. exists x'. split; [by right|done].
  - intros [= <- <-]. split; [done|]. exists x. split; [by left|done].
Qed.

(** With a callback that never writes, the order of the array only
    permutes the results: [array_map] returns on a permutation of the
    array if it returns on the array. *)
Lemma array_map_Permutation {A B} (f : A → M S B) xs xs' ys s s' :
  (∀ x, readonly (f x)) → xs ≡ₚ xs' → array_map f xs s = (Ok ys, s') →
  ∃ ys', array_map f xs' s = (Ok ys', s') ∧ ys ≡ₚ ys'.
Proof.
  intros Hf Hp [-> Hall]%array_map_Ok_inv; [|done].
  destruct (Permutation_Forall2 Hp Hall) as (ys' & ? & ?).
  exists ys'. split; [by apply array_map_Forall2|done].
Qed.

End monad_laws.

#[export] Hint Rewrite @bind_ret_l @bind_throw @for_of_nil @for_of_cons : js_rw.
#[export] Hint Rewrite @wp_ret @wp_throw @wp_bind @wp_gets @wp_modify
  @wp_of_option : js_rw.

(** * Tactics *)

(** One symbolic step of a [wp] goal. *)
Ltac wp_step :=
  first
    [ rewrite wp_bind
    | rewrite wp_ret
    | rewrite wp_throw
    | rewrite wp_gets
    | rewrite wp_modify
    | rewrite wp_of_option ].

Ltac wp_auto := repeat wp_step; simpl.

(** Run the first computation of a bind with the equation [H] of its
    outcome. *)
Ltac run H := first [rewrite (bind_Ok _ _ _ _ _ H) | rewrite (bind_Throw _ _ _ _ _ H)].

(** Unfold a run of the monad to a match on its first computation. *)
Ltac js_run := unfold bind, ret, throw, gets, modify, of_option; simpl.

(** * Shared facts on lists *)

Section lists.
Context {A : Type}.
Implicit Types (x : A) (l : list A).

Lemma NoDup_snoc_fresh l x : NoDup l → x ∉ l → NoDup (l ++ [x]).
Proof.
  intros Hl Hx. apply NoDup_app. split_and!; [done| |apply NoDup_singleton].
  intros y Hy ->%list_elem_of_singleton. done.
Qed.

Lemma prefix_snoc l x : l `prefix_of` l ++ [x].
Proof. by exists [x]. Qed.

Lemma elem_of_snoc l x : x ∈ l ++ [x].
Proof. apply elem_of_app. right. by left. Qed.

End lists.

#[export] Hint Resolve NoDup_snoc_fresh prefix_snoc elem_of_snoc : js.
