(* ===== verification/JsString.v ===== *)
(** * JsString: the string and array operations the plugin calls

    [split], [join] and [slice_init] model [String.prototype.split] with a
    one-character separator, [Array.prototype.join] and [slice(0, -1)], as
    util.ts uses them in [getHandlerPath].  The lemmas are the facts about
    them that the handler-path theorems need: splitting never yields an
    empty array, the parts are free of the separator, joining the parts
    gives the string back, and the last part is cut at the last
    separator. *)

From Stdlib Require Import Ascii.
From S2P Require Import Spec2Rocq.

(** [c] occurs in [s]. *)
Fixpoint occurs (c : ascii) (s : string) : bool :=
  match s with
  | EmptyString => false
  | String a s' => if decide (a = c) then true else occurs c s'
  end.

(** [s.split(c)] for a one-character separator [c]. *)
Fixpoint split (c : ascii) (s : string) : list string :=
  match s with
  | EmptyString => [EmptyString]
  | String a s' =>
      if decide (a = c) then EmptyString :: split c s'
      else match split c s' with
           | [] => [String a EmptyString]
           | p :: ps => String a p :: ps
           end
  end.

(** [parts.join(sep)]. *)
Fixpoint join (sep : string) (parts : list string) : string :=
  match parts with
  | [] => EmptyString
  | p :: ps =>
      match ps with
      | [] => p
      | _ :: _ => p +:+ sep +:+ join sep ps
      end
  end.

(** [a.slice(0, -1)]: all elements but the last; the empty array stays
    empty. *)
Definition slice_init {A} (a : list A) : list A := take (length a - 1) a.

(** [a[a.length - 1]]: [None] is JavaScript's [undefined]. *)
Definition last_elem {A} (a : list A) : option A := a !! (length a - 1).

Section slice_facts.
Context {A : Type}.
Implicit Types (a : list A) (x : A).

Lemma slice_init_snoc a x : slice_init (a ++ [x]) = a.
Proof.
  unfold slice_init. rewrite length_app. simpl.
  replace (length a + 1 - 1) with (length a) by lia. by rewrite take_app_length.
Qed.

Lemma last_elem_snoc a x : last_elem (a ++ [x]) = Some x.
Proof.
  unfold last_elem. rewrite length_app. simpl.
  replace (length a + 1 - 1) with (length a) by lia.
  by rewrite lookup_app_r, Nat.sub_diag.
Qed.

Lemma last_elem_is_Some a : 0 < length a → is_Some (last_elem a).
Proof. intros. apply lookup_lt_is_Some. lia. Qed.

(** An array is its [slice(0, -1)] followed by its last element. *)
Lemma slice_init_last a x : last_elem a = Some x → a = slice_init a ++ [x].
Proof.
  unfold last_elem, slice_init. intros Hx.
  rewrite <-(take_drop (length a - 1) a) at 1. f_equal.
  pose proof (lookup_lt_Some _ _ _ Hx).
  apply list_eq. intros [|i]; simpl.
  - by rewrite lookup_drop, Nat.add_0_r.
  - rewrite lookup_drop. apply lookup_ge_None_2. lia.
Qed.

End slice_facts.

Lemma string_app_assoc (s1 s2 s3 : string) :
  (s1 +:+ s2) +:+ s3 = s1 +:+ s2 +:+ s3.
Proof.
  induction s1 as [|a s1 IH]; [done|].
  change (String a (s1 +:+ s2) +:+ s3 = String a (s1 +:+ s2 +:+ s3)).
  by rewrite <-IH.
Qed.

Lemma join_snoc sep (ps : list string) (m : string) :
  ps ≠ [] → join sep (ps ++ [m]) = join sep ps +:+ sep +:+ m.
Proof.
  induction ps as [|p [|q ps] IH]; intros Hne; [done|done|].
  change (join sep ((p :: q :: ps) ++ [m])) with
    (p +:+ sep +:+ join sep ((q :: ps) ++ [m])).
  rewrite IH by done. change (join sep (p :: q :: ps)) with
    (p +:+ sep +:+ join sep (q :: ps)).
  by rewrite !string_app_assoc.
Qed.

Section split_facts.
Variable c : ascii.
Implicit Types (s p : string) (ps : list string).

Local Abbreviation sep := (String c EmptyString).

Lemma split_nonempty s : split c s ≠ [].
Proof.
  destruct s as [|a s]; simpl; [done|].
  destruct (decide (a = c)); [done|]. by destruct (split c s).
Qed.

Lemma split_cons_sep s : split c (String c s) = EmptyString :: split c s.
Proof. simpl. by rewrite decide_True. Qed.

Lemma split_cons_other a s p ps :
  a ≠ c → split c s = p :: ps → split c (String a s) = String a p :: ps.
Proof. intros Ha Hs. simpl. by rewrite decide_False, Hs. Qed.

Lemma length_split_pos s : 0 < length (split c s).
Proof. pose proof (split_nonempty s). destruct (split c s); simpl; [done|lia]. Qed.

(** An array of one part means that the separator does not occur. *)
Lemma length_split_occurs s : occurs c s = bool_decide (2 ≤ length (split c s)).
Proof.
  induction s as [|a s IH]; simpl; [done|].
  pose proof (length_split_pos s) as Hpos. destruct (decide (a = c)) as [Ha|Ha].
  - simpl. symmetry. apply bool_decide_eq_true. lia.
  - rewrite IH. destruct (split c s) as [|p ps]; simpl in *; [lia|].
    apply bool_decide_ext. lia.
Qed.

Lemma occurs_app s1 s2 : occurs c (s1 +:+ s2) = occurs c s1 || occurs c s2.
Proof.
  induction s1 as [|a s1 IH]; simpl; [done|]. by destruct (decide (a = c)).
Qed.

Lemma split_no_sep s : occurs c s = false → split c s = [s].
Proof.
  induction s as [|a s IH]; simpl; [done|].
  destruct (decide (a = c)); [done|]. by intros ->%IH.
Qed.

(** Every part is free of the separator. *)
Lemma split_parts_free s : Forall (λ p, occurs c p = false) (split c s).
Proof.
  induction s as [|a s IH]; simpl.
  - by repeat constructor.
  - destruct (decide (a = c)) as [Ha|Ha]; [by constructor|].
    destruct (split c s) as [|p ps]; [by repeat constructor; simpl; rewrite decide_False|].
    apply Forall_cons in IH as [Hp Hps].
    constructor; [|done]. simpl. by rewrite decide_False.
Qed.

(** Joining the parts with the separator gives the string back. *)
Lemma join_split s : join sep (split c s) = s.
Proof.
  induction s as [|a s IH]; simpl; [done|].
  pose proof (split_nonempty s) as Hne. destruct (decide (a = c)) as [Ha|Ha].
  - subst a. destruct (split c s) as [|p ps] eqn:Hs; [done|].
    simpl in *. by rewrite IH.
  - destruct (split c s) as [|p ps] eqn:Hs; [done|].
    destruct ps as [|q ps]; simpl in *; by rewrite <-IH.
Qed.

(** The last part starts behind the last separator: a string that ends
    in a separator-free suffix [m] behind a separator splits into the parts
    of the prefix and [m]. *)
Lemma split_snoc s m :
  occurs c m = false → split c (s +:+ sep +:+ m) = split c s ++ [m].
Proof.
  intros Hm. induction s as [|a s IH].
  - change ("" +:+ sep +:+ m) with (String c m).
    by rewrite split_cons_sep, (split_no_sep m Hm).
  - change (String a s +:+ sep +:+ m) with (String a (s +:+ sep +:+ m)).
    simpl. rewrite IH. pose proof (split_nonempty s).
    destruct (decide (a = c)); [done|]. by destruct (split c s).
Qed.

End split_facts.


(** The parts before the last, joined again, and the last part give the
    string back around one separator. *)
Lemma join_slice_init_last c s m :
  2 ≤ length (split c s) → last_elem (split c s) = Some m →
  s = join (String c EmptyString) (slice_init (split c s))
        +:+ String c EmptyString +:+ m.
Proof.
  intros Hlen Hm. rewrite <-(join_split c s) at 1.
  rewrite (slice_init_last _ _ Hm) at 1. apply join_snoc.
  intros H%(f_equal length). unfold slice_init in H.
  rewrite length_take in H. simpl in H. lia.
Qed.

#[export] Hint Resolve split_nonempty length_split_pos split_parts_free : js.
#[export] Hint Rewrite join_split @slice_init_snoc @last_elem_snoc : js_rw.
