(* ===== verification/JsObject.v ===== *)
(** * JsObject: property reads on plain objects

    The plugin uses object literals and parsed JSON as dictionaries
    ([runtimeLookup], [layers.regions], a region's runtime table).  Reading
    [o[k]] or testing [k in o] on such an object also finds the members of
    [Object.prototype], so [o["toString"]] is a function and
    ["constructor" in o] is true for every plain object.  [js_get] keeps
    the three cases apart; [js_index] and [js_in] are the two reads in the
    monad, and answer [OutOfModel (ProtoKey k)] for an inherited name, for
    which the typed model has no value. *)

From S2P Require Import Spec2Rocq.

(** The property names of [Object.prototype] (Node.js). *)
Definition objectPrototypeKeys : list string :=
  [ "constructor"; "__defineGetter__"; "__defineSetter__"; "hasOwnProperty";
    "__lookupGetter__"; "__lookupSetter__"; "isPrototypeOf";
    "propertyIsEnumerable"; "toString"; "valueOf"; "__proto__";
    "toLocaleString" ].

(** A name that a plain object does not inherit. *)
Definition plain_key (k : string) : Prop := k ∉ objectPrototypeKeys.

#[export] Instance plain_key_dec k : Decision (plain_key k).
Proof. unfold plain_key. apply _. Defined.

Inductive prop (V : Type) : Type :=
| Own (v : V)
| Inherited
| Absent.
Arguments Own {V} v.
Arguments Inherited {V}.
Arguments Absent {V}.

(** Where the property [k] of the plain object [o] is found. *)
Definition js_get {V} (o : gmap string V) (k : string) : prop V :=
  match o !! k with
  | Some v => Own v
  | None => if decide (plain_key k) then Absent else Inherited
  end.

Section reads.
Context {S V : Type}.
Implicit Types (o : gmap string V) (k : string) (s : S).

(** [o[k]], where [None] is [undefined]. *)
Definition js_index o k : M S (option V) :=
  match js_get o k with
  | Own v => ret (Some v)
  | Inherited => throw (OutOfModel (ProtoKey k))
  | Absent => ret None
  end.

(** [k in o]. *)
Definition js_in o k : M S bool :=
  match js_get o k with
  | Own _ => ret true
  | Inherited => throw (OutOfModel (ProtoKey k))
  | Absent => ret false
  end.

Lemma js_get_own o k v : o !! k = Some v → js_get o k = Own v.
Proof. unfold js_get. by intros ->. Qed.

Lemma js_get_plain o k :
  plain_key k → js_get o k = from_option Own Absent (o !! k).
Proof. intros Hk. unfold js_get. destruct (o !! k); [done|]. by rewrite decide_True. Qed.

Lemma js_get_inherited o k :
  o !! k = None → ¬ plain_key k → js_get o k = Inherited.
Proof. intros Ho Hk. unfold js_get. by rewrite Ho, decide_False. Qed.

Lemma js_index_own o k v s : o !! k = Some v → js_index o k s = (Ok (Some v), s).
Proof. intros Ho. unfold js_index. by rewrite (js_get_own _ _ _ Ho). Qed.

Lemma js_index_plain o k s : plain_key k → js_index o k s = (Ok (o !! k), s).
Proof.
  intros Hk. unfold js_index. rewrite js_get_plain by done. by destruct (o !! k).
Qed.

Lemma js_in_plain o k s :
  plain_key k → js_in o k s = (Ok (bool_decide (is_Some (o !! k))), s).
Proof.
  intros Hk. unfold js_in. rewrite js_get_plain by done. by destruct (o !! k).
Qed.

(** Both reads leave the store alone, whatever they answer. *)
Lemma js_index_readonly o k : readonly (js_index o k : M S _).
Proof. intros s. unfold js_index. by destruct (js_get o k). Qed.

Lemma js_in_readonly o k : readonly (js_in o k : M S _).
Proof. intros s. unfold js_in. by destruct (js_get o k). Qed.

(** The only way a read fails is an inherited name. *)
Lemma js_index_Throw o k e s s' :
  js_index o k s = (Throw e, s') →
  e = OutOfModel (ProtoKey k) ∧ s' = s ∧ ¬ plain_key k ∧ o !! k = None.
Proof.
  unfold js_index, js_get. destruct (o !! k); [done|].
  destruct (decide (plain_key k)); [done|]. by intros [= <- <-].
Qed.

End reads.

#[export] Hint Resolve js_index_readonly js_in_readonly : js.
