(* ===== verification/JsHeap.v ===== *)
(** * JsHeap: the store of shared objects

    The plugin mutates objects that the host tool owns: it assigns the
    [layers] property of a function definition and pushes onto the array
    found there.  Both are reached through references, so the model keeps
    them in a store: [funs] maps a location to a function definition,
    [arrs] maps a location to the contents of an array of strings.

    [FunctionDefinition] is the host's function object restricted to the
    three properties the plugin reads or writes; a property that is absent
    or [undefined] is [None].  The primitive operations are computations in
    the monad [M heap]; reading or writing through a location that is not
    allocated is [OutOfModel (BadRef l)], which [wf_heap] rules out. *)

From S2P Require Import Spec2Rocq.

Abbreviation loc := positive.

(** A function of the service: [handler], [runtime] and [layers] of
    serverless' [FunctionDefinition]; [fn_layers] refers to an array. *)
Record FunctionDefinition : Type := mkFunctionDefinition {
  fn_handler : option string;
  fn_runtime : option string;
  fn_layers : option loc;
}.

#[export] Instance FunctionDefinition_eq_dec : EqDecision FunctionDefinition.
Proof. solve_decision. Defined.

(** [fd.layers = a]. *)
Definition set_fn_layers (a : loc) (fd : FunctionDefinition) : FunctionDefinition :=
  {| fn_handler := fn_handler fd; fn_runtime := fn_runtime fd; fn_layers := Some a |}.

Record heap : Type := Heap {
  funs : gmap loc FunctionDefinition;
  arrs : gmap loc (list string);
}.

#[export] Instance heap_eq_dec : EqDecision heap.
Proof. solve_decision. Defined.

Definition empty_heap : heap := Heap ∅ ∅.

(** ** Primitive operations *)

(** Dereference a function object. *)
Definition read_fun (l : loc) : M heap FunctionDefinition :=
  λ h, of_option (funs h !! l) (OutOfModel (BadRef l)) h.

(** Overwrite an existing function object. *)
Definition write_fun (l : loc) (fd : FunctionDefinition) : M heap unit :=
  λ h, match funs h !! l with
       | Some _ => (Ok tt, Heap (<[l := fd]> (funs h)) (arrs h))
       | None => (Throw (OutOfModel (BadRef l)), h)
       end.

(** The contents of an array. *)
Definition read_arr (a : loc) : M heap (list string) :=
  λ h, of_option (arrs h !! a) (OutOfModel (BadRef a)) h.

(** An array literal: a new array at a location that is not in use. *)
Definition alloc_arr (v : list string) : M heap loc :=
  λ h, let a := fresh (dom (arrs h)) in
       (Ok a, Heap (funs h) (<[a := v]> (arrs h))).

(** [a.push(x)]. *)
Definition push (a : loc) (x : string) : M heap unit :=
  λ h, match arrs h !! a with
       | Some v => (Ok tt, Heap (funs h) (<[a := v ++ [x]]> (arrs h)))
       | None => (Throw (OutOfModel (BadRef a)), h)
       end.

(** ** Well-formedness and invariants *)

(** Every [layers] property refers to an allocated array. *)
Definition wf_heap (h : heap) : Prop :=
  map_Forall (λ _ fd, ∀ a, fn_layers fd = Some a → is_Some (arrs h !! a)) (funs h).

(** No array holds the same string twice. *)
Definition nodup_heap (h : heap) : Prop :=
  map_Forall (λ _ v, NoDup v) (arrs h).

(** The layer list of the function at [l], as a value: [None] when the
    function has no [layers] property. *)
Definition layers_of (h : heap) (l : loc) : option (list string) :=
  fd ← funs h !! l; a ← fn_layers fd; arrs h !! a.

#[export] Instance wf_heap_dec h : Decision (wf_heap h).
Proof.
  unfold wf_heap. apply map_Forall_dec. intros l fd.
  destruct (fn_layers fd) as [a|].
  - destruct (decide (is_Some (arrs h !! a))) as [Ha|Ha].
    + left. by intros ? [= <-].
    + right. intros H. by apply Ha, H.
  - left. done.
Defined.

#[export] Instance nodup_heap_dec h : Decision (nodup_heap h).
Proof. unfold nodup_heap. apply _. Defined.

(** ** Rules *)

Section rules.
Implicit Types (h : heap) (l a : loc) (fd : FunctionDefinition) (v : list string).

Lemma wp_read_fun l Q E h :
  wp (read_fun l) Q E h ↔
  match funs h !! l with Some fd => Q fd h | None => E (OutOfModel (BadRef l)) h end.
Proof. unfold wp, read_fun. by destruct (funs h !! l). Qed.

Lemma wp_write_fun l fd Q E h :
  wp (write_fun l fd) Q E h ↔
  match funs h !! l with
  | Some _ => Q tt (Heap (<[l := fd]> (funs h)) (arrs h))
  | None => E (OutOfModel (BadRef l)) h
  end.
Proof. unfold wp, write_fun. by destruct (funs h !! l). Qed.

Lemma wp_read_arr a Q E h :
  wp (read_arr a) Q E h ↔
  match arrs h !! a with Some v => Q v h | None => E (OutOfModel (BadRef a)) h end.
Proof. unfold wp, read_arr. by destruct (arrs h !! a). Qed.

Lemma wp_alloc_arr v Q E h :
  wp (alloc_arr v) Q E h ↔
  Q (fresh (dom (arrs h))) (Heap (funs h) (<[fresh (dom (arrs h)) := v]> (arrs h))).
Proof. reflexivity. Qed.

Lemma wp_push a x Q E h :
  wp (push a x) Q E h ↔
  match arrs h !! a with
  | Some v => Q tt (Heap (funs h) (<[a := v ++ [x]]> (arrs h)))
  | None => E (OutOfModel (BadRef a)) h
  end.
Proof. unfold wp, push. by destruct (arrs h !! a). Qed.

Lemma read_fun_readonly l : readonly (read_fun l).
Proof. intros h. unfold read_fun. by destruct (funs h !! l). Qed.

Lemma read_arr_readonly a : readonly (read_arr a).
Proof. intros h. unfold read_arr. by destruct (arrs h !! a). Qed.

Lemma read_fun_Ok l fd h : funs h !! l = Some fd → read_fun l h = (Ok fd, h).
Proof. unfold read_fun. by intros ->. Qed.

Lemma read_arr_Ok a v h : arrs h !! a = Some v → read_arr a h = (Ok v, h).
Proof. unfold read_arr. by intros ->. Qed.

Lemma write_fun_Ok l fd fd' h :
  funs h !! l = Some fd' →
  write_fun l fd h = (Ok tt, Heap (<[l := fd]> (funs h)) (arrs h)).
Proof. unfold write_fun. by intros ->. Qed.

Lemma push_Ok a x v h :
  arrs h !! a = Some v →
  push a x h = (Ok tt, Heap (funs h) (<[a := v ++ [x]]> (arrs h))).
Proof. unfold push. by intros ->. Qed.

Lemma alloc_arr_Ok v h :
  alloc_arr v h
  = (Ok (fresh (dom (arrs h))), Heap (funs h) (<[fresh (dom (arrs h)) := v]> (arrs h))).
Proof. reflexivity. Qed.

(** Assigning a property its current value changes nothing. *)
Lemma set_fn_layers_id a fd : fn_layers fd = Some a → set_fn_layers a fd = fd.
Proof. destruct fd. simpl. by intros ->. Qed.

Lemma heap_eta h : Heap (funs h) (arrs h) = h.
Proof. by destruct h. Qed.

(** The location of a new array is not in use. *)
Lemma fresh_arr_None h : arrs h !! fresh (dom (arrs h)) = None.
Proof. apply not_elem_of_dom, is_fresh. Qed.

Lemma wf_heap_lookup h l fd a :
  wf_heap h → funs h !! l = Some fd → fn_layers fd = Some a → is_Some (arrs h !! a).
Proof. intros Hwf Hl. by apply (Hwf l fd Hl). Qed.

Lemma nodup_heap_lookup h a v : nodup_heap h → arrs h !! a = Some v → NoDup v.
Proof. intros Hnd. apply Hnd. Qed.

Lemma layers_of_Some h l fd a v :
  funs h !! l = Some fd → fn_layers fd = Some a → arrs h !! a = Some v →
  layers_of h l = Some v.
Proof. unfold layers_of. intros ???. by simplify_option_eq. Qed.

Lemma layers_of_unset h l fd :
  funs h !! l = Some fd → fn_layers fd = None → layers_of h l = None.
Proof. unfold layers_of. intros ??. by simplify_option_eq. Qed.

End rules.

#[export] Hint Rewrite wp_read_fun wp_write_fun wp_read_arr wp_alloc_arr wp_push : js_rw.
#[export] Hint Resolve read_fun_readonly read_arr_readonly fresh_arr_None : js.
