(* ===== verification/LayerData.v ===== *)
(** * LayerData: the data of layer.ts

    [RuntimeType], [HandlerInfo], [LayerJSON] and the table [runtimeLookup]
    as src/src/layer.ts declares them (lines 13-46), and the two properties
    of the host's [Service] object that the layer code reads.

    A [HandlerInfo] refers to its function definition by location: the
    record the classifier returns and the object the merger mutates are
    the same object of the store. *)

From S2P Require Import Spec2Rocq JsHeap.

(** [enum RuntimeType]. *)
Inductive RuntimeType : Type :=
| NODE
| NODE_TS
| NODE_ES6
| PYTHON
| UNSUPPORTED.

#[export] Instance RuntimeType_eq_dec : EqDecision RuntimeType.
Proof. solve_decision. Defined.

(** [interface HandlerInfo]: [handler] is a reference, [runtime] is
    optional. *)
Record HandlerInfo : Type := mkHandlerInfo {
  name : string;
  type : RuntimeType;
  handler : loc;
  runtime : option string;
}.

#[export] Instance HandlerInfo_eq_dec : EqDecision HandlerInfo.
Proof. solve_decision. Defined.

(** [handlerInfo.type = t]. *)
Definition set_type (t : RuntimeType) (hi : HandlerInfo) : HandlerInfo :=
  {| name := name hi; type := t; handler := handler hi; runtime := runtime hi |}.

(** [interface LayerJSON]: region, then runtime, to layer ARN; an absent
    key and a key bound to [undefined] read the same. *)
Record LayerJSON : Type := mkLayerJSON {
  regions : gmap string (gmap string string);
}.

(** The entries of the object literal [runtimeLookup]. *)
Definition runtimeTable : list (string * RuntimeType) :=
  [ ("nodejs10.x", NODE);
    ("nodejs12.x", NODE);
    ("nodejs8.10", NODE);
    ("python2.7", PYTHON);
    ("python3.6", PYTHON);
    ("python3.7", PYTHON);
    ("python3.8", PYTHON) ].

(** [const runtimeLookup]. *)
Definition runtimeLookup : gmap string RuntimeType := list_to_map runtimeTable.

(** The host's service object: [functions] lists the own properties of
    [service.functions] in the order [Object.entries] yields them, each
    bound to a function definition of the store; [plugins] is absent or a
    list of plugin names. *)
Record Service : Type := mkService {
  functions : list (string * loc);
  plugins : option (list string);
}.

(** The Node variants, the only values the type of [defaultNodeRuntime]
    admits. *)
Definition is_node (t : RuntimeType) : bool :=
  match t with NODE | NODE_TS | NODE_ES6 => true | PYTHON | UNSUPPORTED => false end.

(** ** The table *)

Lemma runtimeLookup_spec rt t :
  runtimeLookup !! rt = Some t ↔ (rt, t) ∈ runtimeTable.
Proof. symmetry. apply elem_of_list_to_map. compute_done. Qed.

(** Case analysis on membership in a literal list. *)
Ltac solve_table :=
  unfold runtimeTable; rewrite !elem_of_cons, !elem_of_nil;
  try split; intros; destruct_or?; simplify_eq; tauto.

Lemma runtimeLookup_node rt :
  runtimeLookup !! rt = Some NODE ↔ rt ∈ ["nodejs10.x"; "nodejs12.x"; "nodejs8.10"].
Proof. rewrite runtimeLookup_spec. solve_table. Qed.

Lemma runtimeLookup_python rt :
  runtimeLookup !! rt = Some PYTHON ↔
  rt ∈ ["python2.7"; "python3.6"; "python3.7"; "python3.8"].
Proof. rewrite runtimeLookup_spec. solve_table. Qed.

(** The table knows Node and Python runtimes only. *)
Lemma runtimeLookup_range rt t :
  runtimeLookup !! rt = Some t → t = NODE ∨ t = PYTHON.
Proof. rewrite runtimeLookup_spec. solve_table. Qed.
