(* ===== verification/Util.v ===== *)
(** * Util: getHandlerPath of util.ts

    [getHandlerPath] (src/src/util.ts 37-46) reads the handler reference of
    a function, splits it at the dots, and answers the last part as the
    method and the parts before it, joined by dots again, as the file name;
    a reference without a dot has no answer.  The function calls
    [handlerfile.split], so a function definition without a [handler]
    property makes it throw a [TypeError]. *)

From Stdlib Require Import Ascii.
From S2P Require Import Spec2Rocq JsString JsHeap LayerData.

(** What [getHandlerPath] returns: [method] is [parts[parts.length - 1]],
    which JavaScript types as possibly [undefined]. *)
Record HandlerPath : Type := mkHandlerPath {
  method : option string;
  filename : string;
}.

#[export] Instance HandlerPath_eq_dec : EqDecision HandlerPath.
Proof. solve_decision. Defined.

Definition dot : ascii := "."%char.

(** The body of [getHandlerPath] behind the read of [handlerfile]. *)
Definition splitHandler (handlerfile : string) : option HandlerPath :=
  let parts := split dot handlerfile in
  if decide (length parts < 2) then None
  else
    let method := last_elem parts in
    let filename := join "." (slice_init parts) in
    Some {| method := method; filename := filename |}.

(** [getHandlerPath(handlerInfo)]; [None] is the bare [return]. *)
Definition getHandlerPath (handlerInfo : HandlerInfo) : M heap (option HandlerPath) :=
  let! fd := read_fun (handler handlerInfo) in
  match fn_handler fd with
  | None => throw (TypeError "handlerfile.split")
  | Some handlerfile => ret (splitHandler handlerfile)
  end.

(** ** Theorems *)

Section splitHandler_facts.
Implicit Types (s f m : string) (hp : HandlerPath).

(** A reference has no answer exactly when it has no dot. *)
Lemma splitHandler_None s : splitHandler s = None ↔ occurs dot s = false.
Proof.
  unfold splitHandler. rewrite length_split_occurs.
  destruct (decide (length (split dot s) < 2)) as [Hlt|Hge].
  - rewrite bool_decide_eq_false. split; [lia|done].
  - rewrite bool_decide_eq_false. split; [done|lia].
Qed.

(** A reference [f.m] whose method [m] has no dot is cut at its last dot. *)
Lemma splitHandler_snoc f m :
  occurs dot m = false →
  splitHandler (f +:+ "." +:+ m) = Some {| method := Some m; filename := f |}.
Proof.
  intros Hm. unfold splitHandler.
  change "."%string with (String dot EmptyString).
  rewrite (split_snoc dot f m Hm), length_app, slice_init_snoc, last_elem_snoc.
  pose proof (length_split_pos dot f). rewrite decide_False by (simpl; lia).
  by rewrite join_split.
Qed.

(** C33. Whatever [getHandlerPath] answers can be put together again: the
    method is defined and free of dots, and file name, dot and method
    concatenate to the reference. *)
Theorem splitHandler_roundtrip s hp :
  splitHandler s = Some hp →
  ∃ m, method hp = Some m ∧ occurs dot m = false ∧ s = filename hp +:+ "." +:+ m.
Proof.
  unfold splitHandler. destruct (decide _) as [|Hlen]; [done|].
  intros [= <-]. simpl.
  destruct (last_elem_is_Some (split dot s)) as [m Hm]; [lia|].
  exists m. split_and!; [done| |apply (join_slice_init_last dot); [lia|done]].
  pose proof (split_parts_free dot s) as Hfree.
  rewrite Forall_forall in Hfree. eapply Hfree, list_elem_of_lookup_2, Hm.
Qed.

End splitHandler_facts.

Lemma splitHandler_roundtrip_witness :
  ∃ m, method {| method := Some "handler"; filename := "src/my.lambda" |} = Some m
       ∧ occurs dot m = false
       ∧ "src/my.lambda.handler" = "src/my.lambda" +:+ "." +:+ m.
Proof. apply (splitHandler_roundtrip "src/my.lambda.handler"). reflexivity. Defined.

Section getHandlerPath_facts.
Implicit Types (hi : HandlerInfo) (h : heap) (fd : FunctionDefinition).

Lemma getHandlerPath_Ok hi h fd s :
  funs h !! handler hi = Some fd → fn_handler fd = Some s →
  getHandlerPath hi h = (Ok (splitHandler s), h).
Proof.
  intros Hfd Hs. unfold getHandlerPath.
  by rewrite (bind_Ok _ _ _ _ _ (read_fun_Ok _ _ _ Hfd)), Hs.
Qed.

(** C32. The handler reference [f.m] of a function, where the method [m]
    has no dot, is cut at its last dot: [getHandlerPath] answers the method
    [m] and the file name [f], dots and slashes of [f] kept; the store is
    as before. *)
Theorem getHandlerPath_last_dot hi h fd f m :
  funs h !! handler hi = Some fd → fn_handler fd = Some (f +:+ "." +:+ m) →
  occurs dot m = false →
  getHandlerPath hi h = (Ok (Some {| method := Some m; filename := f |}), h).
Proof.
  intros Hfd Hs Hm. by rewrite (getHandlerPath_Ok hi h fd _ Hfd Hs), splitHandler_snoc.
Qed.

(** C34. A function definition without a [handler] property makes
    [getHandlerPath] throw a [TypeError]; the store is as before. *)
Theorem getHandlerPath_no_handler hi h fd :
  funs h !! handler hi = Some fd → fn_handler fd = None →
  getHandlerPath hi h = (Throw (TypeError "handlerfile.split"), h).
Proof.
  intros Hfd Hs. unfold getHandlerPath.
  by rewrite (bind_Ok _ _ _ _ _ (read_fun_Ok _ _ _ Hfd)), Hs.
Qed.

Lemma getHandlerPath_readonly hi : readonly (getHandlerPath hi).
Proof.
  intros h. unfold getHandlerPath, bind, read_fun.
  destruct (funs h !! handler hi) as [fd|]; [|done]. simpl.
  by destruct (fn_handler fd).
Qed.

End getHandlerPath_facts.

Lemma getHandlerPath_last_dot_witness :
  getHandlerPath (mkHandlerInfo "f" NODE 1%positive None)
    (Heap {[ 1%positive := mkFunctionDefinition (Some "src/my.lambda.handler") None None ]} ∅)
  = (Ok (Some {| method := Some "handler"; filename := "src/my.lambda" |}),
     Heap {[ 1%positive := mkFunctionDefinition (Some "src/my.lambda.handler") None None ]} ∅).
Proof. by eapply (getHandlerPath_last_dot _ _ _ "src/my.lambda" "handler"). Defined.

Lemma getHandlerPath_no_handler_witness :
  getHandlerPath (mkHandlerInfo "f" NODE 1%positive (Some "nodejs10.x"))
    (Heap {[ 1%positive := mkFunctionDefinition None (Some "nodejs10.x") None ]} ∅)
  = (Throw (TypeError "handlerfile.split"),
     Heap {[ 1%positive := mkFunctionDefinition None (Some "nodejs10.x") None ]} ∅).
Proof. by eapply getHandlerPath_no_handler. Defined.

#[export] Hint Resolve getHandlerPath_readonly : js.
