(* ===== verification/LayerMerge.v ===== *)
(** * LayerMerge: the layer merger of layer.ts

    [applyLayers] (src/src/layer.ts 92-113) with its loop body [applyLayer]
    and the helpers [getLayers] (115-121) and [setLayers] (123-125), each
    following its source statement by statement, and the theorems about
    them.  The first part computes the store after one iteration, in each
    of its three outcomes: nothing to add, an array that exists, an array
    that has to be created.  On these rest the step relation of the loop,
    the invariants (no duplicates, well-formedness), the frame and growth
    properties, totality, and idempotence of the whole pass. *)

From S2P Require Import Spec2Rocq JsObject JsHeap LayerData.

(** ** The operations *)

(** [getLayers(handler)]: the array found in [layers], or a new empty
    array. *)
Definition getLayers (handler : HandlerInfo) : M heap loc :=
  let! fd := read_fun (LayerData.handler handler) in
  match fn_layers fd with
  | None => alloc_arr []
  | Some layersList => ret layersList
  end.

(** [setLayers(handler, layers)]. *)
Definition setLayers (handler : HandlerInfo) (layers : loc) : M heap unit :=
  let! fd := read_fun (LayerData.handler handler) in
  write_fun (LayerData.handler handler) (set_fn_layers layers fd).

(** The body of the loop of [applyLayers] (layer.ts 99-111). *)
Definition applyLayer (regionRuntimes : gmap string string) (handler : HandlerInfo)
    : M heap unit :=
  if decide (type handler = UNSUPPORTED) then ret tt
  else
    let! layerARN :=
      match runtime handler with
      | Some rt => js_index regionRuntimes rt
      | None => ret None
      end in
    match layerARN with
    | Some layerARN =>
        let! currentLayers := getLayers handler in
        let! elements := read_arr currentLayers in
        (if decide (layerARN ∈ (list_to_set elements : gset string)) then ret tt
         else push currentLayers layerARN) ;;
        setLayers handler currentLayers
    | None => ret tt
    end.

(** [applyLayers(region, handlers, layers)]. *)
Definition applyLayers (region : string) (handlers : list HandlerInfo)
    (layers : LayerJSON) : M heap unit :=
  let! regionRuntimes := js_index (regions layers) region in
  match regionRuntimes with
  | None => ret tt
  | Some regionRuntimes => for_of handlers (applyLayer regionRuntimes)
  end.

(** ** Their effect on the contents of an array *)

(** [v] with [arn] appended unless it is there: the effect of the guarded
    [push] on the contents of an array. *)
Definition add_layer (arn : string) (v : list string) : list string :=
  if decide (arn ∈ v) then v else v ++ [arn].

(** The layer ARN that the region's table holds for a handler, when the
    handler is supported and names a runtime of the table. *)
Definition layer_for (regionRuntimes : gmap string string) (hi : HandlerInfo)
    : option string :=
  if decide (type hi = UNSUPPORTED) then None
  else rt ← runtime hi; regionRuntimes !! rt.

(** Every handler refers to a function definition of the store. *)
Definition handlers_ok (h : heap) (hs : list HandlerInfo) : Prop :=
  Forall (λ hi, is_Some (funs h !! handler hi)) hs.

(** No supported handler names a runtime that a plain object inherits,
    unless the region's table binds it itself. *)
Definition plain_runtimes (regionRuntimes : gmap string string)
    (hs : list HandlerInfo) : Prop :=
  Forall (λ hi, type hi = UNSUPPORTED ∨
                ∀ rt, runtime hi = Some rt →
                      plain_key rt ∨ is_Some (regionRuntimes !! rt)) hs.

#[export] Instance handlers_ok_dec h hs : Decision (handlers_ok h hs).
Proof. unfold handlers_ok. apply _. Defined.

#[export] Instance plain_runtimes_dec rr hs : Decision (plain_runtimes rr hs).
Proof.
  unfold plain_runtimes. apply Forall_dec. intros hi.
  destruct (runtime hi) as [rt|].
  - destruct (decide (type hi = UNSUPPORTED ∨ plain_key rt ∨ is_Some (rr !! rt)))
      as [Hd|Hd].
    + left. destruct Hd as [?|?]; [by left|right]. by intros ? [= <-].
    + right. intros [?|Hrt]; apply Hd; [by left|right]. by apply Hrt.
  - left. right. done.
Defined.

(** ** Facts on [add_layer] *)

Section add_layer_facts.
Implicit Types (arn x : string) (v : list string).

Lemma add_layer_elem arn v : arn ∈ add_layer arn v.
Proof. unfold add_layer. case_decide; auto with js. Qed.

Lemma add_layer_prefix arn v : v `prefix_of` add_layer arn v.
Proof. unfold add_layer. case_decide; auto with js. Qed.

Lemma add_layer_NoDup arn v : NoDup v → NoDup (add_layer arn v).
Proof. unfold add_layer. case_decide; auto with js. Qed.

Lemma add_layer_id arn v : arn ∈ v → add_layer arn v = v.
Proof. unfold add_layer. by intros; case_decide. Qed.

Lemma add_layer_idemp arn v : add_layer arn (add_layer arn v) = add_layer arn v.
Proof. apply add_layer_id, add_layer_elem. Qed.

Lemma elem_of_add_layer x arn v : x ∈ add_layer arn v ↔ x = arn ∨ x ∈ v.
Proof.
  unfold add_layer. case_decide; [naive_solver|].
  rewrite elem_of_app, list_elem_of_singleton. tauto.
Qed.

End add_layer_facts.

#[export] Hint Resolve add_layer_elem add_layer_prefix add_layer_NoDup : js.

(** ** One iteration, outcome by outcome *)

Section step_lemmas.
Variable regionRuntimes : gmap string string.
Implicit Types (hi : HandlerInfo) (h : heap) (fd : FunctionDefinition)
  (a l : loc) (v : list string) (arn : string).

Lemma layer_for_Some hi arn :
  layer_for regionRuntimes hi = Some arn ↔
  type hi ≠ UNSUPPORTED ∧ ∃ rt, runtime hi = Some rt ∧ regionRuntimes !! rt = Some arn.
Proof.
  unfold layer_for. case_decide; [naive_solver|].
  destruct (runtime hi) as [rt|]; simpl; naive_solver.
Qed.

(** The read of the table for a handler, under [plain_runtimes]. *)
Lemma applyLayer_index hi h :
  type hi ≠ UNSUPPORTED →
  (∀ rt, runtime hi = Some rt → plain_key rt ∨ is_Some (regionRuntimes !! rt)) →
  match runtime hi with
  | Some rt => js_index regionRuntimes rt
  | None => ret None
  end h = (Ok (layer_for regionRuntimes hi), h).
Proof.
  intros Hty Hplain. unfold layer_for. rewrite decide_False by done.
  destruct (runtime hi) as [rt|]; [|done]. simpl.
  destruct (Hplain rt eq_refl) as [?|[arn Harn]].
  - by apply js_index_plain.
  - rewrite Harn. by apply js_index_own.
Qed.

(** Nothing to add: the store is untouched. *)
Lemma applyLayer_skip hi h :
  (type hi ≠ UNSUPPORTED →
   ∀ rt, runtime hi = Some rt → plain_key rt ∨ is_Some (regionRuntimes !! rt)) →
  layer_for regionRuntimes hi = None →
  applyLayer regionRuntimes hi h = (Ok tt, h).
Proof.
  intros Hplain Hnone. unfold applyLayer.
  destruct (decide (type hi = UNSUPPORTED)) as [|Hty]; [done|].
  by rewrite (bind_Ok _ _ _ _ _ (applyLayer_index hi h Hty (Hplain Hty))), Hnone.
Qed.

Lemma getLayers_existing hi h fd a :
  funs h !! handler hi = Some fd → fn_layers fd = Some a →
  getLayers hi h = (Ok a, h).
Proof. intros Hfd Ha. unfold getLayers. run (read_fun_Ok _ _ _ Hfd). by rewrite Ha. Qed.

Lemma getLayers_fresh hi h fd :
  funs h !! handler hi = Some fd → fn_layers fd = None →
  getLayers hi h = alloc_arr [] h.
Proof. intros Hfd Ha. unfold getLayers. run (read_fun_Ok _ _ _ Hfd). by rewrite Ha. Qed.

Lemma setLayers_Ok hi h fd a :
  funs h !! handler hi = Some fd →
  setLayers hi a h
  = (Ok tt, Heap (<[handler hi := set_fn_layers a fd]> (funs h)) (arrs h)).
Proof.
  intros Hfd. unfold setLayers. run (read_fun_Ok _ _ _ Hfd).
  by apply write_fun_Ok with fd.
Qed.

(** The guarded push on an array with contents [v]. *)
Lemma guarded_push_Ok h a v arn :
  arrs h !! a = Some v →
  (if decide (arn ∈ (list_to_set v : gset string)) then ret tt else push a arn) h
  = (Ok tt, Heap (funs h) (<[a := add_layer arn v]> (arrs h))).
Proof.
  intros Hv. unfold add_layer. destruct (decide (arn ∈ v)) as [Hin|Hin].
  - rewrite decide_True by (by apply elem_of_list_to_set).
    by rewrite insert_id, heap_eta.
  - rewrite decide_False by (by rewrite elem_of_list_to_set).
    by apply push_Ok.
Qed.

(** The function has a layer array: the ARN is added to it unless it is
    there, and the function definition stays as it is. *)
Lemma applyLayer_existing hi h arn fd a v :
  layer_for regionRuntimes hi = Some arn →
  funs h !! handler hi = Some fd → fn_layers fd = Some a → arrs h !! a = Some v →
  applyLayer regionRuntimes hi h
  = (Ok tt, Heap (funs h) (<[a := add_layer arn v]> (arrs h))).
Proof.
  intros (Hty & rt & Hrt & Harn)%layer_for_Some Hfd Ha Hv.
  unfold applyLayer. rewrite decide_False, Hrt by done.
  run (js_index_own _ _ _ h Harn). run (getLayers_existing _ _ _ _ Hfd Ha).
  run (read_arr_Ok _ _ _ Hv). run (guarded_push_Ok _ _ _ arn Hv).
  erewrite setLayers_Ok by done. simpl.
  by rewrite (set_fn_layers_id _ _ Ha), insert_id.
Qed.

(** The function has no [layers] property: a new array holding the ARN is
    created and assigned. *)
Lemma applyLayer_fresh hi h arn fd :
  layer_for regionRuntimes hi = Some arn →
  funs h !! handler hi = Some fd → fn_layers fd = None →
  applyLayer regionRuntimes hi h
  = (Ok tt, Heap (<[handler hi := set_fn_layers (fresh (dom (arrs h))) fd]> (funs h))
                 (<[fresh (dom (arrs h)) := [arn]]> (arrs h))).
Proof.
  intros (Hty & rt & Hrt & Harn)%layer_for_Some Hfd Ha.
  unfold applyLayer. rewrite decide_False, Hrt by done.
  run (js_index_own _ _ _ h Harn).
  run (eq_trans (getLayers_fresh _ _ _ Hfd Ha) (alloc_arr_Ok [] h)).
  set (a := fresh (dom (arrs h))). set (h1 := Heap _ _).
  assert (arrs h1 !! a = Some []) as Hv by apply lookup_insert_eq.
  run (read_arr_Ok _ _ _ Hv). run (guarded_push_Ok _ _ _ arn Hv).
  erewrite setLayers_Ok by done. simpl. by rewrite insert_insert_eq.
Qed.

End step_lemmas.

(** ** The step relation of the loop *)

(** [step rr hi h h']: one iteration for handler [hi] takes the store [h]
    to [h'].  The three rules are the three outcomes above. *)
Inductive step (rr : gmap string string) (hi : HandlerInfo) (h : heap) : heap → Prop :=
| step_skip :
    layer_for rr hi = None →
    step rr hi h h
| step_existing arn fd a v :
    layer_for rr hi = Some arn →
    funs h !! handler hi = Some fd → fn_layers fd = Some a → arrs h !! a = Some v →
    step rr hi h (Heap (funs h) (<[a := add_layer arn v]> (arrs h)))
| step_fresh arn fd :
    layer_for rr hi = Some arn →
    funs h !! handler hi = Some fd → fn_layers fd = None →
    step rr hi h
      (Heap (<[handler hi := set_fn_layers (fresh (dom (arrs h))) fd]> (funs h))
            (<[fresh (dom (arrs h)) := [arn]]> (arrs h))).

Section step_spec.
Variable rr : gmap string string.
Implicit Types (hi : HandlerInfo) (h : heap).

(** The read of the region's table never writes, and fails only on an
    inherited name. *)
Lemma applyLayer_index_cases hi h :
  type hi ≠ UNSUPPORTED →
  let m := match runtime hi with
           | Some rt => js_index rr rt
           | None => ret None
           end in
  m h = (Ok (layer_for rr hi), h) ∨ ∃ k, m h = (Throw (OutOfModel (ProtoKey k)), h).
Proof.
  intros Hty. unfold layer_for. rewrite decide_False by done.
  destruct (runtime hi) as [rt|]; simpl; [|by left].
  unfold js_index, js_get. destruct (rr !! rt); [by left|].
  destruct (decide (plain_key rt)); [by left|right; by eexists].
Qed.

(** The specification of one iteration: it ends in a store that a [step]
    reaches, or it raises a model error and leaves the store as it was.
    It never throws a [TypeError]. *)
Lemma applyLayer_spec hi h :
  wp (applyLayer rr hi) (λ _ h', step rr hi h h')
     (λ e h', h' = h ∧ is_OutOfModel e) h.
Proof.
  destruct (layer_for rr hi) as [arn|] eqn:Harn.
  - destruct (funs h !! handler hi) as [fd|] eqn:Hfd.
    + destruct (fn_layers fd) as [a|] eqn:Ha.
      * destruct (arrs h !! a) as [v|] eqn:Hv.
        { erewrite wp_run by by eapply applyLayer_existing. by eapply step_existing. }
        apply layer_for_Some in Harn as (Hty & rt & Hrt & Hrr).
        unfold applyLayer. rewrite decide_False, Hrt by done.
        eapply wp_run.
        { run (js_index_own _ _ _ h Hrr). run (getLayers_existing _ _ _ _ Hfd Ha).
          unfold bind, read_arr. by rewrite Hv. }
        by split.
      * erewrite wp_run by by eapply applyLayer_fresh. by eapply step_fresh.
    + apply layer_for_Some in Harn as (Hty & rt & Hrt & Hrr).
      unfold applyLayer. rewrite decide_False, Hrt by done.
      eapply wp_run.
      { run (js_index_own _ _ _ h Hrr).
        unfold bind, getLayers, bind, read_fun. by rewrite Hfd. }
      by split.
  - unfold applyLayer. destruct (decide (type hi = UNSUPPORTED)) as [Hty|Hty].
    { apply step_skip. unfold layer_for. by rewrite decide_True. }
    destruct (applyLayer_index_cases hi h Hty) as [Hrun|[k Hrun]].
    + eapply wp_run; [by run Hrun; rewrite Harn|]. by apply step_skip.
    + eapply wp_run; [by run Hrun|]. by split.
Qed.

End step_spec.

(** ** The whole pass *)

Section pass.
Implicit Types (hs : list HandlerInfo) (h : heap) (layers : LayerJSON).

(** Any property of stores that every step of a listed handler keeps is
    kept by the pass, whatever its outcome. *)
Lemma applyLayers_invariant (I : heap → Prop) region hs layers h :
  (∀ rr hi h1 h2,
     regions layers !! region = Some rr → hi ∈ hs →
     I h1 → step rr hi h1 h2 → I h2) →
  I h → I (applyLayers region hs layers h).2.
Proof.
  intros Hstep HI. unfold applyLayers, bind, js_index.
  destruct (js_get (regions layers) region) as [rr| |] eqn:Hget; simpl; try done.
  assert (regions layers !! region = Some rr) as Hrr.
  { unfold js_get in Hget. destruct (_ !! region); [naive_solver|].
    by destruct (decide _). }
  pose proof (wp_for_of I hs (applyLayer rr) h) as Hwp.
  unfold wp in Hwp. destruct (for_of hs (applyLayer rr) h) as [[[]|e] h'];
    apply Hwp; try done.
  all: intros hi h1 Hin HI1; eapply wp_mono; [| |apply applyLayer_spec]; simpl.
  all: try (intros _ h2 ?; by eapply Hstep).
  all: by intros ? ? [-> _].
Qed.

End pass.

(** ** Growth: what a store can become *)

(** [grows h h']: every array of [h] is in [h'] with its old contents as a
    prefix; every function definition of [h] is in [h'] with the same
    [handler] and [runtime] and, where it had one, the same [layers]
    reference; and no function definition is added. *)
Definition grows (h h' : heap) : Prop :=
  (∀ a v, arrs h !! a = Some v → ∃ v', arrs h' !! a = Some v' ∧ v `prefix_of` v') ∧
  (∀ l fd, funs h !! l = Some fd →
     ∃ fd', funs h' !! l = Some fd' ∧ fn_handler fd' = fn_handler fd ∧
            fn_runtime fd' = fn_runtime fd ∧
            ∀ a, fn_layers fd = Some a → fn_layers fd' = Some a) ∧
  dom (funs h') = dom (funs h).

#[export] Instance grows_preorder : PreOrder grows.
Proof.
  split.
  - intros h. split_and!; [by eauto|by eauto 10|done].
  - intros h1 h2 h3 (Ha12 & Hf12 & Hd12) (Ha23 & Hf23 & Hd23). split_and!.
    + intros a v (v2 & Hv2 & ?)%Ha12. destruct (Ha23 _ _ Hv2) as (v3 & ? & ?).
      exists v3. split; [done|]. by etrans.
    + intros l fd (fd2 & Hfd2 & ? & ? & Hl2)%Hf12.
      destruct (Hf23 _ _ Hfd2) as (fd3 & ? & ? & ? & Hl3).
      exists fd3. split_and!; [done|congruence|congruence|auto].
    + congruence.
Qed.

Lemma grows_layers_of h h' l v :
  grows h h' → layers_of h l = Some v →
  ∃ v', layers_of h' l = Some v' ∧ v `prefix_of` v'.
Proof.
  intros (Harr & Hfun & _). unfold layers_of at 1. intros Hv.
  destruct (funs h !! l) as [fd|] eqn:Hfd; [|done]. simpl in Hv.
  destruct (fn_layers fd) as [a|] eqn:Ha; [|done]. simpl in Hv.
  destruct (Hfun _ _ Hfd) as (fd' & Hfd' & _ & _ & Ha').
  destruct (Harr _ _ Hv) as (v' & Hv' & ?).
  exists v'. split; [|done]. eapply layers_of_Some; eauto.
Qed.

Lemma grows_handlers_ok h h' hs : grows h h' → handlers_ok h hs → handlers_ok h' hs.
Proof.
  intros (_ & _ & Hdom) Hok. eapply Forall_impl; [done|]. intros hi. simpl.
  by rewrite <-!elem_of_dom, Hdom.
Qed.

Section step_facts.
Variable rr : gmap string string.
Implicit Types (hi : HandlerInfo) (h : heap).

Lemma step_grows hi h h' : step rr hi h h' → grows h h'.
Proof.
  destruct 1 as [_|arn fd a v _ Hfd Ha Hv|arn fd _ Hfd Ha]; [done|..].
  - split_and!; simpl; [|by eauto 10|done].
    intros a' v' Hv'. destruct (decide (a' = a)) as [->|].
    + rewrite lookup_insert_eq. simplify_eq. eauto with js.
    + rewrite lookup_insert_ne by done. eauto.
  - split_and!; simpl.
    + intros a v Hv. rewrite lookup_insert_ne; [by eauto|].
      intros <-. by rewrite fresh_arr_None in Hv.
    + intros l fd' Hfd'. destruct (decide (l = handler hi)) as [->|].
      * rewrite lookup_insert_eq. simplify_eq.
        eexists. split_and!; [done..|]. intros a. by rewrite Ha.
      * rewrite lookup_insert_ne by done. eauto 10.
    + rewrite dom_insert_L. apply elem_of_dom_2 in Hfd. set_solver.
Qed.

Lemma step_nodup hi h h' : nodup_heap h → step rr hi h h' → nodup_heap h'.
Proof.
  intros Hnd. destruct 1 as [_|arn fd a v _ Hfd Ha Hv|arn fd _ Hfd Ha]; [done|..].
  - apply map_Forall_insert_2; [|done].
    apply add_layer_NoDup. by eapply nodup_heap_lookup.
  - apply map_Forall_insert_2; [|done]. apply NoDup_singleton.
Qed.

Lemma step_wf hi h h' : wf_heap h → step rr hi h h' → wf_heap h'.
Proof.
  intros Hwf. destruct 1 as [_|arn fd a v _ Hfd Ha Hv|arn fd _ Hfd Ha]; [done|..].
  - intros l fd' Hfd' a' Ha'. simpl in *.
    destruct (wf_heap_lookup _ _ _ _ Hwf Hfd' Ha') as [v' Hv'].
    destruct (decide (a' = a)) as [->|].
    + rewrite lookup_insert_eq. eauto.
    + rewrite lookup_insert_ne by done. eauto.
  - apply map_Forall_insert_2; simpl.
    + intros a [= <-]. rewrite lookup_insert_eq. eauto.
    + intros l fd' Hfd' a' Ha'.
      destruct (wf_heap_lookup _ _ _ _ Hwf Hfd' Ha') as [v' Hv'].
      rewrite lookup_insert_ne; [by eauto|].
      intros <-. by rewrite fresh_arr_None in Hv'.
Qed.

(** A step writes no function definition but that of its handler. *)
Lemma step_frame hi h h' l :
  step rr hi h h' → l ≠ handler hi → funs h' !! l = funs h !! l.
Proof.
  destruct 1; intros Hne; simpl; [done..|]. by rewrite lookup_insert_ne.
Qed.

(** A step writes no array but that of its handler's function, or a new
    one: an array of the store that no listed handler's function refers
    to keeps its contents, and no listed handler comes to refer to it. *)
Definition untouched (hs : list HandlerInfo) (a : loc) (v : list string) (h : heap)
    : Prop :=
  arrs h !! a = Some v ∧
  ∀ hi fd, hi ∈ hs → funs h !! handler hi = Some fd → fn_layers fd ≠ Some a.

Lemma step_untouched hs a v hi h h' :
  hi ∈ hs → untouched hs a v h → step rr hi h h' → untouched hs a v h'.
Proof.
  intros Hin [Ha Hfree]. destruct 1 as [_|arn fd a' v' _ Hfd Ha' Hv'|arn fd _ Hfd Hnone];
    [done|..]; split; simpl.
  - rewrite lookup_insert_ne; [done|]. intros ->. by eapply Hfree.
  - done.
  - rewrite lookup_insert_ne; [done|]. intros <-. by rewrite fresh_arr_None in Ha.
  - intros hi' fd' Hin' Hfd' Hl. destruct (decide (handler hi' = handler hi)) as [Heq|Hne].
    + rewrite Heq, lookup_insert_eq in Hfd'. simplify_eq/=.
      by rewrite fresh_arr_None in Ha.
    + rewrite lookup_insert_ne in Hfd' by done. by eapply Hfree.
Qed.

End step_facts.

#[export] Hint Resolve step_grows step_nodup step_wf : js.

(** ** Saturation: the state the pass aims at *)

(** The handler's function has a layer list, and the list holds the ARN of
    the handler. *)
Definition saturated (rr : gmap string string) (h : heap) (hi : HandlerInfo) : Prop :=
  ∀ arn, layer_for rr hi = Some arn →
         ∃ v, layers_of h (handler hi) = Some v ∧ arn ∈ v.

Section saturation.
Variable rr : gmap string string.
Implicit Types (hi : HandlerInfo) (hs : list HandlerInfo) (h : heap).

Lemma step_saturates hi h h' : step rr hi h h' → saturated rr h' hi.
Proof.
  destruct 1 as [Hnone|arn fd a v Harn Hfd Ha Hv|arn fd Harn Hfd Ha];
    intros arn' Harn'; [congruence|..]; assert (arn' = arn) as -> by congruence.
  - exists (add_layer arn v). split; [|auto with js].
    eapply layers_of_Some; [done..|]. apply lookup_insert_eq.
  - exists [arn]. split; [|by left].
    eapply layers_of_Some; [apply lookup_insert_eq|done|apply lookup_insert_eq].
Qed.

Lemma grows_saturated hi h h' : grows h h' → saturated rr h hi → saturated rr h' hi.
Proof.
  intros Hgr Hsat arn (v & Hv & Hin)%Hsat.
  destruct (grows_layers_of _ _ _ _ Hgr Hv) as (v' & Hv' & Hpre).
  exists v'. split; [done|]. by eapply elem_of_prefix.
Qed.

(** On a well-formed store, a handler that refers to a function of the
    store and names no inherited runtime makes one step. *)
Lemma applyLayer_Ok hi h :
  wf_heap h → is_Some (funs h !! handler hi) →
  (type hi = UNSUPPORTED ∨
   ∀ rt, runtime hi = Some rt → plain_key rt ∨ is_Some (rr !! rt)) →
  ∃ h', applyLayer rr hi h = (Ok tt, h') ∧ step rr hi h h'.
Proof.
  intros Hwf [fd Hfd] Hplain. destruct (layer_for rr hi) as [arn|] eqn:Harn.
  - destruct (fn_layers fd) as [a|] eqn:Ha.
    + destruct (wf_heap_lookup _ _ _ _ Hwf Hfd Ha) as [v Hv].
      eexists. split; [by eapply applyLayer_existing|by eapply step_existing].
    + eexists. split; [by eapply applyLayer_fresh|by eapply step_fresh].
  - exists h. split; [|by apply step_skip].
    apply applyLayer_skip; [|done]. by destruct Hplain.
Qed.

(** The loop on a well-formed store runs to its end and saturates every
    handler. *)
Lemma loop_total hs h :
  wf_heap h → handlers_ok h hs → plain_runtimes rr hs →
  ∃ h', for_of hs (applyLayer rr) h = (Ok tt, h') ∧
        wf_heap h' ∧ grows h h' ∧ Forall (saturated rr h') hs.
Proof.
  intros Hwf Hok Hplain.
  destruct (wp_total_Ok (for_of hs (applyLayer rr))
    (λ _ h', wf_heap h' ∧ grows h h' ∧ Forall (saturated rr h') hs) h)
    as ([] & h' & ? & ?); [|by eauto].
  apply (wp_for_of_total (λ done h', wf_heap h' ∧ grows h h'
                                     ∧ Forall (saturated rr h') done)).
  2: { split_and!; [done|done|constructor]. }
  intros done hi h1 [post Hpre] (Hwf1 & Hgr1 & Hsat1).
  assert (hi ∈ hs) as Hin by (rewrite Hpre; set_solver).
  pose proof (grows_handlers_ok _ _ _ Hgr1 Hok) as Hok1.
  unfold handlers_ok, plain_runtimes in *. rewrite Forall_forall in Hok1, Hplain.
  destruct (applyLayer_Ok hi h1 Hwf1) as (h2 & Hrun & Hstep); [by auto..|].
  erewrite wp_run by done. split_and!; [by eauto with js|by etrans; eauto with js|].
  apply Forall_app. split; [|by repeat constructor; eapply step_saturates].
  eapply Forall_impl; [done|]. intros; eapply grows_saturated; eauto with js.
Qed.

(** On a store that is saturated for a handler, the iteration for it
    changes nothing. *)
Lemma applyLayer_saturated hi h :
  (type hi = UNSUPPORTED ∨
   ∀ rt, runtime hi = Some rt → plain_key rt ∨ is_Some (rr !! rt)) →
  saturated rr h hi → applyLayer rr hi h = (Ok tt, h).
Proof.
  intros Hplain Hsat. destruct (layer_for rr hi) as [arn|] eqn:Harn.
  - destruct (Hsat arn Harn) as (v & Hv & Hin). unfold layers_of in Hv.
    destruct (funs h !! handler hi) as [fd|] eqn:Hfd; [|done]. simpl in Hv.
    destruct (fn_layers fd) as [a|] eqn:Ha; [|done]. simpl in Hv.
    erewrite applyLayer_existing by done.
    by rewrite add_layer_id, insert_id, heap_eta.
  - apply applyLayer_skip; [|done]. by destruct Hplain.
Qed.

Lemma loop_saturated hs h :
  plain_runtimes rr hs → Forall (saturated rr h) hs →
  for_of hs (applyLayer rr) h = (Ok tt, h).
Proof.
  induction hs as [|hi hs IH]; intros Hplain Hsat; [done|].
  apply Forall_cons in Hplain as [? ?]. apply Forall_cons in Hsat as [? ?].
  rewrite for_of_cons. run (applyLayer_saturated hi h ltac:(done) ltac:(done)).
  by apply IH.
Qed.

End saturation.

(** The side conditions under which the pass is inside the model: the
    store is well-formed, the handlers refer into it, and neither the
    region nor a runtime is a name inherited from [Object.prototype]. *)
Definition pass_ok (region : string) (hs : list HandlerInfo) (layers : LayerJSON)
    (h : heap) : Prop :=
  wf_heap h ∧ handlers_ok h hs ∧
  match regions layers !! region with
  | Some rr => plain_runtimes rr hs
  | None => plain_key region
  end.

#[export] Instance pass_ok_dec region hs layers h : Decision (pass_ok region hs layers h).
Proof. unfold pass_ok. destruct (regions layers !! region); apply _. Defined.

Lemma applyLayers_region region hs layers h rr :
  regions layers !! region = Some rr →
  applyLayers region hs layers h = for_of hs (applyLayer rr) h.
Proof. intros Hrr. unfold applyLayers. by run (js_index_own _ _ _ h Hrr). Qed.

Lemma applyLayers_no_region region hs layers h :
  regions layers !! region = None → plain_key region →
  applyLayers region hs layers h = (Ok tt, h).
Proof.
  intros Hrr Hplain. unfold applyLayers.
  rewrite (bind_Ok _ _ _ _ _ (js_index_plain _ _ h Hplain)). by rewrite Hrr.
Qed.

(** ** Theorems on the pass *)

Section pass_theorems.
Implicit Types (hs : list HandlerInfo) (h : heap) (layers : LayerJSON)
  (l a : loc) (v : list string).

(** C1. No duplicates: if no layer array of the store holds a string
    twice, none does after [applyLayers], whatever the region, the handlers
    and the table, also when arrays are shared between functions. *)
Theorem applyLayers_nodup region hs layers h :
  nodup_heap h → nodup_heap (applyLayers region hs layers h).2.
Proof. apply applyLayers_invariant. eauto with js. Qed.

(** The store stays well-formed: the arrays the pass creates are in the
    store. *)
Lemma applyLayers_wf region hs layers h :
  wf_heap h → wf_heap (applyLayers region hs layers h).2.
Proof. apply applyLayers_invariant. eauto with js. Qed.

Lemma applyLayers_grows region hs layers h :
  grows h (applyLayers region hs layers h).2.
Proof.
  apply (applyLayers_invariant (grows h)); [|done].
  intros. etrans; eauto with js.
Qed.

(** C23. Append-only: a layer list that a function has before the pass is
    a prefix of the list it has after it. *)
Theorem applyLayers_prefix region hs layers h l v :
  layers_of h l = Some v →
  ∃ v', layers_of (applyLayers region hs layers h).2 l = Some v' ∧ v `prefix_of` v'.
Proof. intros Hv. eapply grows_layers_of; [apply applyLayers_grows|done]. Qed.

(** An array that no handler's function refers to is not written. *)
Lemma applyLayers_untouched region hs layers h a v :
  untouched hs a v h → untouched hs a v (applyLayers region hs layers h).2.
Proof.
  apply (applyLayers_invariant (untouched hs a v)). intros rr hi h1 h2 _ Hin Hun Hstep.
  by eapply step_untouched.
Qed.

(** No function definition but those of the handlers is written. *)
Lemma applyLayers_funs region hs layers h l :
  l ∉ handler <$> hs → funs (applyLayers region hs layers h).2 !! l = funs h !! l.
Proof.
  intros Hl. apply (applyLayers_invariant (λ h', funs h' !! l = funs h !! l)); [|done].
  intros rr hi h1 h2 _ Hin <- Hstep. eapply step_frame; [done|].
  intros ->. apply Hl, list_elem_of_fmap. eauto.
Qed.

(** C24. Frame: [applyLayers] changes nothing of a function but its
    [layers] property, and nothing at all of a function that no handler
    refers to.  The layer list of such a function is as before too,
    unless its array is also the array of a function that a handler
    refers to. *)
Theorem applyLayers_frame region hs layers h l fd :
  funs h !! l = Some fd →
  ∃ fd', funs (applyLayers region hs layers h).2 !! l = Some fd' ∧
         fn_handler fd' = fn_handler fd ∧ fn_runtime fd' = fn_runtime fd ∧
         (l ∉ handler <$> hs → fd' = fd) ∧
         (l ∉ handler <$> hs → wf_heap h →
          (∀ hi fdh, hi ∈ hs → funs h !! handler hi = Some fdh →
                     fn_layers fdh = None ∨ fn_layers fdh ≠ fn_layers fd) →
          layers_of (applyLayers region hs layers h).2 l = layers_of h l).
Proof.
  intros Hfd. destruct (applyLayers_grows region hs layers h) as (_ & Hfun & _).
  destruct (Hfun _ _ Hfd) as (fd' & Hfd' & ? & ? & _).
  exists fd'. split_and!; [done..| |].
  - intros Hl. rewrite applyLayers_funs in Hfd' by done. congruence.
  - intros Hl Hwf Hsep. unfold layers_of. rewrite applyLayers_funs, Hfd by done. simpl.
    destruct (fn_layers fd) as [a|] eqn:Ha; [simpl|done].
    destruct (wf_heap_lookup _ _ _ _ Hwf Hfd Ha) as [v Hv].
    destruct (applyLayers_untouched region hs layers h a v) as [-> _]; [|done].
    split; [done|]. intros hi fdh Hin Hfdh. destruct (Hsep hi fdh Hin Hfdh); congruence.
Qed.

(** The pass under its side conditions: it returns, a second pass from
    the store it returns changes nothing, and every handler is saturated. *)
Lemma applyLayers_pass region hs layers h :
  pass_ok region hs layers h →
  ∃ h', applyLayers region hs layers h = (Ok tt, h') ∧
        applyLayers region hs layers h' = (Ok tt, h') ∧
        ∀ rr, regions layers !! region = Some rr → Forall (saturated rr h') hs.
Proof.
  intros (Hwf & Hok & Hreg). destruct (regions layers !! region) as [rr|] eqn:Hrr.
  - destruct (loop_total rr hs h) as (h' & Hrun & _ & _ & Hsat); [done..|].
    exists h'. rewrite !(applyLayers_region _ _ _ _ _ Hrr).
    split_and!; [done|by apply loop_saturated|by intros ? [= <-]].
  - exists h. by rewrite !applyLayers_no_region.
Qed.

(** C11. Totality: on a well-formed store whose handlers refer to
    functions of the store, and with no name inherited from
    [Object.prototype] in play, [applyLayers] returns; it throws nothing. *)
Theorem applyLayers_total region hs layers h :
  pass_ok region hs layers h → (applyLayers region hs layers h).1 = Ok tt.
Proof. intros Hok. by destruct (applyLayers_pass _ _ _ _ Hok) as (h' & -> & _). Qed.

(** C3. The pass does its work: under [pass_ok], afterwards the layer
    list of every supported handler whose runtime the region's table
    binds holds the bound ARN. *)
Theorem applyLayers_adds region hs layers h rr hi arn :
  pass_ok region hs layers h → regions layers !! region = Some rr →
  hi ∈ hs → layer_for rr hi = Some arn →
  ∃ v, layers_of (applyLayers region hs layers h).2 (handler hi) = Some v ∧ arn ∈ v.
Proof.
  intros Hok Hrr Hin Harn.
  destruct (applyLayers_pass _ _ _ _ Hok) as (h' & -> & _ & Hsat).
  specialize (Hsat rr Hrr). rewrite Forall_forall in Hsat. by apply (Hsat hi Hin).
Qed.

(** C2. Idempotence: when the store is well-formed, the handlers refer
    to its functions and no name inherited from [Object.prototype] is in
    play ([pass_ok]), a second pass with the same region, handlers and
    table returns and leaves the store of the first pass as it is. *)
Theorem applyLayers_idempotent region hs layers h :
  pass_ok region hs layers h →
  let h' := (applyLayers region hs layers h).2 in
  applyLayers region hs layers h' = (Ok tt, h').
Proof. intros Hok. by destruct (applyLayers_pass _ _ _ _ Hok) as (h' & -> & ? & _). Qed.

End pass_theorems.

(** ** A scenario with sharing, and the theorems applied to it

    Four functions: [a] and [b] share one layer array (location 1) that
    holds "node:1"; [c] has no [layers] property; [d] is a Go function
    that no handler record refers to.  The table binds a layer to the
    runtimes of [a], [b] and [c]. *)

Definition ex_heap : heap :=
  Heap (list_to_map
          [ (1%positive, mkFunctionDefinition (Some "a.handler") (Some "nodejs10.x")
                           (Some 1%positive));
            (2%positive, mkFunctionDefinition (Some "b.handler") (Some "python3.8")
                           (Some 1%positive));
            (3%positive, mkFunctionDefinition (Some "c.handler") (Some "nodejs12.x")
                           None);
            (4%positive, mkFunctionDefinition (Some "d.handler") (Some "go1.x")
                           None) ])
       {[ 1%positive := ["node:1"] ]}.

Definition ex_handlers : list HandlerInfo :=
  [ mkHandlerInfo "a" NODE 1%positive (Some "nodejs10.x");
    mkHandlerInfo "b" PYTHON 2%positive (Some "python3.8");
    mkHandlerInfo "c" NODE_TS 3%positive (Some "nodejs12.x") ].

Definition ex_layers : LayerJSON :=
  {| regions :=
       {[ "us-east-1" := list_to_map [ ("nodejs10.x", "node:1");
                                       ("nodejs12.x", "node:2");
                                       ("python3.8", "py:3") ] ]} |}.

Definition ex_final : heap := (applyLayers "us-east-1" ex_handlers ex_layers ex_heap).2.

Lemma ex_pass_ok : pass_ok "us-east-1" ex_handlers ex_layers ex_heap.
Proof. compute_done. Defined.

Lemma applyLayers_nodup_witness : nodup_heap ex_final.
Proof. apply applyLayers_nodup. compute_done. Defined.

Lemma applyLayers_prefix_witness :
  ∃ v', layers_of ex_final 2%positive = Some v' ∧ ["node:1"] `prefix_of` v'.
Proof. apply applyLayers_prefix. reflexivity. Defined.

Lemma applyLayers_frame_witness :
  let fd := mkFunctionDefinition (Some "d.handler") (Some "go1.x") None in
  ∃ fd', funs ex_final !! 4%positive = Some fd' ∧
         fn_handler fd' = fn_handler fd ∧ fn_runtime fd' = fn_runtime fd ∧
         (4%positive ∉ handler <$> ex_handlers → fd' = fd) ∧
         (4%positive ∉ handler <$> ex_handlers → wf_heap ex_heap →
          (∀ hi fdh, hi ∈ ex_handlers → funs ex_heap !! handler hi = Some fdh →
                     fn_layers fdh = None ∨ fn_layers fdh ≠ fn_layers fd) →
          layers_of ex_final 4%positive = layers_of ex_heap 4%positive).
Proof.
  apply (applyLayers_frame "us-east-1" ex_handlers ex_layers ex_heap 4%positive
           (mkFunctionDefinition (Some "d.handler") (Some "go1.x") None)).
  reflexivity.
Defined.

Lemma applyLayers_total_witness :
  (applyLayers "us-east-1" ex_handlers ex_layers ex_heap).1 = Ok tt.
Proof. apply applyLayers_total, ex_pass_ok. Defined.

Lemma applyLayers_adds_witness :
  ∃ v, layers_of ex_final 3%positive = Some v ∧ "node:2" ∈ v.
Proof.
  apply (applyLayers_adds "us-east-1" ex_handlers ex_layers ex_heap
           (list_to_map [ ("nodejs10.x", "node:1"); ("nodejs12.x", "node:2");
                          ("python3.8", "py:3") ])
           (mkHandlerInfo "c" NODE_TS 3%positive (Some "nodejs12.x")) "node:2").
  - apply ex_pass_ok.
  - reflexivity.
  - compute_done.
  - reflexivity.
Defined.

Lemma applyLayers_idempotent_witness :
  applyLayers "us-east-1" ex_handlers ex_layers ex_final = (Ok tt, ex_final).
Proof. apply (applyLayers_idempotent "us-east-1" ex_handlers ex_layers ex_heap), ex_pass_ok. Defined.

(** What the scenario ends in: the shared array holds the layers of both
    functions that share it, so the Node function [a] also carries the
    Python layer and the Python function [b] the Node layer. *)
Example ex_final_layers :
  layers_of ex_final 1%positive = Some ["node:1"; "py:3"] ∧
  layers_of ex_final 2%positive = Some ["node:1"; "py:3"] ∧
  layers_of ex_final 3%positive = Some ["node:2"].
Proof. by vm_compute. Qed.
