(* ===== verification/LayerBound.v ===== *)
(** * LayerBound: how much applyLayers can add

    A pass of [applyLayers] pushes at most one entry per handler record:
    the guarded push of [applyLayer] runs once per record, and a new array
    starts with the one layer of its function.  [entries] counts the
    entries of all layer arrays of a store, so the bound holds also when
    functions share an array, and also for a pass that throws. *)

From S2P Require Import Spec2Rocq JsObject JsHeap LayerData LayerMerge.

(** The number of entries of all arrays of the store. *)
Definition entries (h : heap) : nat := map_fold (λ _ v n, length v + n) 0 (arrs h).

Section bound.
Implicit Types (h : heap) (a : loc) (v w : list string) (hs : list HandlerInfo).

Lemma entries_alloc fs m a w :
  m !! a = None → entries (Heap fs (<[a := w]> m)) = length w + entries (Heap fs m).
Proof. intros Ha. unfold entries. simpl. apply (map_fold_insert_L (λ _ v n, length v + n)); [intros; lia|done]. Qed.

Lemma entries_lookup fs m a v :
  m !! a = Some v → entries (Heap fs m) = length v + entries (Heap fs (delete a m)).
Proof. intros Ha. unfold entries. simpl. apply (map_fold_delete_L (λ _ v n, length v + n)); [intros; lia|done]. Qed.

Lemma entries_write fs m a v w :
  m !! a = Some v →
  entries (Heap fs (<[a := w]> m)) + length v = length w + entries (Heap fs m).
Proof.
  intros Ha. rewrite <-insert_delete_eq, entries_alloc by apply lookup_delete_eq.
  rewrite (entries_lookup fs m a v Ha). lia.
Qed.

Lemma length_add_layer arn v : length (add_layer arn v) ≤ length v + 1.
Proof. unfold add_layer. case_decide; rewrite ?length_app; simpl; lia. Qed.

(** A step adds at most one entry. *)
Lemma step_entries rr hi h h' : step rr hi h h' → entries h' ≤ entries h + 1.
Proof.
  destruct 1 as [?|arn fd a v ? ? ? Hv|arn fd ? ? ?]; [lia|..].
  - pose proof (entries_write (funs h) (arrs h) a v (add_layer arn v) Hv) as Hw.
    pose proof (length_add_layer arn v). rewrite heap_eta in Hw. lia.
  - rewrite entries_alloc by apply fresh_arr_None.
    rewrite <-(heap_eta h) at 2. simpl. unfold entries. simpl. lia.
Qed.

Lemma loop_entries rr hs h :
  entries (for_of hs (applyLayer rr) h).2 ≤ entries h + length hs.
Proof.
  revert h. induction hs as [|hi hs IH]; intros h; [simpl; lia|].
  cbn [for_of]. unfold bind. pose proof (applyLayer_spec rr hi h) as Hwp.
  unfold wp in Hwp. destruct (applyLayer rr hi h) as [[[]|e] h1].
  - apply step_entries in Hwp. specialize (IH h1). simpl. lia.
  - destruct Hwp as [-> _]. simpl. lia.
Qed.

(** C12. The growth of a pass is bounded: whatever the region, the table
    and the outcome, the layer arrays of the store hold after
    [applyLayers] at most one entry more per handler record than before. *)
Theorem applyLayers_bound region hs layers h :
  entries (applyLayers region hs layers h).2 ≤ entries h + length hs.
Proof.
  unfold applyLayers, bind, js_index.
  destruct (js_get (regions layers) region) as [rr| |]; simpl; [|lia..].
  apply loop_entries.
Qed.

End bound.

(** In the scenario of LayerMerge.v two entries are added for three
    records: the layer of [a] was there already. *)
Example ex_entries : entries ex_heap = 1 ∧ entries ex_final = 3.
Proof. by vm_compute. Qed.
