(* ===== verification/LayerClassify.v ===== *)
(** * LayerClassify: the handler classifier of layer.ts

    [findHandlers] (src/src/layer.ts 48-90) with the callback of its map,
    [classifyEntry], the file probes [probeNodeType] and [hasWebpackPlugin]
    (127-133), each following its source statement by statement, and the
    theorems about them.  The calls to [fs.existsSync] go through the
    interface [FileSystem]: the classifier is a client of whatever answers
    existence probes, and its theorems hold for every implementation.

    [classified] lists the outcomes of the callback, one rule per path
    through its code; [classifyEntry_classified] shows that every run
    takes one of them and leaves the store alone.  The theorems on
    [findHandlers] follow from it by induction on the list of functions. *)

From S2P Require Import Spec2Rocq JsString JsObject JsHeap LayerData Util LayerMerge.

(** ** The operations *)

(** The part of the file system the classifier sees: [fs.existsSync]. *)
Class FileSystem : Type := existsSync : string → bool.

(** A file system given by the list of the paths that exist. *)
Definition fs_of_paths (paths : list string) : FileSystem :=
  λ p, bool_decide (p ∈ paths).

(** [hasWebpackPlugin(service)]. *)
Definition hasWebpackPlugin (service : Service) : bool :=
  match plugins service with
  | None => false
  | Some plugins =>
      bool_decide
        (List.find (λ plugin, bool_decide (plugin = "serverless-webpack")) plugins
         ≠ None)
  end.

(** The runtime a function is classified by (layer.ts 57-60): its own,
    else the default. *)
Definition effectiveRuntime (defaultRuntime : option string)
    (fd : FunctionDefinition) : option string :=
  match fn_runtime fd with
  | None => defaultRuntime
  | Some r => Some r
  end.

Section classifier.
Context `{FileSystem}.

(** The probes on the module path of a Node handler when no dialect is
    forced (layer.ts 70-79): the second assignment overrides the first. *)
Definition probeNodeType (service : Service) (filename : string) : RuntimeType :=
  let type1 :=
    if existsSync ("./" +:+ filename +:+ ".es.js")
       || existsSync ("./" +:+ filename +:+ ".mjs")
       || hasWebpackPlugin service
    then NODE_ES6 else NODE in
  if existsSync ("./" +:+ filename +:+ ".ts") then NODE_TS else type1.

(** The callback of [Object.entries(funcs).map]: the record of one
    function, or [None] for the bare [return]. *)
Definition classifyEntry (service : Service) (defaultRuntime : option string)
    (defaultNodeRuntime : option RuntimeType) (entry : string * loc)
    : M heap (option HandlerInfo) :=
  let name := entry.1 in
  let handler := entry.2 in
  let! fd := read_fun handler in
  let runtime := effectiveRuntime defaultRuntime fd in
  let unsupported :=
    {| type := UNSUPPORTED; runtime := runtime; name := name; handler := handler |} in
  match runtime with
  | None => ret (Some unsupported)
  | Some rt =>
      match js_get runtimeLookup rt with
      | Absent => ret (Some unsupported)
      | Inherited => throw (OutOfModel (ProtoKey rt))
      | Own ty =>
          let handlerInfo :=
            {| type := ty; runtime := Some rt; name := name; handler := handler |} in
          if decide (type handlerInfo = NODE) then
            let! handlerPath := getHandlerPath handlerInfo in
            match handlerPath with
            | None => ret None
            | Some handlerPath =>
                match defaultNodeRuntime with
                | None =>
                    ret (Some (set_type (probeNodeType service (filename handlerPath))
                                 handlerInfo))
                | Some forced => ret (Some (set_type forced handlerInfo))
                end
            end
          else ret (Some handlerInfo)
      end
  end.

(** [findHandlers(service, defaultRuntime, defaultNodeRuntime)]: map, then
    filter out the [undefined] results. *)
Definition findHandlers (service : Service) (defaultRuntime : option string)
    (defaultNodeRuntime : option RuntimeType) : M heap (list HandlerInfo) :=
  let! results :=
    array_map (classifyEntry service defaultRuntime defaultNodeRuntime)
      (functions service) in
  ret (omap id results).

End classifier.

(** ** First facts *)

Lemma hasWebpackPlugin_spec service :
  hasWebpackPlugin service = true ↔
  ∃ ps, plugins service = Some ps ∧ "serverless-webpack" ∈ ps.
Proof.
  unfold hasWebpackPlugin. destruct (plugins service) as [ps|].
  - rewrite bool_decide_eq_true. split.
    + destruct (find _ ps) as [p|] eqn:Hp; [intros _|done].
      apply find_some in Hp as [Hin ->%bool_decide_eq_true].
      exists ps. split; [done|]. by apply list_elem_of_In.
    + intros (? & [= <-] & Hin) Hnone.
      apply list_elem_of_In in Hin. eapply find_none in Hnone; [|done].
      by apply bool_decide_eq_false in Hnone.
  - split; [done|]. by intros (? & ? & _).
Qed.

Lemma fs_of_paths_spec paths p : @existsSync (fs_of_paths paths) p = true ↔ p ∈ paths.
Proof. apply bool_decide_eq_true. Qed.

(** ** The theorems *)

Section classify_facts.
Context `{FileSystem}.
Variables (service : Service) (defaultRuntime : option string)
  (defaultNodeRuntime : option RuntimeType).

Implicit Types (h : heap) (fd : FunctionDefinition) (n rt s : string) (l : loc)
  (hi : HandlerInfo) (t : RuntimeType).

Local Abbreviation classify := (classifyEntry service defaultRuntime defaultNodeRuntime).
Local Abbreviation find := (findHandlers service defaultRuntime defaultNodeRuntime).

(** ** The probes *)

(** A .ts file beside the handler decides for TypeScript, whatever else
    is there. *)
Lemma probeNodeType_ts f :
  existsSync ("./" +:+ f +:+ ".ts") = true → probeNodeType service f = NODE_TS.
Proof. unfold probeNodeType. by intros ->. Qed.

Lemma probeNodeType_es6 f :
  existsSync ("./" +:+ f +:+ ".ts") = false →
  existsSync ("./" +:+ f +:+ ".es.js") = true ∨
  existsSync ("./" +:+ f +:+ ".mjs") = true ∨ hasWebpackPlugin service = true →
  probeNodeType service f = NODE_ES6.
Proof.
  unfold probeNodeType. intros -> [-> | [-> | ->] ]; [done | |];
    by rewrite ?orb_true_r.
Qed.

Lemma probeNodeType_node f :
  existsSync ("./" +:+ f +:+ ".ts") = false →
  existsSync ("./" +:+ f +:+ ".es.js") = false →
  existsSync ("./" +:+ f +:+ ".mjs") = false → hasWebpackPlugin service = false →
  probeNodeType service f = NODE.
Proof. unfold probeNodeType. by intros -> -> -> ->. Qed.

Lemma probeNodeType_is_node f : is_node (probeNodeType service f) = true.
Proof. unfold probeNodeType. by repeat case_match. Qed.

(** ** The outcomes of the callback *)

(** [classified h (n, l) r]: the callback answers [r] for the function named
    [n] at location [l] of the store [h]. *)
Inductive classified h : string * loc → result (option HandlerInfo) → Prop :=
| cl_dangling n l :
    funs h !! l = None →
    classified h (n, l) (Throw (OutOfModel (BadRef l)))
| cl_no_runtime n l fd :
    funs h !! l = Some fd → effectiveRuntime defaultRuntime fd = None →
    classified h (n, l) (Ok (Some (mkHandlerInfo n UNSUPPORTED l None)))
| cl_unknown n l fd rt :
    funs h !! l = Some fd → effectiveRuntime defaultRuntime fd = Some rt →
    runtimeLookup !! rt = None → plain_key rt →
    classified h (n, l) (Ok (Some (mkHandlerInfo n UNSUPPORTED l (Some rt))))
| cl_inherited n l fd rt :
    funs h !! l = Some fd → effectiveRuntime defaultRuntime fd = Some rt →
    runtimeLookup !! rt = None → ¬ plain_key rt →
    classified h (n, l) (Throw (OutOfModel (ProtoKey rt)))
| cl_other n l fd rt t :
    funs h !! l = Some fd → effectiveRuntime defaultRuntime fd = Some rt →
    runtimeLookup !! rt = Some t → t ≠ NODE →
    classified h (n, l) (Ok (Some (mkHandlerInfo n t l (Some rt))))
| cl_node_no_handler n l fd rt :
    funs h !! l = Some fd → effectiveRuntime defaultRuntime fd = Some rt →
    runtimeLookup !! rt = Some NODE → fn_handler fd = None →
    classified h (n, l) (Throw (TypeError "handlerfile.split"))
| cl_node_dropped n l fd rt s :
    funs h !! l = Some fd → effectiveRuntime defaultRuntime fd = Some rt →
    runtimeLookup !! rt = Some NODE → fn_handler fd = Some s →
    splitHandler s = None →
    classified h (n, l) (Ok None)
| cl_node_forced n l fd rt s hp forced :
    funs h !! l = Some fd → effectiveRuntime defaultRuntime fd = Some rt →
    runtimeLookup !! rt = Some NODE → fn_handler fd = Some s →
    splitHandler s = Some hp → defaultNodeRuntime = Some forced →
    classified h (n, l) (Ok (Some (mkHandlerInfo n forced l (Some rt))))
| cl_node_probed n l fd rt s hp :
    funs h !! l = Some fd → effectiveRuntime defaultRuntime fd = Some rt →
    runtimeLookup !! rt = Some NODE → fn_handler fd = Some s →
    splitHandler s = Some hp → defaultNodeRuntime = None →
    classified h (n, l)
      (Ok (Some (mkHandlerInfo n (probeNodeType service (filename hp)) l (Some rt)))).

(** Every run of the callback is one of the outcomes, and the store is as
    before. *)
Lemma classifyEntry_classified entry h :
  ∃ r, classify entry h = (r, h) ∧ classified h entry r.
Proof.
  destruct entry as [n l]. unfold classifyEntry. simpl.
  destruct (funs h !! l) as [fd|] eqn:Hfd.
  2: { eexists. split; [|by apply cl_dangling].
       unfold bind, read_fun. by rewrite Hfd. }
  run (read_fun_Ok _ _ _ Hfd).
  destruct (effectiveRuntime defaultRuntime fd) as [rt|] eqn:Hrt.
  2: { eexists. split; [done|]. by eapply cl_no_runtime. }
  unfold js_get. destruct (runtimeLookup !! rt) as [t|] eqn:Ht.
  2: { destruct (decide (plain_key rt)); eexists; (split; [done|]);
         [by eapply cl_unknown|by eapply cl_inherited]. }
  simpl. destruct (decide (t = NODE)) as [->|Hne].
  2: { eexists. split; [done|]. by eapply cl_other. }
  unfold getHandlerPath. simpl. rewrite bind_assoc. run (read_fun_Ok _ _ _ Hfd).
  destruct (fn_handler fd) as [s|] eqn:Hs.
  2: { eexists. split; [done|]. by eapply cl_node_no_handler. }
  rewrite bind_ret_l. destruct (splitHandler s) as [hp|] eqn:Hhp.
  2: { eexists. split; [done|]. by eapply cl_node_dropped. }
  destruct defaultNodeRuntime as [forced|] eqn:Hforced; eexists; (split; [done|]);
    [by eapply cl_node_forced|by eapply cl_node_probed].
Qed.

Lemma classifyEntry_readonly entry : readonly (classify entry).
Proof. intros h. by destruct (classifyEntry_classified entry h) as (r & -> & _). Qed.

(** The run of the callback, from its outcome. *)
Lemma classified_run entry h r : classified h entry r → classify entry h = (r, h).
Proof.
  intros Hr. destruct (classifyEntry_classified entry h) as (r' & -> & Hr').
  f_equal. destruct Hr; inversion Hr'; simplify_eq; try done; congruence.
Qed.

(** ** The branches of the classification *)

(** C16. A function whose runtime, declared or defaulted, is undefined,
    or is a name outside the runtime table that a plain object does not
    inherit ([plain_key]), is recorded as UNSUPPORTED, with the runtime
    kept for diagnostics. *)
Theorem classifyEntry_unsupported n l h fd :
  funs h !! l = Some fd →
  (∀ rt, effectiveRuntime defaultRuntime fd = Some rt →
         runtimeLookup !! rt = None ∧ plain_key rt) →
  classifyEntry service defaultRuntime defaultNodeRuntime (n, l) h
  = (Ok (Some (mkHandlerInfo n UNSUPPORTED l (effectiveRuntime defaultRuntime fd))), h).
Proof.
  intros Hfd Hrt. apply classified_run.
  destruct (effectiveRuntime defaultRuntime fd) as [rt|] eqn:Heff.
  - destruct (Hrt rt eq_refl). by eapply cl_unknown.
  - by eapply cl_no_runtime.
Qed.

(** C17. A runtime that the table maps to a category other than NODE (the
    Python runtimes) is recorded with that category: no handler is parsed
    and no file is probed. *)
Theorem classifyEntry_passthrough n l h fd rt t :
  funs h !! l = Some fd → effectiveRuntime defaultRuntime fd = Some rt →
  runtimeLookup !! rt = Some t → t ≠ NODE →
  classifyEntry service defaultRuntime defaultNodeRuntime (n, l) h
  = (Ok (Some (mkHandlerInfo n t l (Some rt))), h).
Proof. intros. apply classified_run. by eapply cl_other. Qed.

(** C7. TypeScript wins: for a Node function with handler [f.m] and no
    forced dialect, a file ./f.ts makes the category NODE_TS, whether or
    not ./f.es.js, ./f.mjs or the webpack plugin are there too. *)
Theorem classifyEntry_ts_wins n l h fd rt f m :
  funs h !! l = Some fd → effectiveRuntime defaultRuntime fd = Some rt →
  runtimeLookup !! rt = Some NODE →
  fn_handler fd = Some (f +:+ "." +:+ m) → occurs dot m = false →
  defaultNodeRuntime = None → existsSync ("./" +:+ f +:+ ".ts") = true →
  classifyEntry service defaultRuntime defaultNodeRuntime (n, l) h
  = (Ok (Some (mkHandlerInfo n NODE_TS l (Some rt))), h).
Proof.
  intros ???? Hm ? Hts. apply classified_run.
  rewrite <-(probeNodeType_ts f Hts).
  eapply (cl_node_probed _ _ _ _ _ _ {| method := Some m; filename := f |});
    eauto using splitHandler_snoc.
Qed.

(** C8. Without a .ts file, any of ./f.es.js, ./f.mjs or the webpack
    plugin makes the category NODE_ES6. *)
Theorem classifyEntry_es6 n l h fd rt f m :
  funs h !! l = Some fd → effectiveRuntime defaultRuntime fd = Some rt →
  runtimeLookup !! rt = Some NODE →
  fn_handler fd = Some (f +:+ "." +:+ m) → occurs dot m = false →
  defaultNodeRuntime = None → existsSync ("./" +:+ f +:+ ".ts") = false →
  existsSync ("./" +:+ f +:+ ".es.js") = true ∨
  existsSync ("./" +:+ f +:+ ".mjs") = true ∨ hasWebpackPlugin service = true →
  classifyEntry service defaultRuntime defaultNodeRuntime (n, l) h
  = (Ok (Some (mkHandlerInfo n NODE_ES6 l (Some rt))), h).
Proof.
  intros ???? Hm ? Hts Hes. apply classified_run.
  rewrite <-(probeNodeType_es6 f Hts Hes).
  eapply (cl_node_probed _ _ _ _ _ _ {| method := Some m; filename := f |});
    eauto using splitHandler_snoc.
Qed.

(** C15. A forced dialect is applied to every Node function whose handler
    has a dot, and no file is probed. *)
Theorem classifyEntry_forced n l h fd rt s forced :
  funs h !! l = Some fd → effectiveRuntime defaultRuntime fd = Some rt →
  runtimeLookup !! rt = Some NODE →
  fn_handler fd = Some s → occurs dot s = true →
  defaultNodeRuntime = Some forced →
  classifyEntry service defaultRuntime defaultNodeRuntime (n, l) h
  = (Ok (Some (mkHandlerInfo n forced l (Some rt))), h).
Proof.
  intros ???? Hs ?. apply classified_run.
  destruct (splitHandler s) as [hp|] eqn:Hhp; [by eapply cl_node_forced|].
  apply splitHandler_None in Hhp. congruence.
Qed.

(** C18. A Node function whose handler reference has no dot is dropped:
    the callback answers nothing, silently. *)
Theorem classifyEntry_dropped n l h fd rt s :
  funs h !! l = Some fd → effectiveRuntime defaultRuntime fd = Some rt →
  runtimeLookup !! rt = Some NODE →
  fn_handler fd = Some s → occurs dot s = false →
  classifyEntry service defaultRuntime defaultNodeRuntime (n, l) h
  = (Ok None, h).
Proof.
  intros ???? Hs. apply classified_run. eapply cl_node_dropped; eauto.
  by apply splitHandler_None.
Qed.

(** C22. A Node function without a [handler] property makes the callback
    throw a TypeError. *)
Theorem classifyEntry_no_handler n l h fd rt :
  funs h !! l = Some fd → effectiveRuntime defaultRuntime fd = Some rt →
  runtimeLookup !! rt = Some NODE → fn_handler fd = None →
  classifyEntry service defaultRuntime defaultNodeRuntime (n, l) h
  = (Throw (TypeError "handlerfile.split"), h).
Proof. intros. apply classified_run. by eapply cl_node_no_handler. Qed.

(** ** The whole classification *)

(** The category of a record agrees with the table: the record is
    UNSUPPORTED and its runtime, if it has one, is not in the table; or
    its runtime is in the table, and then a Node runtime gives the forced
    dialect, or without one a Node variant, and any other runtime the
    category of the table. *)
Definition supported_by_table hi : Prop :=
  (type hi = UNSUPPORTED ∧ ∀ rt, runtime hi = Some rt → runtimeLookup !! rt = None) ∨
  ∃ rt t, runtime hi = Some rt ∧ runtimeLookup !! rt = Some t ∧
          if decide (t = NODE) then
            match defaultNodeRuntime with
            | Some forced => type hi = forced
            | None => is_node (type hi) = true
            end
          else type hi = t.

(** What an outcome says about the record it holds. *)
Lemma classified_record h n l hi :
  classified h (n, l) (Ok (Some hi)) →
  name hi = n ∧ handler hi = l ∧
  (∃ fd, funs h !! l = Some fd ∧ runtime hi = effectiveRuntime defaultRuntime fd) ∧
  supported_by_table hi.
Proof.
  unfold supported_by_table.
  inversion 1; simplify_eq; simpl;
    (split_and!; [done|done|eexists; split; [eassumption|congruence]|]).
  - left. by split.
  - left. split; [done|]. by intros ? [= <-].
  - right. eexists rt, _. split_and!; [done..|]. by rewrite decide_False.
  - right. eexists rt, _. split_and!; [done..|]. rewrite decide_True by done.
    by destruct defaultNodeRuntime; simplify_eq.
  - right. eexists rt, _. split_and!; [done..|]. rewrite decide_True by done.
    destruct defaultNodeRuntime; [done|]. apply probeNodeType_is_node.
Qed.

Lemma findHandlers_ro : readonly find.
Proof.
  intros h. unfold findHandlers, bind.
  pose proof (array_map_readonly classify (functions service)
                classifyEntry_readonly h) as Hro.
  destruct (array_map _ _ h) as [[rs|e] h']; simpl in *; by subst.
Qed.

(** The results of the map, when [findHandlers] returns. *)
Lemma findHandlers_Ok_inv h hs h' :
  find h = (Ok hs, h') →
  h' = h ∧ ∃ rs, hs = omap id rs ∧
                 Forall2 (λ e r, classified h e (Ok r)) (functions service) rs.
Proof.
  unfold findHandlers. intros (rs & h1 & Hmap & [= <- <-])%bind_Ok_inv.
  apply array_map_Ok_inv in Hmap as [-> Hall]; [|apply classifyEntry_readonly].
  split; [done|]. exists rs. split; [done|].
  eapply Forall2_impl; [done|]. intros e r Hrun. simpl in Hrun.
  destruct (classifyEntry_classified e h) as (r' & Hr' & ?). congruence.
Qed.

(** C19. The records come in the order of the functions, each under the
    name and with the function definition of its entry; dropping is the
    only change to the list. *)
Theorem findHandlers_order h hs h' :
  findHandlers service defaultRuntime defaultNodeRuntime h = (Ok hs, h') →
  (λ hi, (name hi, handler hi)) <$> hs `sublist_of` functions service.
Proof.
  intros (_ & rs & -> & Hall)%findHandlers_Ok_inv.
  induction Hall as [|[n l] [hi|] es rs Hr _ IH]; simpl; [done| |].
  - apply classified_record in Hr as (<- & <- & _). by apply sublist_skip.
  - by apply sublist_cons.
Qed.

(** Every record is the outcome of the callback on an entry. *)
Lemma findHandlers_record h hs h' hi :
  find h = (Ok hs, h') → hi ∈ hs →
  ∃ n l, (n, l) ∈ functions service ∧ classified h (n, l) (Ok (Some hi)).
Proof.
  intros (_ & rs & -> & Hall)%findHandlers_Ok_inv Hin.
  apply list_elem_of_omap in Hin as (r & Hr & Hhi). simpl in Hhi. subst r.
  apply list_elem_of_lookup in Hr as [i Hi].
  destruct (Forall2_lookup_r _ _ _ i (Some hi) Hall Hi) as ([n l] & Hl & Hcl).
  exists n, l. split; [by eapply list_elem_of_lookup_2|done].
Qed.

(** C6. What the merger may rely on: every record is the record of a
    function of the service, under its name, and refers to its function
    definition in the store; its runtime is the effective runtime of that
    function; and its category agrees with the table: an UNSUPPORTED
    record has no runtime or one outside the table, a Python runtime
    gives PYTHON, and a Node runtime gives the forced dialect, or else a
    Node variant. *)
Theorem findHandlers_sound h hs h' hi :
  findHandlers service defaultRuntime defaultNodeRuntime h = (Ok hs, h') → hi ∈ hs →
  (name hi, handler hi) ∈ functions service ∧
  (∃ fd, funs h !! handler hi = Some fd ∧
         runtime hi = effectiveRuntime defaultRuntime fd) ∧
  supported_by_table hi.
Proof.
  intros Hrun Hin.
  destruct (findHandlers_record h hs h' hi Hrun Hin) as (n & l & Hnl & Hcl).
  by apply classified_record in Hcl as (<- & <- & ? & ?).
Qed.

(** ** Independence of what the merger writes *)

(** An outcome of the callback depends on the handler and the runtime of
    the function only. *)
Lemma classified_grows h h' e r : grows h h' → classified h e r → classified h' e r.
Proof.
  intros (_ & Hfun & Hdom) Hcl.
  assert (∀ l fd, funs h !! l = Some fd →
    ∃ fd', funs h' !! l = Some fd' ∧ fn_handler fd' = fn_handler fd ∧
           effectiveRuntime defaultRuntime fd' = effectiveRuntime defaultRuntime fd)
    as Hsame.
  { intros l fd (fd' & ? & ? & Hrt & _)%Hfun. exists fd'. split_and!; [done..|].
    unfold effectiveRuntime. by rewrite Hrt. }
  destruct Hcl;
    try (match goal with Hfd : funs h !! _ = Some _ |- _ =>
           destruct (Hsame _ _ Hfd) as (fd' & ? & Hh & Hr) end;
         econstructor; rewrite ?Hh, ?Hr; by eauto).
  apply cl_dangling. apply not_elem_of_dom. rewrite Hdom. by apply not_elem_of_dom.
Qed.

Lemma array_map_classify_grows h h' es :
  grows h h' → (array_map classify es h').1 = (array_map classify es h).1.
Proof.
  intros Hgr. induction es as [|e es IH]; [done|]. simpl. unfold bind.
  destruct (classifyEntry_classified e h) as (r & -> & Hcl).
  rewrite (classified_run _ _ _ (classified_grows _ _ _ _ Hgr Hcl)).
  destruct r as [y|err]; [|done].
  pose proof (array_map_readonly _ es classifyEntry_readonly) as Hro.
  pose proof (Hro h) as H1. pose proof (Hro h') as H2.
  destruct (array_map _ es h) as [r1 h1], (array_map _ es h') as [r2 h2].
  simpl in *. subst. by destruct r1.
Qed.

Lemma findHandlers_stable h h' : grows h h' → (find h').1 = (find h).1.
Proof.
  intros Hgr. unfold findHandlers, bind.
  pose proof (array_map_classify_grows h h' (functions service) Hgr) as Hmap.
  destruct (array_map _ _ h) as [[rs|err] h1], (array_map _ _ h') as [[rs'|err'] h2];
    simpl in *; congruence.
Qed.

(** C20. Classification is a function of the handlers and runtimes of the
    functions, the files and the plugins: it never writes the store, and
    on a store that differs by what the merger writes (layer arrays and
    [layers] properties) it gives the same answer. *)
Theorem findHandlers_pure h h' :
  grows h h' →
  findHandlers service defaultRuntime defaultNodeRuntime h'
  = ((findHandlers service defaultRuntime defaultNodeRuntime h).1, h').
Proof.
  intros Hgr. rewrite <-(findHandlers_stable h h' Hgr).
  pose proof (findHandlers_ro h') as Hro. by destruct (find h') as [r h2]; simpl in *; subst.
Qed.

(** ** When the classification returns *)

(** An entry on which the callback returns: its function definition is in
    the store, its runtime is no inherited name, and if the runtime is a
    Node runtime the function has a handler. *)
Definition classifiable h (e : string * loc) : Prop :=
  match funs h !! e.2 with
  | None => False
  | Some fd =>
      match effectiveRuntime defaultRuntime fd with
      | None => True
      | Some rt =>
          (plain_key rt ∨ is_Some (runtimeLookup !! rt)) ∧
          (runtimeLookup !! rt = Some NODE → is_Some (fn_handler fd))
      end
  end.

#[export] Instance classifiable_dec h e : Decision (classifiable h e).
Proof. unfold classifiable. repeat case_match; apply _. Defined.

Lemma classified_Ok h e r : classified h e (Ok r) → classifiable h e.
Proof.
  unfold classifiable. inversion 1; simplify_eq; simpl;
    repeat match goal with Heq : _ = _ |- _ => rewrite Heq end;
    try done; (split; [by eauto|]); try done; intros; simplify_eq; eauto.
Qed.

Lemma classifiable_Ok h e : classifiable h e → ∃ r, classified h e (Ok r).
Proof.
  destruct (classifyEntry_classified e h) as ([r|err] & _ & Hcl); [by eauto|].
  unfold classifiable. inversion Hcl; simplify_eq; simpl;
    repeat match goal with Heq : _ = _ |- _ => rewrite Heq end;
    try done; intros [[?|[? ?]] Hh]; try done; try congruence.
  all: destruct (Hh eq_refl); congruence.
Qed.

(** C9. [findHandlers] returns exactly when every function of the
    service is classifiable: present in the store, with a runtime that is
    no name inherited from [Object.prototype], and with a handler if its
    runtime is a Node runtime.  This is the model's answer: on an
    inherited runtime name the program goes on with a function object as
    the category, where the model stops with [OutOfModel]. *)
Theorem findHandlers_returns h :
  is_Ok (findHandlers service defaultRuntime defaultNodeRuntime h).1
  ↔ Forall (classifiable h) (functions service).
Proof.
  split.
  - destruct (find h) as [[hs|e] h'] eqn:Hrun; [intros _|done].
    apply findHandlers_Ok_inv in Hrun as (_ & rs & _ & Hall).
    induction Hall; constructor; eauto using classified_Ok.
  - intros Hall. unfold findHandlers.
    assert (∃ rs, Forall2 (λ e r, classify e h = (Ok r, h)) (functions service) rs)
      as [rs Hrs].
    { induction Hall as [|e es He _ [rs IH]]; [by exists []|].
      destruct (classifiable_Ok h e He) as [r Hr].
      exists (r :: rs). constructor; [by apply classified_run|done]. }
    by run (array_map_Forall2 _ _ _ _ Hrs).
Qed.

(** C21. Why [findHandlers] throws.  The only exception of the program
    is the TypeError of [getHandlerPath], thrown for a function with a
    Node runtime and no [handler] property.  Every other throw is a fault
    of the model: a function of the service that is not in the store, or a
    runtime name that the table inherits from [Object.prototype].  In each
    case the store is as before. *)
Theorem findHandlers_throws h e h' :
  findHandlers service defaultRuntime defaultNodeRuntime h = (Throw e, h') →
  h' = h ∧
  ((e = TypeError "handlerfile.split" ∧
    ∃ n l fd rt, (n, l) ∈ functions service ∧ funs h !! l = Some fd ∧
                 effectiveRuntime defaultRuntime fd = Some rt ∧
                 runtimeLookup !! rt = Some NODE ∧ fn_handler fd = None) ∨
   (∃ n l, e = OutOfModel (BadRef l) ∧ (n, l) ∈ functions service ∧
           funs h !! l = None) ∨
   (∃ n l fd rt, e = OutOfModel (ProtoKey rt) ∧ (n, l) ∈ functions service ∧
                 funs h !! l = Some fd ∧
                 effectiveRuntime defaultRuntime fd = Some rt ∧
                 runtimeLookup !! rt = None ∧ ¬ plain_key rt)).
Proof.
  unfold findHandlers, bind.
  destruct (array_map _ _ h) as [[rs|e'] h1] eqn:Hmap; [done|]. intros [= <- <-].
  apply array_map_Throw_inv in Hmap as (-> & [n l] & Hin & Hrun);
    [|apply classifyEntry_readonly].
  destruct (classifyEntry_classified (n, l) h) as (r & Hr & Hcl).
  rewrite Hrun in Hr. injection Hr as <-. split; [done|].
  inversion Hcl; simplify_eq; naive_solver.
Qed.

End classify_facts.

(** ** A service, and the theorems applied to it

    Six functions: [func-a] has a .ts and an .es.js file beside its
    handler, [func-b] is a Go function, [func-c] declares no runtime and
    has an .mjs file, [func-d] is a Python function, the handler of
    [func-e] has no dot, and [func-f] has no handler.  The default runtime
    is nodejs10.x. *)

Definition cl_fs : FileSystem :=
  fs_of_paths ["./mylambda.ts"; "./mylambda.es.js"; "./es6only.mjs"].

Definition cl_heap : heap :=
  Heap (list_to_map
          [ (1%positive, mkFunctionDefinition (Some "mylambda.handler")
                           (Some "nodejs8.10") None);
            (2%positive, mkFunctionDefinition (Some "myfile.handler")
                           (Some "go1.10") None);
            (3%positive, mkFunctionDefinition (Some "es6only.handler") None None);
            (4%positive, mkFunctionDefinition (Some "app.main")
                           (Some "python3.7") None);
            (5%positive, mkFunctionDefinition (Some "nodot")
                           (Some "nodejs12.x") None);
            (6%positive, mkFunctionDefinition None (Some "nodejs12.x") None) ])
       ∅.

Definition cl_service : Service :=
  mkService [ ("func-a", 1%positive); ("func-b", 2%positive); ("func-c", 3%positive);
              ("func-d", 4%positive); ("func-e", 5%positive) ] None.

Definition cl_service_bad : Service :=
  mkService [ ("func-a", 1%positive); ("func-f", 6%positive) ] None.

Definition cl_default : option string := Some "nodejs10.x".

Definition cl_handlers : list HandlerInfo :=
  [ mkHandlerInfo "func-a" NODE_TS 1%positive (Some "nodejs8.10");
    mkHandlerInfo "func-b" UNSUPPORTED 2%positive (Some "go1.10");
    mkHandlerInfo "func-c" NODE_ES6 3%positive (Some "nodejs10.x");
    mkHandlerInfo "func-d" PYTHON 4%positive (Some "python3.7") ].

Lemma cl_run : @findHandlers cl_fs cl_service cl_default None cl_heap = (Ok cl_handlers, cl_heap).
Proof. by vm_compute. Qed.

Lemma classifyEntry_unsupported_witness :
  @classifyEntry cl_fs cl_service cl_default None ("func-b", 2%positive) cl_heap
  = (Ok (Some (mkHandlerInfo "func-b" UNSUPPORTED 2%positive (Some "go1.10"))), cl_heap).
Proof.
  apply (@classifyEntry_unsupported cl_fs cl_service cl_default None "func-b" 2%positive
           cl_heap (mkFunctionDefinition (Some "myfile.handler") (Some "go1.10") None)).
  - reflexivity.
  - intros rt [= <-]. split; [reflexivity|compute_done].
Defined.

Lemma classifyEntry_passthrough_witness :
  @classifyEntry cl_fs cl_service cl_default None ("func-d", 4%positive) cl_heap
  = (Ok (Some (mkHandlerInfo "func-d" PYTHON 4%positive (Some "python3.7"))), cl_heap).
Proof.
  by apply (@classifyEntry_passthrough cl_fs cl_service cl_default None "func-d" 4%positive
              cl_heap (mkFunctionDefinition (Some "app.main") (Some "python3.7") None)).
Defined.

Lemma classifyEntry_ts_wins_witness :
  @classifyEntry cl_fs cl_service cl_default None ("func-a", 1%positive) cl_heap
  = (Ok (Some (mkHandlerInfo "func-a" NODE_TS 1%positive (Some "nodejs8.10"))), cl_heap).
Proof.
  by apply (@classifyEntry_ts_wins cl_fs cl_service cl_default None "func-a" 1%positive cl_heap
              (mkFunctionDefinition (Some "mylambda.handler") (Some "nodejs8.10") None)
              "nodejs8.10" "mylambda" "handler").
Defined.

Lemma classifyEntry_es6_witness :
  @classifyEntry cl_fs cl_service cl_default None ("func-c", 3%positive) cl_heap
  = (Ok (Some (mkHandlerInfo "func-c" NODE_ES6 3%positive (Some "nodejs10.x"))), cl_heap).
Proof.
  apply (@classifyEntry_es6 cl_fs cl_service cl_default None "func-c" 3%positive cl_heap
           (mkFunctionDefinition (Some "es6only.handler") None None)
           "nodejs10.x" "es6only" "handler"); try reflexivity.
  right. left. reflexivity.
Defined.

Lemma classifyEntry_forced_witness :
  @classifyEntry cl_fs cl_service cl_default (Some NODE_ES6) ("func-a", 1%positive) cl_heap
  = (Ok (Some (mkHandlerInfo "func-a" NODE_ES6 1%positive (Some "nodejs8.10"))), cl_heap).
Proof.
  by apply (@classifyEntry_forced cl_fs cl_service cl_default (Some NODE_ES6) "func-a" 1%positive
              cl_heap
              (mkFunctionDefinition (Some "mylambda.handler") (Some "nodejs8.10") None)
              "nodejs8.10" "mylambda.handler").
Defined.

Lemma classifyEntry_dropped_witness :
  @classifyEntry cl_fs cl_service cl_default None ("func-e", 5%positive) cl_heap
  = (Ok None, cl_heap).
Proof.
  by apply (@classifyEntry_dropped cl_fs cl_service cl_default None "func-e" 5%positive cl_heap
              (mkFunctionDefinition (Some "nodot") (Some "nodejs12.x") None)
              "nodejs12.x" "nodot").
Defined.

Lemma classifyEntry_no_handler_witness :
  @classifyEntry cl_fs cl_service_bad cl_default None ("func-f", 6%positive) cl_heap
  = (Throw (TypeError "handlerfile.split"), cl_heap).
Proof.
  by apply (@classifyEntry_no_handler cl_fs cl_service_bad cl_default None "func-f" 6%positive
              cl_heap (mkFunctionDefinition None (Some "nodejs12.x") None) "nodejs12.x").
Defined.

Lemma findHandlers_pure_witness :
  let h' := (applyLayers "us-east-1" cl_handlers ex_layers cl_heap).2 in
  @findHandlers cl_fs cl_service cl_default None h'
  = ((@findHandlers cl_fs cl_service cl_default None cl_heap).1, h').
Proof. apply (@findHandlers_pure cl_fs cl_service cl_default None), applyLayers_grows. Defined.

Lemma findHandlers_order_witness :
  (λ hi, (name hi, handler hi)) <$> cl_handlers `sublist_of` functions cl_service.
Proof. apply (@findHandlers_order cl_fs cl_service cl_default None cl_heap _ cl_heap), cl_run. Defined.

Lemma findHandlers_sound_witness :
  let hi := mkHandlerInfo "func-c" NODE_ES6 3%positive (Some "nodejs10.x") in
  (name hi, handler hi) ∈ functions cl_service ∧
  (∃ fd, funs cl_heap !! handler hi = Some fd ∧
         runtime hi = effectiveRuntime cl_default fd) ∧
  supported_by_table None hi.
Proof.
  apply (@findHandlers_sound cl_fs cl_service cl_default None cl_heap cl_handlers cl_heap
           (mkHandlerInfo "func-c" NODE_ES6 3%positive (Some "nodejs10.x")) cl_run).
  compute_done.
Defined.

Lemma findHandlers_throws_witness :
  cl_heap = cl_heap ∧
  ((TypeError "handlerfile.split" = TypeError "handlerfile.split" ∧
    ∃ n l fd rt, (n, l) ∈ functions cl_service_bad ∧ funs cl_heap !! l = Some fd ∧
                 effectiveRuntime cl_default fd = Some rt ∧
                 runtimeLookup !! rt = Some NODE ∧ fn_handler fd = None) ∨
   (∃ n l, TypeError "handlerfile.split" = OutOfModel (BadRef l) ∧
           (n, l) ∈ functions cl_service_bad ∧ funs cl_heap !! l = None) ∨
   (∃ n l fd rt, TypeError "handlerfile.split" = OutOfModel (ProtoKey rt) ∧
                 (n, l) ∈ functions cl_service_bad ∧ funs cl_heap !! l = Some fd ∧
                 effectiveRuntime cl_default fd = Some rt ∧
                 runtimeLookup !! rt = None ∧ ¬ plain_key rt)).
Proof.
  apply (@findHandlers_throws cl_fs cl_service_bad cl_default None cl_heap
           (TypeError "handlerfile.split") cl_heap). by vm_compute.
Defined.
