(* ===== verification/LayerRefine.v ===== *)
(** * LayerRefine: applyLayers against its value-level specification

    The specification of the merger (spec 4.2) speaks of a layer list per
    function: look the ARN up, append it unless it is there.  [merge_spec]
    is that specification on the abstract state [gmap loc (list string)],
    which binds each function that has a layer list to the list.  [view]
    is the abstraction function from stores to abstract states.

    The refinement theorem says that the pass on the store computes
    [merge_spec] on the view, provided no two functions share one layer
    array ([unshared]).  The last section shows that the proviso is needed:
    on a store with sharing the program differs from the specification. *)

From S2P Require Import Spec2Rocq JsObject JsHeap LayerData LayerMerge.

(** ** The specification *)

(** One handler: bind its function to its list with the ARN added. *)
Definition merge_step (rr : gmap string string) (σ : gmap loc (list string))
    (hi : HandlerInfo) : gmap loc (list string) :=
  match layer_for rr hi with
  | Some arn => <[handler hi := add_layer arn (default [] (σ !! handler hi))]> σ
  | None => σ
  end.

(** All handlers, in order. *)
Definition merge_spec (rr : gmap string string) (hs : list HandlerInfo)
    (σ : gmap loc (list string)) : gmap loc (list string) :=
  foldl (merge_step rr) σ hs.

(** ** The abstraction *)

(** The layer list of every function that has one. *)
Definition view (h : heap) : gmap loc (list string) :=
  omap (λ fd, a ← fn_layers fd; arrs h !! a) (funs h).

(** No layer array is the [layers] property of two functions. *)
Definition unshared (h : heap) : Prop :=
  map_Forall (λ l1 fd1,
    map_Forall (λ l2 fd2,
      ∀ a, fn_layers fd1 = Some a → fn_layers fd2 = Some a → l1 = l2) (funs h))
    (funs h).

#[export] Instance unshared_dec h : Decision (unshared h).
Proof.
  unfold unshared. apply map_Forall_dec. intros l1 fd1.
  apply map_Forall_dec. intros l2 fd2.
  destruct (fn_layers fd1) as [a|]; [|left; done].
  destruct (decide (fn_layers fd2 = Some a → l1 = l2)) as [Hd|Hd].
  - left. by intros ? [= <-].
  - right. intros Hall. apply Hd. by apply Hall.
Defined.

Lemma unshared_lookup h l1 l2 fd1 fd2 a :
  unshared h → funs h !! l1 = Some fd1 → funs h !! l2 = Some fd2 →
  fn_layers fd1 = Some a → fn_layers fd2 = Some a → l1 = l2.
Proof. intros Hun Hfd1 Hfd2. by apply (Hun l1 fd1 Hfd1 l2 fd2 Hfd2). Qed.

(** The loop as a sequence of steps. *)
Inductive steps (rr : gmap string string) : list HandlerInfo → heap → heap → Prop :=
| steps_nil h : steps rr [] h h
| steps_cons hi hs h1 h2 h3 :
    step rr hi h1 h2 → steps rr hs h2 h3 → steps rr (hi :: hs) h1 h3.

Lemma lookup_view h l : view h !! l = layers_of h l.
Proof. unfold view, layers_of. by rewrite lookup_omap. Qed.

Section refinement.
Variable rr : gmap string string.
Implicit Types (hi : HandlerInfo) (hs : list HandlerInfo) (h : heap)
  (σ : gmap loc (list string)).

(** On a well-formed store the loop runs as a sequence of steps. *)
Lemma loop_steps hs h :
  wf_heap h → handlers_ok h hs → plain_runtimes rr hs →
  ∃ h', for_of hs (applyLayer rr) h = (Ok tt, h') ∧ steps rr hs h h'.
Proof.
  revert h. induction hs as [|hi hs IH]; intros h Hwf Hok Hplain.
  { exists h. split; [done|constructor]. }
  apply Forall_cons in Hok as [Hhi Hok]. apply Forall_cons in Hplain as [Hp Hplain].
  destruct (applyLayer_Ok rr hi h Hwf Hhi Hp) as (h1 & Hrun & Hstep).
  destruct (IH h1) as (h2 & Hloop & Hsteps); [by eauto with js| |done|].
  { eapply grows_handlers_ok; eauto with js. }
  exists h2. split; [|by econstructor]. rewrite for_of_cons. by run Hrun.
Qed.

(** The array that an allocation creates is the [layers] property of no
    function. *)
Lemma fresh_arr_unused h l fd a :
  wf_heap h → funs h !! l = Some fd → fn_layers fd = Some a → a ≠ fresh (dom (arrs h)).
Proof.
  intros Hwf Hfd Ha ->. destruct (wf_heap_lookup _ _ _ _ Hwf Hfd Ha) as [? Hv].
  by rewrite fresh_arr_None in Hv.
Qed.

(** The view of a function whose array is not the one written. *)
Lemma layers_of_other h funs' l a w :
  (∀ fd', funs h !! l = Some fd' → fn_layers fd' ≠ Some a) → funs' !! l = funs h !! l →
  layers_of (Heap funs' (<[a := w]> (arrs h))) l = layers_of h l.
Proof.
  intros Hother Hl. unfold layers_of. simpl. rewrite Hl.
  destruct (funs h !! l) as [fd'|] eqn:Hfd'; [|done]. simpl.
  destruct (fn_layers fd') as [a'|] eqn:Ha'; [|done]. simpl.
  rewrite lookup_insert_ne; [done|]. intros <-. by eapply Hother.
Qed.

(** Writing the array of one function changes the view at that function
    only, when the array is not shared. *)
Lemma view_write_existing h l fd a w :
  unshared h → funs h !! l = Some fd → fn_layers fd = Some a →
  view (Heap (funs h) (<[a := w]> (arrs h))) = <[l := w]> (view h).
Proof.
  intros Hun Hfd Ha. apply map_eq. intros l'. rewrite lookup_view.
  destruct (decide (l' = l)) as [->|Hne].
  - rewrite lookup_insert_eq. eapply layers_of_Some; [done..|apply lookup_insert_eq].
  - rewrite lookup_insert_ne, lookup_view by done. apply layers_of_other; [|done].
    intros fd' Hfd' Ha'. by eapply Hne, unshared_lookup.
Qed.

(** Giving a function a new array changes the view at that function
    only. *)
Lemma view_write_fresh h l fd w :
  wf_heap h → funs h !! l = Some fd →
  view (Heap (<[l := set_fn_layers (fresh (dom (arrs h))) fd]> (funs h))
             (<[fresh (dom (arrs h)) := w]> (arrs h)))
  = <[l := w]> (view h).
Proof.
  intros Hwf Hfd. apply map_eq. intros l'. rewrite lookup_view.
  destruct (decide (l' = l)) as [->|Hne].
  - rewrite lookup_insert_eq.
    eapply layers_of_Some; [apply lookup_insert_eq|done|apply lookup_insert_eq].
  - rewrite lookup_insert_ne, lookup_view by done.
    apply layers_of_other; [|by rewrite lookup_insert_ne].
    intros fd' Hfd' Ha'. by eapply fresh_arr_unused.
Qed.

(** A new array creates no sharing. *)
Lemma unshared_fresh h l fd :
  wf_heap h → unshared h →
  unshared (Heap (<[l := set_fn_layers (fresh (dom (arrs h))) fd]> (funs h))
                 (<[fresh (dom (arrs h)) := []]> (arrs h))).
Proof.
  intros Hwf Hun l1 fd1 Hfd1 l2 fd2 Hfd2 a' Ha1 Ha2. simpl in *.
  apply lookup_insert_Some in Hfd1 as [[<- <-]|[? Hfd1]];
    apply lookup_insert_Some in Hfd2 as [[<- <-]|[? Hfd2]]; simplify_eq/=.
  - done.
  - by destruct (fresh_arr_unused _ _ _ _ Hwf Hfd2 Ha2).
  - by destruct (fresh_arr_unused _ _ _ _ Hwf Hfd1 Ha1).
  - by eapply unshared_lookup.
Qed.

(** A step on the store is a step of the specification on the view, and
    it creates no sharing. *)
Lemma step_refines hi h h' :
  wf_heap h → unshared h → step rr hi h h' →
  view h' = merge_step rr (view h) hi ∧ unshared h'.
Proof.
  intros Hwf Hun. unfold merge_step.
  destruct 1 as [->|arn fd a v -> Hfd Ha Hv|arn fd -> Hfd Ha]; [done|..].
  - rewrite lookup_view, (layers_of_Some h _ _ _ _ Hfd Ha Hv). simpl.
    split; [by eapply view_write_existing|done].
  - rewrite lookup_view, (layers_of_unset h _ _ Hfd Ha). simpl.
    split; [by apply view_write_fresh|]. intros l1 fd1 Hfd1 l2 fd2 Hfd2.
    by apply (unshared_fresh h (handler hi) fd Hwf Hun l1 fd1 Hfd1 l2 fd2 Hfd2).
Qed.

Lemma steps_refine hs h h' :
  wf_heap h → unshared h → steps rr hs h h' →
  view h' = merge_spec rr hs (view h) ∧ unshared h' ∧ wf_heap h'.
Proof.
  intros Hwf Hun Hsteps. induction Hsteps as [h|hi hs h1 h2 h3 Hstep _ IH]; [done|].
  destruct (step_refines hi h1 h2 Hwf Hun Hstep) as [Hview Hun2].
  unfold merge_spec. simpl. rewrite <-Hview. apply IH; eauto with js.
Qed.

(** The loop on a store without sharing: it returns, and its store is the
    one the specification describes. *)
Lemma loop_refines hs h :
  wf_heap h → handlers_ok h hs → plain_runtimes rr hs → unshared h →
  ∃ h', for_of hs (applyLayer rr) h = (Ok tt, h') ∧
        view h' = merge_spec rr hs (view h) ∧ unshared h'.
Proof.
  intros Hwf Hok Hplain Hun.
  destruct (loop_steps hs h) as (h' & Hrun & Hsteps); [done..|].
  exists h'. by destruct (steps_refine hs h h' Hwf Hun Hsteps) as (? & ? & _).
Qed.

End refinement.

(** ** The refinement theorem *)

(** C5. On a store in which no two functions share a layer array,
    [applyLayers] implements the specification: the layer lists after the
    pass are those that [merge_spec] computes from the lists before it,
    and the store is again without sharing. *)
Theorem applyLayers_refines region hs layers h rr :
  pass_ok region hs layers h → unshared h → regions layers !! region = Some rr →
  view (applyLayers region hs layers h).2 = merge_spec rr hs (view h) ∧
  unshared (applyLayers region hs layers h).2.
Proof.
  intros (Hwf & Hok & Hreg) Hun Hrr. rewrite Hrr in Hreg.
  rewrite (applyLayers_region _ _ _ _ _ Hrr).
  by destruct (loop_refines rr hs h) as (h' & -> & ? & ?).
Qed.

(** C26. With a region that the table does not bind and that is no name
    inherited from [Object.prototype], the pass returns and leaves the
    store as it is. *)
Theorem applyLayers_unknown_region region hs layers h :
  regions layers !! region = None → plain_key region →
  applyLayers region hs layers h = (Ok tt, h).
Proof. apply applyLayers_no_region. Qed.

(** ** With sharing *)

Section sharing.
Implicit Types (hi : HandlerInfo) (hs : list HandlerInfo) (h : heap) (l a : loc)
  (σ : gmap loc (list string)) (rr : gmap string string).

(** What the specification gives a function that has a list: the list it
    had, and the layers of the handlers that refer to it. *)
Lemma merge_step_lookup rr σ hi l v0 :
  σ !! l = Some v0 →
  ∃ w, merge_step rr σ hi !! l = Some w ∧
       ∀ x, x ∈ w → x ∈ v0 ∨ (handler hi = l ∧ layer_for rr hi = Some x).
Proof.
  intros Hl. unfold merge_step. destruct (layer_for rr hi) as [arn|]; [|by eauto].
  destruct (decide (handler hi = l)) as [<-|Hne].
  - rewrite lookup_insert_eq, Hl. eexists. split; [done|]. simpl.
    intros x [->|?]%elem_of_add_layer; auto.
  - rewrite lookup_insert_ne by done. eauto.
Qed.

Lemma merge_spec_lookup rr hs σ l v0 :
  σ !! l = Some v0 →
  ∃ w, merge_spec rr hs σ !! l = Some w ∧
       ∀ x, x ∈ w →
            x ∈ v0 ∨ ∃ hi, hi ∈ hs ∧ handler hi = l ∧ layer_for rr hi = Some x.
Proof.
  revert σ v0. induction hs as [|hi hs IH]; intros σ v0 Hl; [by eauto|].
  destruct (merge_step_lookup rr σ hi l v0 Hl) as (v1 & Hv1 & Hin1).
  destruct (IH _ _ Hv1) as (w & Hw & Hin). exists w. split; [done|].
  intros x [Hx|(hi' & ? & ? & ?)]%Hin.
  - destruct (Hin1 x Hx) as [?|[? ?]]; [by left|right]. exists hi. by split_and!; [left|..].
  - right. exists hi'. by split_and!; [right|..].
Qed.

(** What the program gives it: also the layer of every handler whose
    function has the same array. *)
Lemma applyLayers_shared region hs layers h rr hi arn a l fd fdh :
  pass_ok region hs layers h → regions layers !! region = Some rr →
  hi ∈ hs → layer_for rr hi = Some arn →
  funs h !! handler hi = Some fdh → fn_layers fdh = Some a →
  funs h !! l = Some fd → fn_layers fd = Some a →
  ∃ v, layers_of (applyLayers region hs layers h).2 l = Some v ∧ arn ∈ v.
Proof.
  intros Hok Hrr Hin Harn Hfdh Hah Hfd Ha.
  pose proof (applyLayers_grows region hs layers h) as (_ & Hfun & _).
  destruct (applyLayers_pass _ _ _ _ Hok) as (h' & Hrun & _ & Hsat).
  rewrite Hrun in *. simpl in *. specialize (Hsat rr Hrr). rewrite Forall_forall in Hsat.
  destruct (Hsat hi Hin arn Harn) as (v & Hv & Harnv).
  destruct (Hfun _ _ Hfdh) as (fdh' & Hfdh' & _ & _ & Hah').
  destruct (Hfun _ _ Hfd) as (fd' & Hfd' & _ & _ & Ha').
  exists v. split; [|done]. unfold layers_of in *. rewrite Hfdh' in Hv. rewrite Hfd'.
  simpl in *. rewrite (Ha' a Ha). by rewrite (Hah' a Hah) in Hv.
Qed.

(** C25. The proviso of the refinement is needed, and sharing is a defect
    of the code: whenever the function of a handler with a bound layer
    shares its array with another function, the pass gives that other
    function the layer too, where the specification does not: it gives a
    function only what it had and the layers of the handlers that refer to
    it.  So a Node function that shares its [layers] array with a Python
    function ends with the Python layer. *)
Theorem applyLayers_sharing_differs region hs layers h rr hi arn a l fd fdh v0 :
  pass_ok region hs layers h → regions layers !! region = Some rr →
  hi ∈ hs → layer_for rr hi = Some arn →
  funs h !! handler hi = Some fdh → fn_layers fdh = Some a →
  funs h !! l = Some fd → fn_layers fd = Some a →
  arrs h !! a = Some v0 → arn ∉ v0 →
  (∀ hi', hi' ∈ hs → handler hi' = l → layer_for rr hi' ≠ Some arn) →
  (∃ v, view (applyLayers region hs layers h).2 !! l = Some v ∧ arn ∈ v) ∧
  (∃ w, merge_spec rr hs (view h) !! l = Some w ∧ arn ∉ w).
Proof.
  intros Hok Hrr Hin Harn Hfdh Hah Hfd Ha Hv0 Hnew Hother. split.
  - rewrite lookup_view. by eapply applyLayers_shared.
  - destruct (merge_spec_lookup rr hs (view h) l v0) as (w & Hw & Hfrom).
    { rewrite lookup_view. by eapply layers_of_Some. }
    exists w. split; [done|]. intros [?|(hi' & ? & ? & ?)]%Hfrom; [done|].
    by eapply Hother.
Qed.

End sharing.

(** ** The theorems applied, without and with sharing *)

(** The store of [ex_heap] with the sharing undone: [b] has an array of
    its own. *)
Definition ex_unshared_heap : heap :=
  Heap (<[2%positive := mkFunctionDefinition (Some "b.handler") (Some "python3.8")
                          (Some 2%positive)]> (funs ex_heap))
       (<[2%positive := ["node:1"]]> (arrs ex_heap)).

Definition ex_rr : gmap string string :=
  list_to_map [ ("nodejs10.x", "node:1"); ("nodejs12.x", "node:2"); ("python3.8", "py:3") ].

Lemma applyLayers_refines_witness :
  view (applyLayers "us-east-1" ex_handlers ex_layers ex_unshared_heap).2
  = merge_spec ex_rr ex_handlers (view ex_unshared_heap) ∧
  unshared (applyLayers "us-east-1" ex_handlers ex_layers ex_unshared_heap).2.
Proof.
  apply (applyLayers_refines "us-east-1" ex_handlers ex_layers ex_unshared_heap ex_rr);
    [compute_done|compute_done|reflexivity].
Defined.

Lemma applyLayers_unknown_region_witness :
  applyLayers "us-east-2" ex_handlers ex_layers ex_heap = (Ok tt, ex_heap).
Proof. apply applyLayers_unknown_region; [reflexivity|compute_done]. Defined.

(** In [ex_heap] the functions [a] (Node) and [b] (Python) share the
    array at location 1, which holds "node:1": the program gives [a] the
    Python layer "py:3", the specification does not. *)
Lemma applyLayers_sharing_differs_witness :
  (∃ v, view (applyLayers "us-east-1" ex_handlers ex_layers ex_heap).2 !! 1%positive
        = Some v ∧ "py:3" ∈ v) ∧
  (∃ w, merge_spec ex_rr ex_handlers (view ex_heap) !! 1%positive = Some w ∧ "py:3" ∉ w).
Proof.
  apply (applyLayers_sharing_differs "us-east-1" ex_handlers ex_layers ex_heap ex_rr
           (mkHandlerInfo "b" PYTHON 2%positive (Some "python3.8")) "py:3" 1%positive
           1%positive
           (mkFunctionDefinition (Some "a.handler") (Some "nodejs10.x") (Some 1%positive))
           (mkFunctionDefinition (Some "b.handler") (Some "python3.8") (Some 1%positive))
           ["node:1"]); try reflexivity; try compute_done.
  unfold ex_handlers. intros hi' Hhi'. decompose_list_elem_of; simplify_eq; by vm_compute.
Defined.

Example ex_sharing_lists :
  merge_spec ex_rr ex_handlers (view ex_heap) !! 1%positive = Some ["node:1"] ∧
  view (applyLayers "us-east-1" ex_handlers ex_layers ex_heap).2 !! 1%positive
  = Some ["node:1"; "py:3"].
Proof. by vm_compute. Qed.
