(* ===== verification/Pipeline.v ===== *)
(** * Pipeline: the classifier and the merger together

    The plugin runs the classifier over the functions of the service and
    hands its records to the merger (spec 2, control flow).  [classifyAndMerge] is
    that composition.  What the merger needs from a classifier is stated
    as the interface [Classifier]; the theorems on the pipeline are proved
    for every classifier that implements it, and [findHandlers] is shown to
    be one. *)

From S2P Require Import Spec2Rocq JsObject JsHeap LayerData LayerMerge LayerClassify.

(** What the merger relies on.  A classifier never writes the store; its
    records refer to function definitions of the store; a record that is
    not UNSUPPORTED names a runtime that is no inherited name; and its
    answer depends on nothing the merger changes. *)
Class Classifier (find : M heap (list HandlerInfo)) : Prop := {
  classifier_readonly : readonly find;
  classifier_handlers h hs h' : find h = (Ok hs, h') → handlers_ok h hs;
  classifier_runtimes h hs h' :
    find h = (Ok hs, h') →
    Forall (λ hi, type hi = UNSUPPORTED ∨ ∀ rt, runtime hi = Some rt → plain_key rt) hs;
  classifier_stable h h' : grows h h' → (find h').1 = (find h).1;
}.

(** Classify, then merge. *)
Definition classifyAndMerge (find : M heap (list HandlerInfo)) (region : string)
    (layers : LayerJSON) : M heap unit :=
  let! handlers := find in
  applyLayers region handlers layers.

(** The region is bound by the table or is no inherited name. *)
Definition region_ok (region : string) (layers : LayerJSON) : Prop :=
  is_Some (regions layers !! region) ∨ plain_key region.

#[export] Instance region_ok_dec region layers : Decision (region_ok region layers).
Proof. unfold region_ok. apply _. Defined.

Section pipeline.
Context (find : M heap (list HandlerInfo)) `{!Classifier find}.
Implicit Types (h : heap) (hs : list HandlerInfo) (layers : LayerJSON).

Lemma find_Ok h hs h' : find h = (Ok hs, h') → h' = h.
Proof. intros Hrun. pose proof (classifier_readonly h) as Hro. by rewrite Hrun in Hro. Qed.

(** The records of a classifier satisfy the side conditions of the
    merger. *)
Lemma classifier_pass_ok region layers h hs h' :
  wf_heap h → region_ok region layers → find h = (Ok hs, h') →
  pass_ok region hs layers h.
Proof.
  intros Hwf Hreg Hrun. split_and!; [done|by eapply classifier_handlers|].
  destruct (regions layers !! region) as [rr|] eqn:Hrr.
  - eapply Forall_impl; [by eapply classifier_runtimes|]. simpl.
    intros hi [?|Hrt]; [by left|right]. intros rt ?. left. by apply Hrt.
  - destruct Hreg as [[? ?]|]; [congruence|done].
Qed.

(** C27. The pipeline is total: on a well-formed store, with a region
    that the table binds or that is no inherited name ([region_ok]), if
    the classifier returns, classification followed by merging returns. *)
Theorem classifyAndMerge_total region layers h :
  wf_heap h → region_ok region layers → is_Ok (find h).1 →
  (classifyAndMerge find region layers h).1 = Ok tt.
Proof.
  intros Hwf Hreg Hok. unfold classifyAndMerge.
  destruct (find h) as [[hs|e] h'] eqn:Hrun; [|done].
  run Hrun. apply find_Ok in Hrun as Hh. subst h'.
  by destruct (applyLayers_pass region hs layers h) as (h1 & -> & _);
    [eapply classifier_pass_ok|].
Qed.

(** C10. The pipeline is idempotent: on a well-formed store, under
    [region_ok] and when the classifier returns, running classification
    and merging again on the store they produced returns and changes
    nothing. *)
Theorem classifyAndMerge_idempotent region layers h :
  wf_heap h → region_ok region layers → is_Ok (find h).1 →
  let h' := (classifyAndMerge find region layers h).2 in
  classifyAndMerge find region layers h' = (Ok tt, h').
Proof.
  intros Hwf Hreg Hok. cbv zeta. unfold classifyAndMerge.
  destruct (find h) as [[hs|e] h0] eqn:Hrun; [|done].
  run Hrun. apply find_Ok in Hrun as Hh. subst h0.
  pose proof (applyLayers_grows region hs layers h) as Hgr.
  destruct (applyLayers_pass region hs layers h) as (h1 & Hpass & Hagain & _);
    [by eapply classifier_pass_ok|].
  rewrite Hpass in *. simpl in *.
  assert (find h1 = (Ok hs, h1)) as Hrun1.
  { pose proof (classifier_stable h h1 Hgr) as Hst.
    pose proof (classifier_readonly h1) as Hro. rewrite Hrun in Hst.
    destruct (find h1) as [r h2]. simpl in *. by subst. }
  by run Hrun1.
Qed.

End pipeline.

(** ** findHandlers is a classifier *)

Section instance.
Context `{FileSystem}.
Variables (service : Service) (defaultRuntime : option string)
  (defaultNodeRuntime : option RuntimeType).

Local Abbreviation find := (findHandlers service defaultRuntime defaultNodeRuntime).

(** The keys of the runtime table are no inherited names. *)
Lemma runtimeLookup_plain rt t : runtimeLookup !! rt = Some t → plain_key rt.
Proof.
  rewrite runtimeLookup_spec. unfold runtimeTable.
  rewrite !elem_of_cons, elem_of_nil.
  intros Hin. destruct_or?; simplify_eq; compute_done.
Qed.

#[export] Instance findHandlers_classifier : Classifier find.
Proof.
  split.
  - apply findHandlers_ro.
  - intros h hs h' Hrun. apply Forall_forall. intros hi Hin.
    destruct (findHandlers_record _ _ _ _ _ _ _ Hrun Hin) as (n & l & _ & Hcl).
    apply classified_record in Hcl as (_ & <- & (fd & ? & _) & _). by eexists.
  - intros h hs h' Hrun. apply Forall_forall. intros hi Hin.
    destruct (findHandlers_record _ _ _ _ _ _ _ Hrun Hin) as (n & l & _ & Hcl).
    apply classified_record in Hcl as (_ & _ & _ & [[? _]|Hrt]); [by left|].
    destruct Hrt as (rt & t & Hrt & Ht & _). right. intros ? ?. simplify_eq.
    by eapply runtimeLookup_plain.
  - apply findHandlers_stable.
Qed.

End instance.

(** ** The pipeline on the service of LayerClassify

    The table binds a layer to the runtimes of [func-a], [func-c] and
    [func-d]; [func-b] is unsupported and [func-e] is dropped by the
    classifier, so neither gets a [layers] property. *)

Definition pl_layers : LayerJSON :=
  {| regions :=
       {[ "us-east-1" := list_to_map [ ("nodejs8.10", "node8:1");
                                       ("nodejs10.x", "node10:2");
                                       ("python3.7", "py37:3") ] ]} |}.

Definition pl_find : M heap (list HandlerInfo) :=
  @findHandlers cl_fs cl_service cl_default None.

Definition pl_final : heap := (classifyAndMerge pl_find "us-east-1" pl_layers cl_heap).2.

Lemma classifyAndMerge_total_witness :
  (classifyAndMerge pl_find "us-east-1" pl_layers cl_heap).1 = Ok tt.
Proof.
  apply (classifyAndMerge_total pl_find "us-east-1" pl_layers cl_heap);
    [compute_done|compute_done|by vm_compute].
Defined.

Lemma classifyAndMerge_idempotent_witness :
  classifyAndMerge pl_find "us-east-1" pl_layers pl_final = (Ok tt, pl_final).
Proof.
  apply (classifyAndMerge_idempotent pl_find "us-east-1" pl_layers cl_heap);
    [compute_done|compute_done|by vm_compute].
Defined.

Example pl_final_layers :
  layers_of pl_final <$> [1; 2; 3; 4; 5]%positive
  = [Some ["node8:1"]; None; Some ["node10:2"]; Some ["py37:3"]; None].
Proof. by vm_compute. Qed.
