(* ===== verification/LayerOrder.v ===== *)
(** * LayerOrder: the order of the functions does not matter

    [findHandlers] (src/src/layer.ts 48-90) lists the functions in the
    order in which [Object.entries] yields them, which is not the order
    of the service file when a function name looks like an integer, and
    [applyLayers] (92-113) visits the records in the order of the list.
    This file shows that the order has no influence on the layers a
    function ends with, on a store without sharing.

    The lists themselves can differ: a function that two records refer to
    gets the two layers in the order of the records.  So the result is
    compared by [same_layers], the equivalence of layer assignments up to
    the order inside each list.  The specification [merge_spec] respects
    it and is insensitive to the order of the records (the [Proper]
    instances), and the theorems transport this to the program through
    the refinement of LayerRefine.v. *)

From S2P Require Import Spec2Rocq JsObject JsHeap LayerData LayerMerge LayerClassify LayerRefine Pipeline.

(** Two assignments of layer lists that agree up to the order inside each
    list. *)
Definition same_layers (σ1 σ2 : gmap loc (list string)) : Prop :=
  ∀ l, option_Forall2 (≡ₚ) (σ1 !! l) (σ2 !! l).

(** The service with its functions listed in another order. *)
Definition reordered (service : Service) (entries : list (string * loc)) : Service :=
  mkService entries (plugins service).

(** ** The specification up to the order of the lists *)

#[export] Instance same_layers_equivalence : Equivalence same_layers.
Proof.
  split.
  - by intros σ l.
  - intros σ1 σ2 Hσ l. symmetry. apply Hσ.
  - intros σ1 σ2 σ3 H12 H23 l. etrans; [apply H12|apply H23].
Qed.

#[export] Instance add_layer_proper arn : Proper ((≡ₚ) ==> (≡ₚ)) (add_layer arn).
Proof.
  intros v1 v2 Hv. unfold add_layer.
  destruct (decide (arn ∈ v1)) as [H1|H1], (decide (arn ∈ v2)) as [H2|H2];
    [done|by rewrite Hv in H1..|by rewrite Hv].
Qed.

Lemma add_layer_new arn v : arn ∉ v → add_layer arn v = v ++ [arn].
Proof. unfold add_layer. by intros; case_decide. Qed.

(** Two layers can be added in either order. *)
Lemma add_layer_comm a b v : add_layer a (add_layer b v) ≡ₚ add_layer b (add_layer a v).
Proof.
  destruct (decide (a = b)) as [->|Hab]; [done|].
  destruct (decide (a ∈ v)) as [Ha|Ha], (decide (b ∈ v)) as [Hb|Hb].
  - by rewrite (add_layer_id b v Hb), (add_layer_id a v Ha), (add_layer_id b v Hb).
  - rewrite (add_layer_id a v Ha), (add_layer_new b v Hb).
    by rewrite add_layer_id by set_solver.
  - rewrite (add_layer_id b v Hb), (add_layer_new a v Ha).
    by rewrite add_layer_id by set_solver.
  - rewrite (add_layer_new b v Hb), (add_layer_new a v Ha), !add_layer_new by set_solver.
    rewrite <-!(assoc_L (++)). f_equiv. apply perm_swap.
Qed.

#[export] Instance merge_step_proper rr :
  Proper (same_layers ==> (=) ==> same_layers) (merge_step rr).
Proof.
  intros σ1 σ2 Hσ hi ? <- l. unfold merge_step.
  destruct (layer_for rr hi) as [arn|]; [|done].
  destruct (decide (handler hi = l)) as [<-|Hne].
  - rewrite !lookup_insert_eq. constructor. apply add_layer_proper.
    by destruct (Hσ (handler hi)).
  - rewrite !lookup_insert_ne by done. apply Hσ.
Qed.

(** Two records can be merged in either order. *)
Lemma merge_step_comm rr σ x y :
  same_layers (merge_step rr (merge_step rr σ x) y) (merge_step rr (merge_step rr σ y) x).
Proof.
  intros l. unfold merge_step.
  destruct (layer_for rr x) as [a|], (layer_for rr y) as [b|]; try done.
  destruct (decide (handler x = handler y)) as [Heq|Hne].
  - rewrite Heq, !lookup_insert_eq. simpl.
    destruct (decide (handler y = l)) as [<-|]; [|by rewrite !lookup_insert_ne].
    rewrite !lookup_insert_eq. constructor. apply add_layer_comm.
  - rewrite (lookup_insert_ne _ (handler x) (handler y)) by done.
    rewrite (lookup_insert_ne _ (handler y) (handler x)) by done.
    by rewrite insert_insert_ne.
Qed.

Lemma merge_spec_cons rr hi hs σ :
  merge_spec rr (hi :: hs) σ = merge_spec rr hs (merge_step rr σ hi).
Proof. done. Qed.

#[export] Instance merge_spec_proper rr :
  Proper ((≡ₚ) ==> same_layers ==> same_layers) (merge_spec rr).
Proof.
  assert (∀ hs, Proper (same_layers ==> same_layers) (merge_spec rr hs)) as Hsame.
  { induction hs as [|hi hs IH]; intros σ1 σ2 Hσ; [done|].
    rewrite !merge_spec_cons. by apply IH, merge_step_proper. }
  intros hs hs' Hp.
  induction Hp as [|x l l' _ IH|x y l|l1 l2 l3 _ IH1 _ IH2]; intros σ1 σ2 Hσ.
  - done.
  - rewrite !merge_spec_cons. by apply IH, merge_step_proper.
  - rewrite !merge_spec_cons. apply Hsame. etrans; [apply merge_step_comm|].
    by do 2 (apply merge_step_proper; [|done]).
  - etrans; [by apply IH1|]. by apply IH2.
Qed.

#[export] Instance pass_ok_Permutation region :
  Proper ((≡ₚ) ==> (=) ==> (=) ==> iff) (pass_ok region).
Proof.
  intros hs hs' Hp layers ? <- h ? <-. unfold pass_ok, handlers_ok, plain_runtimes.
  destruct (regions layers !! region); by rewrite Hp.
Qed.

(** ** The merger *)

(** The loop, for two orders of the records. *)
Lemma loop_Permutation rr hs hs' h :
  hs ≡ₚ hs' → wf_heap h → handlers_ok h hs → plain_runtimes rr hs → unshared h →
  same_layers (view (for_of hs (applyLayer rr) h).2)
              (view (for_of hs' (applyLayer rr) h).2).
Proof.
  intros Hp Hwf Hok Hplain Hun.
  destruct (loop_refines rr hs h) as (h1 & -> & Hview & _); [done..|].
  destruct (loop_refines rr hs' h) as (h2 & -> & Hview' & _);
    [done|by unfold handlers_ok; rewrite <-Hp|by unfold plain_runtimes; rewrite <-Hp|done|].
  simpl. rewrite Hview, Hview'. by apply merge_spec_proper.
Qed.

(** C14. The merger does not depend on the order of the handler records: on
    a store without sharing, two passes of [applyLayers] over the same
    records in different orders leave every function with the same
    layers, up to the order inside its list. *)
Theorem applyLayers_order region hs hs' layers h :
  hs ≡ₚ hs' → pass_ok region hs layers h → unshared h →
  same_layers (view (applyLayers region hs layers h).2)
              (view (applyLayers region hs' layers h).2).
Proof.
  intros Hp (Hwf & Hok & Hreg) Hun.
  destruct (regions layers !! region) as [rr|] eqn:Hrr.
  - rewrite !(applyLayers_region _ _ _ _ _ Hrr). by apply loop_Permutation.
  - by rewrite !applyLayers_no_region.
Qed.

(** ** The classifier and the merger *)

Section entries_order.
Context `{FileSystem}.
Variables (service : Service) (defaultRuntime : option string)
  (defaultNodeRuntime : option RuntimeType).
Implicit Types (h : heap) (hs : list HandlerInfo) (entries : list (string * loc)).

(** The records of the reordered service are the records of the service,
    reordered. *)
Lemma findHandlers_reordered entries h hs h' :
  functions service ≡ₚ entries →
  findHandlers service defaultRuntime defaultNodeRuntime h = (Ok hs, h') →
  ∃ hs', findHandlers (reordered service entries) defaultRuntime defaultNodeRuntime h
         = (Ok hs', h') ∧ hs ≡ₚ hs'.
Proof.
  intros Hp. unfold findHandlers.
  intros (rs & h1 & Hmap & [= <- <-])%bind_Ok_inv.
  eapply array_map_Permutation in Hmap as (rs' & Hmap' & Hrs);
    [|apply classifyEntry_readonly|done].
  exists (omap id rs'). split; [|by rewrite Hrs].
  change (classifyEntry (reordered service entries)) with (classifyEntry service).
  by rewrite (bind_Ok _ _ _ _ _ Hmap').
Qed.

(** C13. The layers do not depend on the order in which [Object.entries]
    yields the functions: if [findHandlers] returns on a service, it
    returns on the service with its functions in any other order, with
    the same records in another order, and merging the one or the other
    list of records into a store without sharing leaves every function
    with the same layers, up to the order inside its list. *)
Theorem findHandlers_entries_order entries region layers h hs h' :
  functions service ≡ₚ entries → wf_heap h → unshared h → region_ok region layers →
  findHandlers service defaultRuntime defaultNodeRuntime h = (Ok hs, h') →
  ∃ hs', findHandlers (reordered service entries) defaultRuntime defaultNodeRuntime h
         = (Ok hs', h') ∧ hs ≡ₚ hs' ∧
         same_layers (view (applyLayers region hs layers h').2)
                     (view (applyLayers region hs' layers h').2).
Proof.
  intros Hp Hwf Hun Hreg Hrun.
  destruct (findHandlers_reordered entries h hs h' Hp Hrun) as (hs' & Hrun' & Hhs).
  exists hs'. split_and!; [done..|].
  pose proof (find_Ok _ h hs h' Hrun) as ->.
  destruct (classifier_pass_ok _ region layers h hs h Hwf Hreg Hrun) as (_ & Hok & Hplain).
  destruct (regions layers !! region) as [rr|] eqn:Hrr.
  - rewrite !(applyLayers_region _ _ _ _ _ Hrr). by apply loop_Permutation.
  - rewrite !applyLayers_no_region; [done..|]. by destruct Hreg as [[? ?]|].
Qed.

End entries_order.

(** ** The theorems applied *)

Lemma applyLayers_order_witness :
  same_layers
    (view (applyLayers "us-east-1" ex_handlers ex_layers ex_unshared_heap).2)
    (view (applyLayers "us-east-1" (reverse ex_handlers) ex_layers ex_unshared_heap).2).
Proof.
  apply applyLayers_order; [symmetry; apply reverse_Permutation|compute_done..].
Defined.

Lemma findHandlers_entries_order_witness :
  ∃ hs', @findHandlers cl_fs (reordered cl_service (reverse (functions cl_service)))
           cl_default None cl_heap = (Ok hs', cl_heap) ∧
         cl_handlers ≡ₚ hs' ∧
         same_layers (view (applyLayers "us-east-1" cl_handlers pl_layers cl_heap).2)
                     (view (applyLayers "us-east-1" hs' pl_layers cl_heap).2).
Proof.
  apply (@findHandlers_entries_order cl_fs cl_service cl_default None
           (reverse (functions cl_service)) "us-east-1" pl_layers cl_heap cl_handlers
           cl_heap);
    [symmetry; apply reverse_Permutation|compute_done..|by vm_compute].
Defined.

(** Why the lists are compared up to their order: two records that refer
    to one function give it their layers in the order of the records. *)
Example ex_order_inside_a_list :
  let h := Heap {[ 1%positive := mkFunctionDefinition (Some "a.b") None None ]} ∅ in
  let x := mkHandlerInfo "a" NODE 1%positive (Some "nodejs10.x") in
  let y := mkHandlerInfo "a" NODE 1%positive (Some "nodejs12.x") in
  view (applyLayers "us-east-1" [x; y] ex_layers h).2 !! 1%positive
    = Some ["node:1"; "node:2"] ∧
  view (applyLayers "us-east-1" [y; x] ex_layers h).2 !! 1%positive
    = Some ["node:2"; "node:1"].
Proof. by vm_compute. Qed.
