(* ===== verification/Env.v ===== *)
(** * Env: the configuration and the environment defaults of env.ts

    [getConfig] (src/src/env.ts 66-80) reads [service.custom.datadog] and
    spreads it over [defaultConfiguration]; [setEnvConfiguration] (42-64)
    writes five environment variables into [service.provider.environment],
    each only where the variable is not set yet.

    The environment is a finite map from variable names to values; a value
    is a string or, for [DD_FLUSH_TO_LOG], the boolean the code assigns.
    [ServiceEnv] holds the two properties of the service that env.ts reads
    or writes.  The five variable names are constants of the module and no
    names of [Object.prototype], so a read of one is a lookup.  A property
    of [custom.datadog] that is absent is [None]. *)

From S2P Require Import Spec2Rocq JsObject.

(** [nodeModuleType]: "es6" | "node" | "typescript". *)
Inductive NodeModuleType : Type := es6 | node | typescript.

#[export] Instance NodeModuleType_eq_dec : EqDecision NodeModuleType.
Proof. solve_decision. Defined.

(** [interface Configuration]. *)
Record Configuration : Type := mkConfiguration {
  addLayers : bool;
  apiKey : option string;
  apiKMSKey : option string;
  site : string;
  logLevel : string;
  flushMetricsToLogs : bool;
  nodeModuleType : option NodeModuleType;
}.

(** [Partial<Configuration>]: what the user wrote under [custom.datadog]. *)
Record PartialConfiguration : Type := mkPartialConfiguration {
  p_addLayers : option bool;
  p_apiKey : option string;
  p_apiKMSKey : option string;
  p_site : option string;
  p_logLevel : option string;
  p_flushMetricsToLogs : option bool;
  p_nodeModuleType : option NodeModuleType;
}.

#[export] Instance Configuration_eq_dec : EqDecision Configuration.
Proof. solve_decision. Defined.

(** A value of an environment variable. *)
Inductive envval : Type :=
| EnvStr (s : string)
| EnvBool (b : bool).

#[export] Instance envval_eq_dec : EqDecision envval.
Proof. solve_decision. Defined.

(** What env.ts sees of the service: [provider.environment], absent or an
    object, and [custom], absent or an object whose [datadog] property is
    absent or a partial configuration. *)
Record ServiceEnv : Type := mkServiceEnv {
  environment : option (gmap string envval);
  custom : option (option PartialConfiguration);
}.

Definition apiKeyEnvVar : string := "DD_API_KEY".
Definition apiKeyKMSEnvVar : string := "DD_KMS_API_KEY".
Definition siteURLEnvVar : string := "DD_SITE".
Definition logLevelEnvVar : string := "DD_LOG_LEVEL".
Definition logForwardingEnvVar : string := "DD_FLUSH_TO_LOG".

(** [const defaultConfiguration]. *)
Definition defaultConfiguration : Configuration :=
  {| addLayers := true;
     apiKey := None;
     apiKMSKey := None;
     site := "datadoghq.com";
     logLevel := "info";
     flushMetricsToLogs := false;
     nodeModuleType := None |}.

(** [if (environment[k] === undefined) environment[k] = v]. *)
Definition set_if_unset (k : string) (v : envval) (env : gmap string envval)
    : gmap string envval :=
  match env !! k with
  | None => <[k := v]> env
  | Some _ => env
  end.

(** The same under the further guard [o !== undefined]. *)
Definition set_if_unset_opt (k : string) (o : option string)
    (env : gmap string envval) : gmap string envval :=
  match o with
  | Some s => set_if_unset k (EnvStr s) env
  | None => env
  end.

(** [setEnvConfiguration(config, service)]: the service after the call. *)
Definition setEnvConfiguration (config : Configuration) (service : ServiceEnv)
    : ServiceEnv :=
  let environment0 :=
    match environment service with
    | None => ∅
    | Some e => e
    end in
  let environment1 := set_if_unset_opt apiKeyEnvVar (apiKey config) environment0 in
  let environment2 := set_if_unset_opt apiKeyKMSEnvVar (apiKMSKey config) environment1 in
  let environment3 := set_if_unset siteURLEnvVar (EnvStr (site config)) environment2 in
  let environment4 := set_if_unset logLevelEnvVar (EnvStr (logLevel config)) environment3 in
  let environment5 :=
    set_if_unset logForwardingEnvVar (EnvBool (flushMetricsToLogs config)) environment4 in
  {| environment := Some environment5; custom := custom service |}.

(** [{ ...base, ...over }] on configurations. *)
Definition spread (base : Configuration) (over : PartialConfiguration) : Configuration :=
  {| addLayers := default (addLayers base) (p_addLayers over);
     apiKey := if p_apiKey over is Some k then Some k else apiKey base;
     apiKMSKey := if p_apiKMSKey over is Some k then Some k else apiKMSKey base;
     site := default (site base) (p_site over);
     logLevel := default (logLevel base) (p_logLevel over);
     flushMetricsToLogs := default (flushMetricsToLogs base) (p_flushMetricsToLogs over);
     nodeModuleType :=
       if p_nodeModuleType over is Some t then Some t else nodeModuleType base |}.

(** The empty object literal as a partial configuration. *)
Definition empty_partial : PartialConfiguration :=
  mkPartialConfiguration None None None None None None None.

(** [getConfig(service)]. *)
Definition getConfig (service : ServiceEnv) : Configuration :=
  let custom :=
    match custom service with
    | None => None
    | Some c => c
    end in
  let datadog :=
    match custom with
    | None => empty_partial
    | Some d => d
    end in
  spread defaultConfiguration datadog.

(** The variables the plugin writes. *)
Definition envVars : list string :=
  [apiKeyEnvVar; apiKeyKMSEnvVar; siteURLEnvVar; logLevelEnvVar; logForwardingEnvVar].

(** The environment of a service, the absent one being empty. *)
Definition env_of (service : ServiceEnv) : gmap string envval :=
  default ∅ (environment service).

(** ** Lemmas on the guarded assignment *)

Section set_if_unset_facts.
Implicit Types (k : string) (v : envval) (env : gmap string envval).

Lemma lookup_set_if_unset k v env k' :
  set_if_unset k v env !! k' =
  if decide (k = k') then Some (default v (env !! k)) else env !! k'.
Proof.
  unfold set_if_unset. destruct (decide (k = k')) as [<-|Hne].
  - destruct (env !! k) eqn:Hk; [done|]. by rewrite lookup_insert_eq.
  - destruct (env !! k); [done|]. by rewrite lookup_insert_ne.
Qed.

Lemma lookup_set_if_unset_opt k o env k' :
  set_if_unset_opt k o env !! k' =
  if decide (k = k') then
    match env !! k with Some v => Some v | None => EnvStr <$> o end
  else env !! k'.
Proof.
  unfold set_if_unset_opt. destruct o as [s|]; simpl.
  - rewrite lookup_set_if_unset. case_decide; [|done]. by destruct (env !! k).
  - case_decide; [subst|done]. by destruct (env !! k').
Qed.

Lemma set_if_unset_set k v env : is_Some (env !! k) → set_if_unset k v env = env.
Proof. unfold set_if_unset. by intros [? ->]. Qed.

(** A value that is set stays. *)
Lemma set_if_unset_keeps k v env k' v' :
  env !! k' = Some v' → set_if_unset k v env !! k' = Some v'.
Proof.
  intros Hk'. rewrite lookup_set_if_unset. case_decide; [subst|done].
  by rewrite Hk'.
Qed.

Lemma set_if_unset_opt_keeps k o env k' v' :
  env !! k' = Some v' → set_if_unset_opt k o env !! k' = Some v'.
Proof. destruct o; simpl; [apply set_if_unset_keeps|done]. Qed.

End set_if_unset_facts.

#[export] Hint Resolve set_if_unset_keeps set_if_unset_opt_keeps : js.
#[export] Hint Rewrite lookup_set_if_unset lookup_set_if_unset_opt : js_rw.

(** ** Theorems *)

Section setEnvConfiguration_facts.
Implicit Types (config : Configuration) (service : ServiceEnv) (k : string)
  (v : envval).

Lemma env_of_setEnvConfiguration config service :
  env_of (setEnvConfiguration config service)
  = set_if_unset logForwardingEnvVar (EnvBool (flushMetricsToLogs config))
      (set_if_unset logLevelEnvVar (EnvStr (logLevel config))
         (set_if_unset siteURLEnvVar (EnvStr (site config))
            (set_if_unset_opt apiKeyKMSEnvVar (apiKMSKey config)
               (set_if_unset_opt apiKeyEnvVar (apiKey config) (env_of service))))).
Proof. unfold env_of, setEnvConfiguration. simpl. by destruct (environment service). Qed.

Lemma environment_setEnvConfiguration config service :
  environment (setEnvConfiguration config service)
  = Some (env_of (setEnvConfiguration config service)).
Proof. done. Qed.

Lemma ServiceEnv_eq (s1 s2 : ServiceEnv) :
  environment s1 = environment s2 → custom s1 = custom s2 → s1 = s2.
Proof. destruct s1, s2. simpl. by intros -> ->. Qed.

(** C35. What the user set wins: a variable that is set before
    [setEnvConfiguration] has the same value after it. *)
Theorem setEnvConfiguration_keeps config service k v :
  env_of service !! k = Some v →
  env_of (setEnvConfiguration config service) !! k = Some v.
Proof. intros Hk. rewrite env_of_setEnvConfiguration. auto 10 with js. Qed.

(** C36. The value of each of the five variables after the call: the
    user's where there is one; else the configuration's, where the two API
    keys stay unset if the configuration has none. *)
Theorem setEnvConfiguration_values config service :
  let env := env_of service in
  let env' := env_of (setEnvConfiguration config service) in
  env' !! apiKeyEnvVar
    = (if env !! apiKeyEnvVar is Some v then Some v else EnvStr <$> apiKey config) ∧
  env' !! apiKeyKMSEnvVar
    = (if env !! apiKeyKMSEnvVar is Some v then Some v else EnvStr <$> apiKMSKey config) ∧
  env' !! siteURLEnvVar = Some (default (EnvStr (site config)) (env !! siteURLEnvVar)) ∧
  env' !! logLevelEnvVar
    = Some (default (EnvStr (logLevel config)) (env !! logLevelEnvVar)) ∧
  env' !! logForwardingEnvVar
    = Some (default (EnvBool (flushMetricsToLogs config)) (env !! logForwardingEnvVar)).
Proof.
  simpl. rewrite env_of_setEnvConfiguration.
  split_and!; autorewrite with js_rw; by repeat (case_decide; try done).
Qed.

(** C37. Frame: a variable that is none of the five is neither set nor
    changed. *)
Theorem setEnvConfiguration_frame config service k :
  k ∉ envVars →
  env_of (setEnvConfiguration config service) !! k = env_of service !! k.
Proof.
  intros Hk. rewrite env_of_setEnvConfiguration. autorewrite with js_rw.
  repeat (case_decide; [subst; exfalso; apply Hk; compute_done|]). done.
Qed.

(** After the call the three mandatory variables are set, and each API
    key is set unless the configuration has none. *)
Lemma setEnvConfiguration_set config service k :
  k ∈ [siteURLEnvVar; logLevelEnvVar; logForwardingEnvVar] →
  is_Some (env_of (setEnvConfiguration config service) !! k).
Proof.
  intros Hk. rewrite env_of_setEnvConfiguration. autorewrite with js_rw.
  repeat (case_decide; [by eauto|]).
  exfalso. revert Hk. rewrite !elem_of_cons, elem_of_nil. naive_solver.
Qed.

(** Each API key is set after the call if the configuration has it or
    the user had set it. *)
Lemma setEnvConfiguration_set_key config service k o :
  (k, o) ∈ [(apiKeyEnvVar, apiKey config); (apiKeyKMSEnvVar, apiKMSKey config)] →
  is_Some o ∨ is_Some (env_of service !! k) →
  is_Some (env_of (setEnvConfiguration config service) !! k).
Proof.
  intros Hk Hset. rewrite env_of_setEnvConfiguration. autorewrite with js_rw. simpl.
  revert Hk. rewrite !elem_of_cons, elem_of_nil.
  intros [[= -> ->]|[[= -> ->]|[]]]; simpl; destruct Hset as [[? ->]|[? ->]]; simpl;
    by repeat case_match.
Qed.

Lemma set_if_unset_opt_set k o (env : gmap string envval) :
  (is_Some o → is_Some (env !! k)) → set_if_unset_opt k o env = env.
Proof. destruct o; simpl; [|done]. intros Hk. apply set_if_unset_set; eauto. Qed.

(** C38. The first configuration wins.  A second call, with any
    configuration, changes nothing of what the first call left, provided
    that an API key which the second configuration brings was already
    there: from the first configuration or from the user.  The three
    other variables keep the values of the first call whatever the second
    configuration says; with the same configuration twice this is
    idempotence. *)
Theorem setEnvConfiguration_first_wins config1 config2 service :
  (is_Some (apiKey config2) →
   is_Some (apiKey config1) ∨ is_Some (env_of service !! apiKeyEnvVar)) →
  (is_Some (apiKMSKey config2) →
   is_Some (apiKMSKey config1) ∨ is_Some (env_of service !! apiKeyKMSEnvVar)) →
  setEnvConfiguration config2 (setEnvConfiguration config1 service)
  = setEnvConfiguration config1 service.
Proof.
  intros Hkey Hkms. apply ServiceEnv_eq; [|done].
  rewrite !environment_setEnvConfiguration. f_equal.
  rewrite (env_of_setEnvConfiguration config2 (setEnvConfiguration _ _)).
  rewrite (set_if_unset_opt_set apiKeyEnvVar), (set_if_unset_opt_set apiKeyKMSEnvVar).
  - by rewrite (set_if_unset_set siteURLEnvVar), (set_if_unset_set logLevelEnvVar),
      (set_if_unset_set logForwardingEnvVar)
      by (apply setEnvConfiguration_set; compute_done).
  - intros ?. apply (setEnvConfiguration_set_key _ _ _ (apiKMSKey config1)); [right; left|auto].
  - intros ?. apply (setEnvConfiguration_set_key _ _ _ (apiKey config1)); [left|auto].
Qed.

End setEnvConfiguration_facts.

Section getConfig_facts.
Implicit Types (service : ServiceEnv) (d : PartialConfiguration).

(** What the user wrote under [custom.datadog], the absent being empty. *)
Definition user_config service : PartialConfiguration :=
  default empty_partial (custom service ≫= id).

Lemma getConfig_spread service :
  getConfig service = spread defaultConfiguration (user_config service).
Proof. unfold getConfig, user_config. by destruct (custom service) as [[?|]|]. Qed.

(** C39. [getConfig] honours every property the user wrote and fills the
    others from the defaults: layers are added, metrics are not flushed to
    logs, the log level is "info", the site is "datadoghq.com". *)
Theorem getConfig_values service :
  let d := user_config service in
  let c := getConfig service in
  addLayers c = default true (p_addLayers d) ∧
  apiKey c = p_apiKey d ∧ apiKMSKey c = p_apiKMSKey d ∧
  site c = default "datadoghq.com" (p_site d) ∧
  logLevel c = default "info" (p_logLevel d) ∧
  flushMetricsToLogs c = default false (p_flushMetricsToLogs d) ∧
  nodeModuleType c = p_nodeModuleType d.
Proof.
  cbv zeta. rewrite getConfig_spread. destruct (user_config service). simpl.
  split_and!; try done; by case_match.
Qed.

End getConfig_facts.

(** ** A service, and the theorems applied to it

    The user set the site and a variable of their own, and configured an
    API key. *)

Definition env_service : ServiceEnv :=
  {| environment := Some (list_to_map [ ("DD_SITE", EnvStr "datadoghq.eu");
                                        ("STAGE", EnvStr "prod") ]);
     custom := Some (Some (mkPartialConfiguration None (Some "1234") None None
                             (Some "debug") None None)) |}.

Lemma setEnvConfiguration_keeps_witness :
  env_of (setEnvConfiguration (getConfig env_service) env_service) !! "DD_SITE"
  = Some (EnvStr "datadoghq.eu").
Proof. apply setEnvConfiguration_keeps. reflexivity. Defined.

Lemma setEnvConfiguration_frame_witness :
  env_of (setEnvConfiguration (getConfig env_service) env_service) !! "STAGE"
  = env_of env_service !! "STAGE".
Proof. apply setEnvConfiguration_frame. compute_done. Defined.

(** A second call that would move the site and lower the log level
    changes nothing; its API key is the one the first call wrote. *)
Lemma setEnvConfiguration_first_wins_witness :
  setEnvConfiguration
    (mkConfiguration true (Some "9999") None "datadoghq.com" "error" true None)
    (setEnvConfiguration (getConfig env_service) env_service)
  = setEnvConfiguration (getConfig env_service) env_service.
Proof.
  apply setEnvConfiguration_first_wins; [intros _; left; by eexists|by intros []].
Defined.

(** The environment of [env_service] after both calls. *)
Example env_service_result :
  environment (setEnvConfiguration (getConfig env_service) env_service)
  = Some (list_to_map [ ("DD_API_KEY", EnvStr "1234");
                        ("DD_SITE", EnvStr "datadoghq.eu");
                        ("DD_LOG_LEVEL", EnvStr "debug");
                        ("DD_FLUSH_TO_LOG", EnvBool false);
                        ("STAGE", EnvStr "prod") ]).
Proof. reflexivity. Qed.
