(* ===== verification/Fs.v ===== *)
(** * Fs: the file system that removeDirectory works on

    [removeDirectory] (src/src/util.ts 20-35) calls five functions of
    Node's [fs] module through [promisify]: [exists], [readdir], [lstat],
    [unlink] and [rmdir] (util.ts 14-18).  This file is the model of what
    they do to a file system.

    A path is the list of its components, so [path + "/" + file] is
    [path ++ [file]].  The file system is a finite map from paths to what
    [lstat] reports of them: a regular file, a symbolic link or a
    directory.  [wf_fs] says that whatever has an entry lies in a
    directory.  A call that the system rejects throws [SystemError] with
    the code of the rejection.  [exists] and [readdir] follow symbolic
    links; the map does not record where a link points to, and the model
    answers [OutOfModel (FollowsLink p)] there.

    The order in which [readdir] lists a directory is not specified by the
    system; it is the interface [DirOrder], and every theorem on the file
    system holds for every order. *)

From S2P Require Import Spec2Rocq.

Abbreviation path := (list string).

(** What [lstat] reports of an entry. *)
Inductive kind : Type := File | Symlink | Directory.

#[export] Instance kind_eq_dec : EqDecision kind.
Proof. solve_decision. Defined.

Abbreviation fs := (gmap path kind).

(** [stats.isDirectory()]. *)
Definition isDirectory (stats : kind) : bool := bool_decide (stats = Directory).

(** The name under which [q] is listed in the directory [p], if it is. *)
Definition child_of (p q : path) : option string :=
  match last q with
  | Some n => if decide (q = p ++ [n]) then Some n else None
  | None => None
  end.

(** The names listed in [p], in the order of the map. *)
Definition children (σ : fs) (p : path) : list string :=
  omap (child_of p) (elements (dom σ)).

(** The order of a directory listing. *)
Class DirOrder : Type := {
  dir_order : list string → list string;
  dir_order_perm names : dir_order names ≡ₚ names;
}.

(** The listing in the order of the map. *)
Definition map_order : DirOrder := {| dir_order := id; dir_order_perm _ := reflexivity _ |}.

(** The listing in reverse. *)
Definition reverse_order : DirOrder :=
  {| dir_order := reverse; dir_order_perm := reverse_Permutation |}.

(** ** The calls *)

Section calls.
Context `{DirOrder}.

(** [fs.exists(path)]: never rejects. *)
Definition fs_exists (p : path) : M fs bool :=
  λ σ, match σ !! p with
       | Some Symlink => (Throw (OutOfModel (FollowsLink p)), σ)
       | Some _ => (Ok true, σ)
       | None => (Ok false, σ)
       end.

(** [fs.readdir(path)]. *)
Definition readdir (p : path) : M fs (list string) :=
  λ σ, match σ !! p with
       | Some Directory => (Ok (dir_order (children σ p)), σ)
       | Some File => (Throw (SystemError ENOTDIR), σ)
       | Some Symlink => (Throw (OutOfModel (FollowsLink p)), σ)
       | None => (Throw (SystemError ENOENT), σ)
       end.

(** [fs.lstat(path)]: does not follow a link. *)
Definition lstat (p : path) : M fs kind :=
  λ σ, of_option (σ !! p) (SystemError ENOENT) σ.

(** [fs.unlink(path)]: removes a file or a link, not a directory. *)
Definition unlink (p : path) : M fs unit :=
  λ σ, match σ !! p with
       | Some Directory => (Throw (SystemError EISDIR), σ)
       | Some _ => (Ok tt, delete p σ)
       | None => (Throw (SystemError ENOENT), σ)
       end.

(** [fs.rmdir(path)]: removes an empty directory. *)
Definition rmdir (p : path) : M fs unit :=
  λ σ, match σ !! p with
       | Some Directory =>
           if decide (children σ p = []) then (Ok tt, delete p σ)
           else (Throw (SystemError ENOTEMPTY), σ)
       | Some _ => (Throw (SystemError ENOTDIR), σ)
       | None => (Throw (SystemError ENOENT), σ)
       end.

End calls.

(** ** Well-formedness and the specification of a removal *)

(** Whatever has an entry lies in a directory. *)
Definition wf_fs (σ : fs) : Prop :=
  map_Forall (λ q _, ∀ p n, q = p ++ [n] → σ !! p = Some Directory) σ.

(** The file system without [p] and everything below it. *)
Definition remove_tree (p : path) (σ : fs) : fs :=
  filter (λ e, ¬ p `prefix_of` e.1) σ.

(** The length of the longest path. *)
Definition depth (σ : fs) : nat := max_list (length <$> elements (dom σ)).

(** [fuel] levels below [p] reach every entry. *)
Definition deep_enough (fuel : nat) (p : path) (σ : fs) : Prop :=
  map_Forall (λ q _, length q < length p + fuel) σ.

#[export] Instance wf_fs_dec σ : Decision (wf_fs σ).
Proof.
  unfold wf_fs. apply map_Forall_dec. intros q _.
  destruct (last q) as [n|] eqn:Hlast.
  - destruct (decide (σ !! removelast q = Some Directory)) as [Hd|Hd].
    + left. intros p n' ->. by rewrite removelast_last in Hd.
    + right. intros Hq. apply Hd, (Hq _ n).
      apply last_Some in Hlast as [p ->]. by rewrite removelast_last.
  - left. intros p n ->. by rewrite last_snoc in Hlast.
Defined.

#[export] Instance deep_enough_dec fuel p σ : Decision (deep_enough fuel p σ).
Proof. unfold deep_enough. apply _. Defined.

(** ** Facts on paths and listings *)

Section facts.
Implicit Types (σ : fs) (p q : path) (n : string) (k : kind).

Lemma child_of_Some p q n : child_of p q = Some n ↔ q = p ++ [n].
Proof.
  unfold child_of. split.
  - destruct (last q) as [n'|]; [|done]. case_decide; naive_solver.
  - intros ->. rewrite last_snoc. by rewrite decide_True.
Qed.

Lemma elem_of_children σ p n : n ∈ children σ p ↔ is_Some (σ !! (p ++ [n])).
Proof.
  unfold children. rewrite list_elem_of_omap, <-elem_of_dom. split.
  - intros (q & Hq & ->%child_of_Some). by apply elem_of_elements in Hq.
  - intros Hq. exists (p ++ [n]). by rewrite elem_of_elements, child_of_Some.
Qed.

Lemma NoDup_children σ p : NoDup (children σ p).
Proof.
  unfold children. pose proof (NoDup_elements (dom σ)) as Hnd.
  induction Hnd as [|q qs Hq _ IH]; simpl; [constructor|].
  destruct (child_of p q) as [n|] eqn:Hn; [|done]. constructor; [|done].
  rewrite list_elem_of_omap. intros (q' & Hq' & Hn').
  apply child_of_Some in Hn, Hn'. congruence.
Qed.

Lemma children_nil σ p : children σ p = [] ↔ ∀ n, σ !! (p ++ [n]) = None.
Proof.
  split.
  - intros Hnil n. apply eq_None_not_Some. rewrite <-elem_of_children, Hnil.
    apply not_elem_of_nil.
  - intros Hnone. apply elem_of_nil_inv. intros n Hn%elem_of_children.
    rewrite Hnone in Hn. by destruct Hn.
Qed.

(** In a well-formed file system every ancestor of an entry is a
    directory. *)
Lemma wf_fs_parent σ p n k :
  wf_fs σ → σ !! (p ++ [n]) = Some k → σ !! p = Some Directory.
Proof. intros Hwf Hq. by eapply (Hwf _ _ Hq). Qed.

Lemma wf_fs_ancestor σ p r k :
  wf_fs σ → σ !! (p ++ r) = Some k → r ≠ [] → σ !! p = Some Directory.
Proof.
  intros Hwf. revert k. induction r as [|n r IH] using rev_ind; [done|].
  intros k Hq _. rewrite app_assoc in Hq. apply wf_fs_parent in Hq; [|done].
  destruct r as [|n' r]; [by rewrite app_nil_r in Hq|]. by eapply IH.
Qed.

(** Nothing lies below a file or a link. *)
Lemma wf_fs_leaf σ p q k :
  wf_fs σ → σ !! p = Some k → k ≠ Directory → p `prefix_of` q → q ≠ p → σ !! q = None.
Proof.
  intros Hwf Hp Hk [r ->] Hne. destruct (σ !! (p ++ r)) as [k'|] eqn:Hq; [|done].
  apply wf_fs_ancestor in Hq; [congruence|done|]. intros ->. by rewrite app_nil_r in Hne.
Qed.

Lemma lookup_remove_tree p σ q :
  remove_tree p σ !! q = if decide (p `prefix_of` q) then None else σ !! q.
Proof.
  unfold remove_tree. case_decide as Hpre.
  - apply map_lookup_filter_None. right. intros k _. simpl. tauto.
  - destruct (σ !! q) as [k|] eqn:Hq.
    + by apply map_lookup_filter_Some.
    + apply map_lookup_filter_None. by left.
Qed.

Lemma remove_tree_subseteq p σ : remove_tree p σ ⊆ σ.
Proof. apply map_filter_subseteq. Qed.

Lemma wf_fs_remove_tree p σ : wf_fs σ → wf_fs (remove_tree p σ).
Proof.
  intros Hwf q k. rewrite lookup_remove_tree. case_decide as Hpre; [done|].
  intros Hq p' n ->. rewrite lookup_remove_tree, decide_False.
  - by eapply wf_fs_parent.
  - intros Hp. by apply Hpre, prefix_app_r.
Qed.

Lemma deep_enough_subseteq fuel p σ σ' :
  σ' ⊆ σ → deep_enough fuel p σ → deep_enough fuel p σ'.
Proof. intros Hsub Hd q k Hq. eapply Hd, lookup_weaken; done. Qed.

Lemma deep_enough_child fuel p n σ :
  deep_enough (S fuel) p σ → deep_enough fuel (p ++ [n]) σ.
Proof.
  intros Hd q k Hq. specialize (Hd q k Hq). simpl in *.
  rewrite length_app. simpl. lia.
Qed.

Lemma depth_enough σ p : deep_enough (S (depth σ)) p σ.
Proof.
  intros q k Hq. simpl.
  assert (length q ≤ depth σ); [|lia].
  unfold depth. apply max_list_elem_of_le, list_elem_of_fmap.
  exists q. split; [done|]. by apply elem_of_elements, elem_of_dom.
Qed.

(** Removing a leaf is removing its tree. *)
Lemma remove_tree_leaf σ p k :
  wf_fs σ → σ !! p = Some k → k ≠ Directory → delete p σ = remove_tree p σ.
Proof.
  intros Hwf Hp Hk. apply map_eq. intros q. rewrite lookup_remove_tree.
  destruct (decide (q = p)) as [->|Hne].
  - by rewrite lookup_delete_eq, decide_True.
  - rewrite lookup_delete_ne by done. case_decide as Hpre; [|done].
    by eapply wf_fs_leaf.
Qed.

End facts.
