(* ===== verification/RemoveDirectory.v ===== *)
(** * RemoveDirectory: removeDirectory of util.ts

    [removeDirectory] (src/src/util.ts 20-35) deletes a directory with
    everything below it: it lists the directory, removes every entry, a
    directory by the recursive call and anything else by [unlink], and
    then removes the directory itself.  Each [await] is a call of Fs.v in
    the monad; the run is the sequential one, with no other process
    changing the file system between two calls.

    The recursion follows the directory tree, so the definition takes
    fuel: one unit per level.  [enough fuel] is [deep_enough]; the fuel
    [S (depth σ)] is always enough, and more fuel never changes the
    answer. *)

From S2P Require Import Spec2Rocq Fs.

Section operation.
Context `{DirOrder}.

(** [removeDirectory(path)]. *)
Fixpoint removeDirectory (fuel : nat) (path : path) : M fs unit :=
  match fuel with
  | 0 => throw (OutOfModel OutOfFuel)
  | S fuel =>
      let! dirExists := fs_exists path in
      if dirExists then
        let! files := readdir path in
        for_of files (λ file,
          let curPath := path ++ [file] in
          let! stats := lstat curPath in
          if isDirectory stats then removeDirectory fuel curPath
          else unlink curPath) ;;
        rmdir path
      else ret tt
  end.

End operation.

(** The file system after the loop over the entries [cs] of [p]. *)
Definition remove_trees (p : path) (cs : list string) (σ : fs) : fs :=
  foldl (λ σ c, remove_tree (p ++ [c]) σ) σ cs.

(** ** The loop *)

Section loop.
Implicit Types (σ : fs) (p q : path) (c : string) (cs : list string).

Lemma lookup_remove_trees p cs σ q :
  remove_trees p cs σ !! q
  = if decide (Exists (λ c, p ++ [c] `prefix_of` q) cs) then None else σ !! q.
Proof.
  revert σ. induction cs as [|c cs IH]; intros σ.
  - change (remove_trees p [] σ) with σ. case_decide as Hex; [|done].
    by apply Exists_nil in Hex.
  - change (remove_trees p (c :: cs) σ) with (remove_trees p cs (remove_tree (p ++ [c]) σ)).
    rewrite IH, lookup_remove_tree. repeat case_decide; try done.
    all: exfalso; rewrite Exists_cons in *; tauto.
Qed.

Lemma sibling_not_prefix p c c' : c ≠ c' → ¬ p ++ [c] `prefix_of` p ++ [c'].
Proof. intros Hne [r Hr]. rewrite <-app_assoc in Hr. by simplify_list_eq. Qed.

(** The loop removes the tree of every entry, if its body removes one. *)
Lemma for_of_remove_trees (body : string → M fs unit) p cs σ :
  (∀ c σ', c ∈ cs → wf_fs σ' → σ' ⊆ σ → is_Some (σ' !! (p ++ [c])) →
           body c σ' = (Ok tt, remove_tree (p ++ [c]) σ')) →
  NoDup cs → wf_fs σ → (∀ c, c ∈ cs → is_Some (σ !! (p ++ [c]))) →
  for_of cs body σ = (Ok tt, remove_trees p cs σ).
Proof.
  revert σ. induction cs as [|c cs IH]; intros σ Hbody Hnd Hwf Hcs; [done|].
  apply NoDup_cons in Hnd as [Hc Hnd]. simpl.
  rewrite (bind_Ok _ _ _ _ _ (Hbody c σ (list_elem_of_here _ _) Hwf (reflexivity _)
                                 (Hcs c (list_elem_of_here _ _)))).
  apply IH; [|done|by apply wf_fs_remove_tree|].
  - intros c' σ' Hc' Hwf' Hsub. apply Hbody; [by right|done|].
    etrans; [done|apply remove_tree_subseteq].
  - intros c' Hc'. rewrite lookup_remove_tree, decide_False.
    + apply Hcs. by right.
    + apply sibling_not_prefix. by intros ->.
Qed.

(** With the trees of all its entries removed, the directory is empty. *)
Lemma children_remove_trees p cs σ :
  cs ≡ₚ children σ p → children (remove_trees p cs σ) p = [].
Proof.
  intros Hperm. apply children_nil. intros c. rewrite lookup_remove_trees.
  case_decide as Hex; [done|]. apply eq_None_not_Some. intros Hc.
  apply Hex, Exists_exists. exists c. split; [|done].
  by rewrite Hperm, elem_of_children.
Qed.

(** Removing the trees of the entries and then the directory is removing
    the tree of the directory. *)
Lemma delete_remove_trees p cs σ :
  wf_fs σ → cs ≡ₚ children σ p → delete p (remove_trees p cs σ) = remove_tree p σ.
Proof.
  intros Hwf Hperm. apply map_eq. intros q. rewrite lookup_remove_tree.
  destruct (decide (q = p)) as [->|Hne].
  { by rewrite lookup_delete_eq, decide_True. }
  rewrite lookup_delete_ne, lookup_remove_trees by done.
  destruct (decide (p `prefix_of` q)) as [[r ->]|Hpre].
  - destruct (σ !! (p ++ r)) as [k|] eqn:Hq; [|by case_decide].
    destruct r as [|c r]; [by rewrite app_nil_r in Hne|].
    rewrite decide_True; [done|]. apply Exists_exists. exists c. split.
    + rewrite Hperm, elem_of_children.
      change (c :: r) with ([c] ++ r) in Hq. rewrite (assoc_L (++)) in Hq.
      destruct r; [by rewrite app_nil_r in Hq|]. by erewrite wf_fs_ancestor.
    + exists r. by rewrite <-app_assoc.
  - rewrite decide_False; [done|]. intros (c & _ & Hc)%Exists_exists.
    by apply prefix_app_l in Hc.
Qed.

End loop.

(** ** The run of removeDirectory *)

Section run.
Context `{DirOrder}.
Implicit Types (σ : fs) (p q : path) (fuel : nat).

Lemma fs_exists_Ok σ p k :
  σ !! p = Some k → k ≠ Symlink → fs_exists p σ = (Ok true, σ).
Proof. unfold fs_exists. intros -> ?. by destruct k. Qed.

Lemma lstat_Ok σ p k : σ !! p = Some k → lstat p σ = (Ok k, σ).
Proof. unfold lstat. by intros ->. Qed.

Lemma unlink_Ok σ p k :
  wf_fs σ → σ !! p = Some k → k ≠ Directory → unlink p σ = (Ok tt, remove_tree p σ).
Proof.
  intros Hwf Hp Hk. unfold unlink. rewrite Hp, <-(remove_tree_leaf σ p k) by done.
  by destruct k.
Qed.

(** On a directory of a well-formed file system, with enough fuel,
    [removeDirectory] returns and leaves the file system without the
    directory and what was below it. *)
Lemma removeDirectory_run fuel p σ :
  wf_fs σ → σ !! p = Some Directory → deep_enough fuel p σ →
  removeDirectory fuel p σ = (Ok tt, remove_tree p σ).
Proof.
  revert p σ. induction fuel as [|fuel IH]; intros p σ Hwf Hp Hdeep.
  { specialize (Hdeep p _ Hp). simpl in Hdeep. lia. }
  simpl. rewrite (bind_Ok _ _ _ _ _ (fs_exists_Ok σ p _ Hp ltac:(done))).
  unfold readdir at 1, bind at 1. rewrite Hp.
  set (cs := dir_order (children σ p)).
  assert (cs ≡ₚ children σ p) as Hperm by apply dir_order_perm.
  erewrite bind_Ok; last first.
  { apply (for_of_remove_trees _ p cs σ); [|by rewrite Hperm; apply NoDup_children|done|].
    - intros c σ' _ Hwf' Hsub [k Hc]. rewrite (bind_Ok _ _ _ _ _ (lstat_Ok σ' _ k Hc)).
      unfold isDirectory. case_bool_decide as Hk; [subst k|by eapply unlink_Ok].
      apply IH; [done..|]. eapply deep_enough_subseteq, deep_enough_child; done.
    - intros c. by rewrite Hperm, elem_of_children. }
  unfold rmdir. rewrite lookup_remove_trees, decide_False, Hp.
  - rewrite decide_True by by apply children_remove_trees.
    by rewrite delete_remove_trees.
  - intros (c & _ & Hc)%Exists_exists. by apply prefix_snoc_not in Hc.
Qed.

(** C4. [removeDirectory] removes the tree and nothing else: on a
    directory of a well-formed file system, with fuel for the levels below
    it, the call returns, and afterwards no path at or below the directory
    has an entry while every other path has the entry it had. *)
Theorem removeDirectory_removes fuel p σ :
  wf_fs σ → σ !! p = Some Directory → deep_enough fuel p σ →
  ∃ σ', removeDirectory fuel p σ = (Ok tt, σ') ∧ wf_fs σ' ∧
        ∀ q, σ' !! q = if decide (p `prefix_of` q) then None else σ !! q.
Proof.
  intros Hwf Hp Hdeep. exists (remove_tree p σ).
  split_and!; [by apply removeDirectory_run|by apply wf_fs_remove_tree|].
  apply lookup_remove_tree.
Qed.

(** C28. The recursion ends: with one unit of fuel per level of the file
    system the call returns, and with more fuel it returns the same. *)
Theorem removeDirectory_terminates fuel p σ :
  wf_fs σ → σ !! p = Some Directory → depth σ < fuel →
  is_Ok (removeDirectory (S (depth σ)) p σ).1 ∧
  removeDirectory fuel p σ = removeDirectory (S (depth σ)) p σ.
Proof.
  intros Hwf Hp Hfuel.
  rewrite (removeDirectory_run (S (depth σ))) by (done || apply depth_enough).
  rewrite removeDirectory_run; [done..|].
  intros q k Hq. pose proof (depth_enough σ p q k Hq). simpl in *. lia.
Qed.

(** C30. A path that does not exist is left alone: the call returns and
    the file system is as before. *)
Theorem removeDirectory_missing fuel p σ :
  σ !! p = None → removeDirectory (S fuel) p σ = (Ok tt, σ).
Proof. intros Hp. simpl. unfold bind, fs_exists. by rewrite Hp. Qed.

(** C29. On a regular file the call is rejected by [readdir] with ENOTDIR,
    and the file is still there. *)
Theorem removeDirectory_not_a_directory fuel p σ :
  σ !! p = Some File →
  removeDirectory (S fuel) p σ = (Throw (SystemError ENOTDIR), σ).
Proof.
  intros Hp. simpl. rewrite (bind_Ok _ _ _ _ _ (fs_exists_Ok σ p _ Hp ltac:(done))).
  unfold bind, readdir. by rewrite Hp.
Qed.

End run.

(** C31. The order in which [readdir] lists a directory does not matter:
    two runs that differ in it end in the same file system. *)
Theorem removeDirectory_order (o1 o2 : DirOrder) fuel p σ :
  wf_fs σ → σ !! p = Some Directory → deep_enough fuel p σ →
  @removeDirectory o1 fuel p σ = @removeDirectory o2 fuel p σ.
Proof. intros. by rewrite !removeDirectory_run. Qed.

(** ** A build directory, and the theorems applied to it

    [.build] holds a file, and a directory [lib] with a file and a
    symbolic link; [src] is beside it. *)

Definition ex_fs : fs :=
  list_to_map
    [ ([], Directory);
      ([".build"], Directory);
      ([".build"; "handler.js"], File);
      ([".build"; "lib"], Directory);
      ([".build"; "lib"; "index.js"], File);
      ([".build"; "lib"; "node_modules"], Symlink);
      (["src"], Directory);
      (["src"; "handler.ts"], File) ].

Definition ex_fs_removed : fs :=
  list_to_map [ ([], Directory); (["src"], Directory); (["src"; "handler.ts"], File) ].

Lemma removeDirectory_removes_witness :
  ∃ σ', @removeDirectory map_order 3 [".build"] ex_fs = (Ok tt, σ') ∧ wf_fs σ' ∧
        ∀ q, σ' !! q = if decide ([".build"] `prefix_of` q) then None else ex_fs !! q.
Proof. apply (@removeDirectory_removes map_order); compute_done. Defined.

Lemma removeDirectory_terminates_witness :
  is_Ok (@removeDirectory map_order (S (depth ex_fs)) [".build"] ex_fs).1 ∧
  @removeDirectory map_order 7 [".build"] ex_fs
  = @removeDirectory map_order (S (depth ex_fs)) [".build"] ex_fs.
Proof. apply (@removeDirectory_terminates map_order); compute_done. Defined.

Lemma removeDirectory_missing_witness :
  @removeDirectory map_order 1 ["dist"] ex_fs = (Ok tt, ex_fs).
Proof. apply (@removeDirectory_missing map_order). reflexivity. Defined.

Lemma removeDirectory_not_a_directory_witness :
  @removeDirectory map_order 1 ["src"; "handler.ts"] ex_fs
  = (Throw (SystemError ENOTDIR), ex_fs).
Proof. apply (@removeDirectory_not_a_directory map_order). reflexivity. Defined.

Lemma removeDirectory_order_witness :
  @removeDirectory map_order 3 [".build"] ex_fs
  = @removeDirectory reverse_order 3 [".build"] ex_fs.
Proof. apply removeDirectory_order; compute_done. Defined.

(** The run on the build directory, evaluated. *)
Example ex_fs_run :
  @removeDirectory reverse_order 3 [".build"] ex_fs = (Ok tt, ex_fs_removed).
Proof. by vm_compute. Qed.

(** Too little fuel is reported, not taken for an answer: one unit does
    not reach into [lib]. *)
Example ex_fs_out_of_fuel :
  (@removeDirectory map_order 1 [".build"] ex_fs).1 = Throw (OutOfModel OutOfFuel).
Proof. by vm_compute. Qed.
