(* ===== verification/LayerTests.v ===== *)
(** * LayerTests: the jest suite of layer.ts, run on the model

    Each test of src/unnamed/part_000 is a closed term here: its fixture
    (the mocked service, the mocked files, the handler records) and the
    comparison the test makes with [expect].  [createMockService] builds
    the service and the store that holds its function objects;
    [mock_fs] is the mocked file system.  [jest_suite] states that every
    comparison holds.

    [toMatchObject] compares the properties the expectation lists and
    [toEqual] all properties; here both compare the three modelled
    properties of a function object, with the contents of its layer array
    in place of the reference. *)

From S2P Require Import Spec2Rocq JsHeap LayerData LayerMerge LayerClassify.

(** A function object as [expect] sees it: handler, runtime, and the
    contents of [layers]. *)
Definition object_at (h : heap) (l : loc)
    : option (option string * option string * option (list string)) :=
  fd ← funs h !! l;
  Some (fn_handler fd, fn_runtime fd, a ← fn_layers fd; arrs h !! a).

(** [createMockService(region, funcs, plugins)]: the function objects are
    allocated at the locations 1, 2, ... in the order of [funcs]. *)
Definition createMockService (region : string)
    (funcs : list (string * FunctionDefinition)) (plugins : option (list string))
    : Service * heap :=
  let locs := Pos.of_succ_nat <$> seq 0 (length funcs) in
  ({| functions := zip (funcs.*1) locs; plugins := plugins |},
   Heap (list_to_map (zip locs (funcs.*2))) ∅).

(** [mock({...})]: the files exist relative to the working directory. *)
Definition mock_fs (files : list string) : FileSystem :=
  fs_of_paths ((λ f, "./" +:+ f) <$> files).

(** A function literal [{ handler, runtime }]. *)
Definition fn (handler : string) (runtime : option string) : FunctionDefinition :=
  mkFunctionDefinition (Some handler) runtime None.

(** [findHandlers] on a mocked service, and the type and runtime of each
    record with the object it refers to. *)
Definition run_findHandlers (files : list string)
    (funcs : list (string * FunctionDefinition)) (plugins : option (list string))
    (defaultRuntime : option string) (defaultNodeRuntime : option RuntimeType)
    : result (list (RuntimeType * option string *
                    option (option string * option string * option (list string)))) :=
  let '(service, h) := createMockService "us-east-1" funcs plugins in
  match @findHandlers (mock_fs files) service defaultRuntime defaultNodeRuntime h with
  | (Ok hs, h') => Ok ((λ hi, (type hi, runtime hi, object_at h' (handler hi))) <$> hs)
  | (Throw e, _) => Throw e
  end.

(** ** describe("findHandlers") *)

Definition it_finds_all_node_and_python : Prop :=
  run_findHandlers []
    [ ("func-a", fn "myfile.handler" (Some "nodejs8.10"));
      ("func-b", fn "myfile.handler" (Some "go1.10"));
      ("func-c", fn "myfile.handler" (Some "nodejs10.x"));
      ("func-d", fn "myfile.handler" (Some "python2.7"));
      ("func-e", fn "myfile.handler" (Some "python3.6"));
      ("func-f", fn "myfile.handler" (Some "python3.7"));
      ("func-g", fn "myfile.handler" (Some "python3.8"));
      ("func-h", fn "myfile.handler" (Some "nodejs12.x")) ] None None None
  = Ok [ (NODE, Some "nodejs8.10", Some (Some "myfile.handler", Some "nodejs8.10", None));
         (UNSUPPORTED, Some "go1.10", Some (Some "myfile.handler", Some "go1.10", None));
         (NODE, Some "nodejs10.x", Some (Some "myfile.handler", Some "nodejs10.x", None));
         (PYTHON, Some "python2.7", Some (Some "myfile.handler", Some "python2.7", None));
         (PYTHON, Some "python3.6", Some (Some "myfile.handler", Some "python3.6", None));
         (PYTHON, Some "python3.7", Some (Some "myfile.handler", Some "python3.7", None));
         (PYTHON, Some "python3.8", Some (Some "myfile.handler", Some "python3.8", None));
         (NODE, Some "nodejs12.x", Some (Some "myfile.handler", Some "nodejs12.x", None)) ].

Definition it_uses_the_global_runtime : Prop :=
  run_findHandlers [] [ ("func-a", fn "myfile.handler" None) ] None
    (Some "nodejs8.10") None
  = Ok [ (NODE, Some "nodejs8.10", Some (Some "myfile.handler", None, None)) ].

(** The function literal of the four tests on file probes. *)
Definition mylambda : list (string * FunctionDefinition) :=
  [ ("func-a", fn "mylambda.handler" (Some "nodejs8.10")) ].

Definition mylambda_as (t : RuntimeType) :
    result (list (RuntimeType * option string *
                  option (option string * option string * option (list string)))) :=
  Ok [ (t, Some "nodejs8.10", Some (Some "mylambda.handler", Some "nodejs8.10", None)) ].

Definition it_uses_typescript_when_ts_file : Prop :=
  run_findHandlers ["mylambda.ts"] mylambda None (Some "nodejs8.10") None
  = mylambda_as NODE_TS.

Definition it_uses_es6_when_es_js_file : Prop :=
  run_findHandlers ["mylambda.es.js"] mylambda None (Some "nodejs8.10") None
  = mylambda_as NODE_ES6.

Definition it_uses_es6_when_mjs_file : Prop :=
  run_findHandlers ["mylambda.mjs"] mylambda None (Some "nodejs8.10") None
  = mylambda_as NODE_ES6.

Definition it_uses_default_node_runtime : Prop :=
  run_findHandlers ["mylambda.js"] mylambda None (Some "nodejs8.10") (Some NODE_TS)
  = mylambda_as NODE_TS.

Definition it_uses_es6_when_webpack : Prop :=
  run_findHandlers ["mylambda.js"] mylambda
    (Some ["serverless-plugin-datadog"; "serverless-webpack"]) (Some "nodejs8.10") None
  = mylambda_as NODE_ES6.

(** ** describe("applyLayers") *)

(** The handler record of the tests: type NODE unless stated, runtime
    nodejs10.x, referring to the object at location 1. *)
Definition test_handler (t : RuntimeType) (rt : option string) : HandlerInfo :=
  {| name := ""; type := t; handler := 1%positive; runtime := rt |}.

(** The store with the object [{ runtime, layers }] at location 1. *)
Definition test_heap (rt : option string) (layers : option (list string)) : heap :=
  match layers with
  | None => Heap {[ 1%positive := mkFunctionDefinition None rt None ]} ∅
  | Some v => Heap {[ 1%positive := mkFunctionDefinition None rt (Some 1%positive) ]}
                   {[ 1%positive := v ]}
  end.

Definition test_layers (rt arn : string) : LayerJSON :=
  {| regions := {[ "us-east-1" := {[ rt := arn ]} ]} |}.

(** [applyLayers] on the test store, and the object at location 1
    afterwards. *)
Definition run_applyLayers (region : string) (hi : HandlerInfo) (layers : LayerJSON)
    (h : heap) : result unit * option (option string * option string * option (list string)) :=
  let '(r, h') := applyLayers region [hi] layers h in (r, object_at h' 1%positive).

Definition it_adds_a_layer_array : Prop :=
  run_applyLayers "us-east-1" (test_handler NODE (Some "nodejs10.x"))
    (test_layers "nodejs10.x" "node:2") (test_heap (Some "nodejs10.x") None)
  = (Ok tt, Some (None, Some "nodejs10.x", Some ["node:2"])).

Definition it_appends_to_the_layer_array : Prop :=
  run_applyLayers "us-east-1" (test_handler NODE (Some "nodejs10.x"))
    (test_layers "nodejs10.x" "node:2") (test_heap (Some "nodejs10.x") (Some ["node:1"]))
  = (Ok tt, Some (None, Some "nodejs10.x", Some ["node:1"; "node:2"])).

Definition it_does_not_add_duplicate_layers : Prop :=
  run_applyLayers "us-east-1" (test_handler NODE (Some "nodejs10.x"))
    (test_layers "nodejs10.x" "node:1") (test_heap (Some "nodejs10.x") (Some ["node:1"]))
  = (Ok tt, Some (None, Some "nodejs10.x", Some ["node:1"])).

Definition it_only_adds_when_region_found : Prop :=
  run_applyLayers "us-east-2" (test_handler NODE (Some "nodejs10.x"))
    (test_layers "nodejs10.x" "node:1") (test_heap (Some "nodejs10.x") None)
  = (Ok tt, Some (None, Some "nodejs10.x", None)).

Definition it_only_adds_when_layer_arn_found : Prop :=
  run_applyLayers "us-east-1" (test_handler NODE (Some "nodejs10.x"))
    (test_layers "python2.7" "python:2") (test_heap (Some "nodejs10.x") None)
  = (Ok tt, Some (None, Some "nodejs10.x", None)).

Definition it_only_adds_when_runtime_present : Prop :=
  run_applyLayers "us-east-1" (test_handler NODE (Some "nodejs10.x"))
    (test_layers "python2.7" "python:2") (test_heap None None)
  = (Ok tt, Some (None, None, None)).

Definition it_only_adds_when_supported_runtime : Prop :=
  run_applyLayers "us-east-1" (test_handler UNSUPPORTED None)
    (test_layers "python2.7" "python:2") (test_heap None None)
  = (Ok tt, Some (None, None, None)).

(** ** The suite *)

Definition findHandlers_tests : list Prop :=
  [ it_finds_all_node_and_python; it_uses_the_global_runtime;
    it_uses_typescript_when_ts_file; it_uses_es6_when_es_js_file;
    it_uses_es6_when_mjs_file; it_uses_default_node_runtime;
    it_uses_es6_when_webpack ].

Definition applyLayers_tests : list Prop :=
  [ it_adds_a_layer_array; it_appends_to_the_layer_array;
    it_does_not_add_duplicate_layers; it_only_adds_when_region_found;
    it_only_adds_when_layer_arn_found; it_only_adds_when_runtime_present;
    it_only_adds_when_supported_runtime ].

(** The model passes the jest suite of the repository: the seven tests
    of [findHandlers] and the seven tests of [applyLayers] compare equal
    on the model.  This checks the model against the behaviour the
    repository records of the code; it is evidence for the definitions,
    not a property of the program. *)
Theorem jest_suite : Forall id (findHandlers_tests ++ applyLayers_tests).
Proof. repeat constructor; by vm_compute. Qed.
